(** * Market-Data-Node: the Express proxy of [server.js]

    A shallow embedding of the two read endpoints [/price] and [/history]
    of [server.js], their two in-memory caches and their fallback chains,
    followed by the properties of the specification that concern them.

    Modelling conventions.
    - JavaScript numbers are IEEE-754 binary64 values ([spec_float] with
      precision 53 and maximal exponent 1024).
    - [Date.now()] yields an integral count of milliseconds; clock
      readings, cache time stamps and the two TTLs are integers ([Z]),
      on which the subtraction and comparison of the source are exact.
    - HTTP status codes are integers.
    - Parsed JSON (what axios hands over as [response.data]) is a [value].
    - The handlers are programs over the effects they perform: reading
      the clock, awaiting an upstream call, reading and writing the two
      cache maps, throwing.  [try]/[catch] is a function on programs.
    - A conversion of a value to a string or to a number raises a
      TypeError when the value is, or as an array holds, an object with a
      property of its own named [toString]: [converts] tells, and
      [Number] is the call that may throw.
    - Query parameters are absent or a string (repeated or nested query
      parameters, which Express would hand over as arrays or objects, are
      outside the model); strings are sequences of ASCII characters. *)

From Stdlib Require Import ZArith Ascii String List Bool Lia.
From Stdlib Require Import SpecFloat DecimalString.
From stdpp Require Import gmap strings list fin_maps pretty.

Local Open Scope string_scope.
Local Open Scope Z_scope.
Set Warnings "-register-all".

(** ** JavaScript numbers *)

Module Num.

Definition number : Type := spec_float.

Definition prec : Z := 53.
Definition emax : Z := 1024.

Definition NaN : number := S754_nan.
Definition zero : number := S754_zero false.

(** The number denoted by an integer literal of the source. *)
Definition of_Z (z : Z) : number := binary_normalize prec emax z 0 false.

Definition add (x y : number) : number := SFadd prec emax x y.
Definition mul (x y : number) : number := SFmul prec emax x y.

Definition is_nan (x : number) : bool :=
  match x with S754_nan => true | _ => false end.

Definition is_zero (x : number) : bool :=
  match x with S754_zero _ => true | _ => false end.

Definition is_neg_zero (x : number) : bool :=
  match x with S754_zero true => true | _ => false end.

(** [Math.min(a, b)]: NaN if either is NaN, and -0 is below +0. *)
Definition min (a b : number) : number :=
  match SFcompare a b with
  | None => NaN
  | Some Lt => a
  | Some Gt => b
  | Some Eq => if is_neg_zero a then a else b
  end.

End Num.

#[global] Instance spec_float_eq_dec : EqDecision spec_float.
Proof. solve_decision. Defined.

#[global] Instance number_eq_dec : EqDecision Num.number := spec_float_eq_dec.

Abbreviation number := Num.number.

(** ** JSON values and the coercions the handlers apply to them *)

Inductive value : Type :=
| VUndefined
| VNull
| VBool (b : bool)
| VNum (x : number)
| VStr (s : string)
| VArr (elems : list value)
| VObj (fields : list (string * value)).

(** The two string conversions of ECMAScript, [Number::toString] and
    [StringToNumber], are not interpreted: everything below holds for
    every interpretation that reads the empty string as [+0], as
    ECMAScript does. *)
Class JsConv : Type := {
  NumberToString : number -> string;
  StringToNumber : string -> number;
  StringToNumber_empty : StringToNumber "" = Num.zero
}.

(** [ToBoolean]: the falsy values are undefined, null, false, 0, -0, NaN
    and the empty string. *)
Definition ToBoolean (v : value) : bool :=
  match v with
  | VUndefined | VNull => false
  | VBool b => b
  | VNum x => negb (Num.is_zero x || Num.is_nan x)
  | VStr s => negb (String.eqb s "")
  | VArr _ | VObj _ => true
  end.

(** [a || b] *)
Definition js_or (a b : value) : value := if ToBoolean a then a else b.

(** [x === undefined] *)
Definition is_undefined (v : value) : bool :=
  match v with VUndefined => true | _ => false end.

Definition join (sep : string) (parts : list string) : string :=
  match parts with
  | [] => ""
  | p :: ps => fold_left (fun acc q => acc +:+ sep +:+ q) ps p
  end.

(** Whether [o] has a property of its own named [key]. *)
Fixpoint has_own (fields : list (string * value)) (key : string) : bool :=
  match fields with
  | [] => false
  | (k, _) :: rest => String.eqb k key || has_own rest key
  end.

(** Whether the conversion of [v] to a primitive, and so [String(v)]
    and [Number(v)], completes; otherwise it raises a TypeError.
    A primitive converts.  A parsed JSON object converts through the
    [toString] it inherits from [Object.prototype] (its [valueOf],
    inherited or not, yields no primitive), unless a property of its own
    named [toString] hides that method: no JSON value is callable, and
    the conversion finds no method to call.  An array converts through
    [join], which converts each of its elements that is neither null nor
    undefined. *)
Fixpoint converts (v : value) : bool :=
  match v with
  | VObj fields => negb (has_own fields "toString")
  | VArr elems => forallb converts elems
  | _ => true
  end.

Section Coercions.
Context `{JsConv}.

(** The string that [String(v)], a template literal, or [Number] on an
    array makes of [v], when the conversion completes ([converts]); an
    array joins its elements with commas, null and undefined elements
    contributing the empty string. *)
Fixpoint ToString (v : value) : string :=
  match v with
  | VUndefined => "undefined"
  | VNull => "null"
  | VBool true => "true"
  | VBool false => "false"
  | VNum x => NumberToString x
  | VStr s => s
  | VArr elems =>
      join "," (List.map (fun e => match e with
                                   | VUndefined | VNull => ""
                                   | _ => ToString e
                                   end) elems)
  | VObj _ => "[object Object]"
  end.

(** The number that [Number(v)] makes of [v], when the conversion
    completes. *)
Definition ToNumber (v : value) : number :=
  match v with
  | VUndefined => Num.NaN
  | VNull => Num.zero
  | VBool true => Num.of_Z 1
  | VBool false => Num.zero
  | VNum x => x
  | VStr s => StringToNumber s
  | VArr _ | VObj _ => StringToNumber (ToString v)
  end.

(** [Number(v)]: [None] is the TypeError of a conversion that does not
    complete. *)
Definition Number (v : value) : option number :=
  if converts v then Some (ToNumber v) else None.

End Coercions.

(** Own property [o.key] of a JSON object. *)
Fixpoint obj_get (fields : list (string * value)) (key : string) : value :=
  match fields with
  | [] => VUndefined
  | (k, v) :: rest => if String.eqb k key then v else obj_get rest key
  end.

(** [v?.key] for a key that is not an array index nor [length]: only
    objects carry such a property. *)
Definition opt_prop (v : value) (key : string) : value :=
  match v with
  | VObj fields => obj_get fields key
  | _ => VUndefined
  end.

Definition string_of_digit (i : nat) : string :=
  String (ascii_of_nat (48 + i)) "".

(** [k[i]] for a one-digit index [i]; [None] is the TypeError raised when
    [k] is null or undefined. *)
Definition index (k : value) (i : nat) : option value :=
  match k with
  | VUndefined | VNull => None
  | VArr elems => Some (nth i elems VUndefined)
  | VStr s => Some (match String.get i s with
                    | Some c => VStr (String c "")
                    | None => VUndefined
                    end)
  | VObj fields => Some (obj_get fields (string_of_digit i))
  | VBool _ | VNum _ => Some VUndefined
  end.

(** [s.toUpperCase()] on ASCII. *)
Definition upper_ascii (c : ascii) : ascii :=
  let n := nat_of_ascii c in
  if (97 <=? n)%nat && (n <=? 122)%nat then ascii_of_nat (n - 32) else c.

Fixpoint toUpperCase (s : string) : string :=
  match s with
  | EmptyString => EmptyString
  | String c rest => String (upper_ascii c) (toUpperCase rest)
  end.

(** [q || dflt] for an optional query parameter. *)
Definition or_default (q : option string) (dflt : string) : string :=
  match q with
  | Some s => if String.eqb s "" then dflt else s
  | None => dflt
  end.

(** ** Upstream HTTP traffic *)

(** [buildHeaders()] *)
Definition buildHeaders : list (string * string) :=
  [("Accept", "application/json"); ("User-Agent", "Z6X-Market-Data-Node/1.0")].

(** The [params] object of an [axios.get] call. *)
Inductive Params : Type :=
| TickerParams (symbol : string)
| KlineParams (symbol : string) (interval : string) (limit : number).

Record HttpRequest : Type := {
  rq_url : string;
  rq_params : Params;
  rq_headers : list (string * string);
  rq_timeout : Z
}.

Record HttpResponse : Type := {
  rs_status : Z;
  rs_data : value
}.

(** What a handler can catch: the rejection of an axios call, which
    carries the upstream response when there was one (none on a timeout
    or a network failure), or a TypeError raised by the handler's own
    code on ill-shaped data. *)
Inductive JsError : Type :=
| AxiosError (response : option HttpResponse)
| TypeError.

(** [error.response?.status || 500] *)
Definition error_status (e : JsError) : Z :=
  match e with
  | AxiosError (Some r) => if rs_status r =? 0 then 500 else rs_status r
  | _ => 500
  end.

(** [error.response?.data || null] *)
Definition error_details (e : JsError) : value :=
  match e with
  | AxiosError (Some r) => js_or (rs_data r) VNull
  | _ => VNull
  end.

(** ** Payloads, cache entries and responses *)

Record PricePayload : Type := {
  pp_symbol : string;
  pp_currency : string;
  pp_price : number;
  pp_source : string;
  pp_timestamp : Z
}.

Record Point : Type := {
  pt_t : value;
  pt_price : number
}.

Record HistoryPayload : Type := {
  hp_symbol : string;
  hp_days : value;
  hp_interval : string;
  hp_points : list Point;
  hp_volume24h : option number;     (* [None] is null *)
  hp_source : string
}.

(** An entry of [historyCache]: [{ payload, timestamp }].  An entry of
    [priceCache] is the price payload itself, whose [timestamp] field
    doubles as the write time. *)
Record HistoryEntry : Type := {
  he_payload : HistoryPayload;
  he_timestamp : Z
}.

(** Response bodies.  [cached] and [warning] are the optional fields the
    handlers add to a payload with [{ ...payload, cached, warning }];
    [details] is present in the bodies built by the catch blocks. *)
Inductive Body : Type :=
| BError (error : string) (details : option value)
| BPrice (payload : PricePayload) (cached : option bool) (warning : option string)
| BHistory (payload : HistoryPayload) (cached : option bool) (warning : option string).

Record Response : Type := {
  status : Z;
  body : Body
}.

(** [res.json(b)] and [res.status(s).json(b)] *)
Definition json (b : Body) : Response := {| status := 200; body := b |}.
Definition status_json (s : Z) (b : Body) : Response := {| status := s; body := b |}.

(** ** Handler programs *)

Inductive Prog (A : Type) : Type :=
| Ret (a : A)
| Throw (e : JsError)
| DateNow (k : Z -> Prog A)
| AxiosGet (rq : HttpRequest) (k : HttpResponse + option HttpResponse -> Prog A)
| PriceCacheGet (key : string) (k : option PricePayload -> Prog A)
| PriceCacheSet (key : string) (v : PricePayload) (k : Prog A)
| HistoryCacheGet (key : string) (k : option HistoryEntry -> Prog A)
| HistoryCacheSet (key : string) (v : HistoryEntry) (k : Prog A).

Arguments Ret {A} a.
Arguments Throw {A} e.
Arguments DateNow {A} k.
Arguments AxiosGet {A} rq k.
Arguments PriceCacheGet {A} key k.
Arguments PriceCacheSet {A} key v k.
Arguments HistoryCacheGet {A} key k.
Arguments HistoryCacheSet {A} key v k.

Fixpoint bind {A B : Type} (p : Prog A) (f : A -> Prog B) : Prog B :=
  match p with
  | Ret a => f a
  | Throw e => Throw e
  | DateNow k => DateNow (fun z => bind (k z) f)
  | AxiosGet rq k => AxiosGet rq (fun r => bind (k r) f)
  | PriceCacheGet key k => PriceCacheGet key (fun v => bind (k v) f)
  | PriceCacheSet key v k => PriceCacheSet key v (bind k f)
  | HistoryCacheGet key k => HistoryCacheGet key (fun v => bind (k v) f)
  | HistoryCacheSet key v k => HistoryCacheSet key v (bind k f)
  end.

(** [try { p } catch (e) { h e }] *)
Fixpoint try_catch {A : Type} (p : Prog A) (h : JsError -> Prog A) : Prog A :=
  match p with
  | Ret a => Ret a
  | Throw e => h e
  | DateNow k => DateNow (fun z => try_catch (k z) h)
  | AxiosGet rq k => AxiosGet rq (fun r => try_catch (k r) h)
  | PriceCacheGet key k => PriceCacheGet key (fun v => try_catch (k v) h)
  | PriceCacheSet key v k => PriceCacheSet key v (try_catch k h)
  | HistoryCacheGet key k => HistoryCacheGet key (fun v => try_catch (k v) h)
  | HistoryCacheSet key v k => HistoryCacheSet key v (try_catch k h)
  end.

Notation "'let*' x ':=' p 'in' q" := (bind p (fun x => q))
  (at level 10, x name, p at level 100, q at level 200).
Notation "p ';;' q" := (bind p (fun _ => q))
  (at level 100, q at level 200, right associativity).

(** The effects as programs. *)

(** [Date.now()] *)
Definition Date_now : Prog Z := DateNow Ret.

(** The request of [axios.get(url, { params, headers: buildHeaders(), timeout: 5000 })] *)
Definition axios_request (url : string) (params : Params) : HttpRequest :=
  {| rq_url := url; rq_params := params; rq_headers := buildHeaders; rq_timeout := 5000 |}.

(** [await axios.get(url, { params, ... })]: the promise resolves with
    the response or rejects with an error, which the await throws. *)
Definition axios_get (url : string) (params : Params) : Prog HttpResponse :=
  AxiosGet (axios_request url params)
           (fun r => match r with
                     | inl response => Ret response
                     | inr response => Throw (AxiosError response)
                     end).

Definition priceCache_get (key : string) : Prog (option PricePayload) :=
  PriceCacheGet key Ret.
Definition priceCache_set (key : string) (v : PricePayload) : Prog unit :=
  PriceCacheSet key v (Ret tt).
Definition historyCache_get (key : string) : Prog (option HistoryEntry) :=
  HistoryCacheGet key Ret.
Definition historyCache_set (key : string) (v : HistoryEntry) : Prog unit :=
  HistoryCacheSet key v (Ret tt).

(** ** The process: configuration, caches, clock and upstream *)

(** The constants read from the environment at start-up, and the
    mock-history flag, which is read from it on each request. *)
Record Config : Type := {
  PRICE_API_BASE : string;
  HISTORY_API_BASE : string;
  CACHE_TTL_MS : Z;
  HISTORY_CACHE_TTL_MS : Z;
  MOCK_HISTORY : option string
}.

Definition DEFAULT_PRICE_API_BASE : string := "https://api.binance.com/api/v3/ticker/price".
Definition DEFAULT_HISTORY_API_BASE : string := "https://api.binance.com/api/v3/klines".

(** The configuration of an empty environment. *)
Definition default_config : Config := {|
  PRICE_API_BASE := DEFAULT_PRICE_API_BASE;
  HISTORY_API_BASE := DEFAULT_HISTORY_API_BASE;
  CACHE_TTL_MS := 60000;
  HISTORY_CACHE_TTL_MS := 300000;
  MOCK_HISTORY := None
|}.

(** [process.env.MOCK_HISTORY === 'true'] *)
Definition mock_enabled (cfg : Config) : bool :=
  match MOCK_HISTORY cfg with
  | Some s => String.eqb s "true"
  | None => false
  end.

(** The two cache maps, the upstream requests issued so far (oldest
    first) and the number of clock readings taken so far. *)
Record World : Type := {
  priceCache : gmap string PricePayload;
  historyCache : gmap string HistoryEntry;
  requests : list HttpRequest;
  ticks : nat
}.

Definition initial_world : World := {|
  priceCache := ∅;
  historyCache := ∅;
  requests := [];
  ticks := 0
|}.

(** The surroundings of a run: what the n-th reading of the clock shows,
    and how upstream answers the n-th request. *)
Record Oracle : Type := {
  clock : nat -> Z;
  upstream : nat -> HttpRequest -> HttpResponse + option HttpResponse
}.

(** The effect of each event on the process. *)
Definition tick (w : World) : World :=
  {| priceCache := priceCache w; historyCache := historyCache w;
     requests := requests w; ticks := S (ticks w) |}.

Definition sent (rq : HttpRequest) (w : World) : World :=
  {| priceCache := priceCache w; historyCache := historyCache w;
     requests := requests w ++ [rq]; ticks := ticks w |}.

Definition set_price (key : string) (v : PricePayload) (w : World) : World :=
  {| priceCache := <[key := v]> (priceCache w); historyCache := historyCache w;
     requests := requests w; ticks := ticks w |}.

Definition set_history (key : string) (v : HistoryEntry) (w : World) : World :=
  {| priceCache := priceCache w; historyCache := <[key := v]> (historyCache w);
     requests := requests w; ticks := ticks w |}.

(** Running a program to its end. *)
Fixpoint run {A : Type} (o : Oracle) (p : Prog A) (w : World) : (JsError + A) * World :=
  match p with
  | Ret a => (inr a, w)
  | Throw e => (inl e, w)
  | DateNow k => run o (k (clock o (ticks w))) (tick w)
  | AxiosGet rq k => run o (k (upstream o (length (requests w)) rq)) (sent rq w)
  | PriceCacheGet key k => run o (k (priceCache w !! key)) w
  | PriceCacheSet key v k => run o k (set_price key v w)
  | HistoryCacheGet key k => run o (k (historyCache w !! key)) w
  | HistoryCacheSet key v k => run o k (set_history key v w)
  end.

(** One event of a program, whatever the clock shows and whatever
    upstream answers. *)
Inductive pstep {A : Type} : Prog A -> World -> Prog A -> World -> Prop :=
| step_now k w z : pstep (DateNow k) w (k z) (tick w)
| step_axios rq k w r : pstep (AxiosGet rq k) w (k r) (sent rq w)
| step_price_get key k w : pstep (PriceCacheGet key k) w (k (priceCache w !! key)) w
| step_price_set key v k w : pstep (PriceCacheSet key v k) w k (set_price key v w)
| step_history_get key k w : pstep (HistoryCacheGet key k) w (k (historyCache w !! key)) w
| step_history_set key v k w : pstep (HistoryCacheSet key v k) w k (set_history key v w).

(** ** The handlers of [server.js] *)

(** The query string of a request: each parameter absent or a string.
    A parameter that is repeated or nested in the URL, which Express
    hands over as an array or an object, is outside the model: on such a
    [symbol] or [currency] the handlers throw at [.toUpperCase()],
    before their [try], and send no response. *)
Record Query : Type := {
  q_symbol : option string;
  q_currency : option string;
  q_days : option string;
  q_interval : option string
}.

(** The object [symbolToId].  It is only ever indexed by an upper-cased
    symbol, and the properties an object literal inherits all have a
    lower-case letter in their name: a lookup finds an own property or
    nothing. *)
Definition symbolToId : gmap string string :=
  list_to_map [("BTC", "BTCUSDT"); ("ETH", "ETHUSDT"); ("SOL", "SOLUSDT"); ("ASTER", "ASTRUSDT")].

(** [`${ticker}`] for the result of [symbolToId[symbol]] *)
Definition ticker_text (ticker : option string) : string :=
  match ticker with
  | Some tk => tk
  | None => "undefined"
  end.

(** Raising the TypeError of an ill-shaped access. *)
Definition or_throw {A : Type} (r : option A) : Prog A :=
  match r with
  | Some a => Ret a
  | None => Throw TypeError
  end.

(** [(req.query.symbol || 'BTC').toUpperCase()] *)
Definition symbol_of (req : Query) : string :=
  toUpperCase (or_default (q_symbol req) "BTC").

(** [(req.query.currency || 'USD').toUpperCase()] *)
Definition currency_of (req : Query) : string :=
  toUpperCase (or_default (q_currency req) "USD").

(** [req.query.interval || 'hourly'] *)
Definition interval_of (req : Query) : string :=
  or_default (q_interval req) "hourly".

(** [req.query.days || 1]: a string that is not empty, or the number 1,
    whose conversions by [`${days}`] and [Number(days || 1)] complete. *)
Definition days_of (req : Query) : value :=
  match q_days req with
  | Some d => js_or (VStr d) (VNum (Num.of_Z 1))
  | None => VNum (Num.of_Z 1)
  end.

(** [`${ticker}:${currency}`] *)
Definition price_cacheKey (ticker : option string) (currency : string) : string :=
  ticker_text ticker +:+ ":" +:+ currency.

Section Handlers.
Context `{JsConv}.
Variable cfg : Config.

(** [`${ticker}:usd:${days}:${interval}`] *)
Definition history_cacheKey (ticker : option string) (days : value) (interval : string) : string :=
  ticker_text ticker +:+ ":usd:" +:+ ToString days +:+ ":" +:+ interval.

(** [(k) => ({ t: k[0], price: Number(k[4]) })] *)
Definition kline_point (k : value) : option Point :=
  match index k 0, index k 4 with
  | Some t, Some close =>
      match Number close with
      | Some price => Some {| pt_t := t; pt_price := price |}
      | None => None
      end
  | _, _ => None
  end.

Fixpoint map_rows (rows : list value) : option (list Point) :=
  match rows with
  | [] => Some []
  | k :: rest =>
      match kline_point k, map_rows rest with
      | Some p, Some ps => Some (p :: ps)
      | _, _ => None
      end
  end.

(** [klines.map(...)]: only an array has a [map] method. *)
Definition klines_map (klines : value) : option (list Point) :=
  match klines with
  | VArr rows => map_rows rows
  | _ => None
  end.

(** [klines.reduce((sum, k) => sum + Number(k[7] || 0), sum0)] *)
Fixpoint reduce_volume (rows : list value) (sum : number) : option number :=
  match rows with
  | [] => Some sum
  | k :: rest =>
      match index k 7 with
      | Some q =>
          match Number (js_or q (VNum (Num.of_Z 0))) with
          | Some volume => reduce_volume rest (Num.add sum volume)
          | None => None
          end
      | None => None
      end
  end.

(** [klines.length ? klines.reduce(..., 0) : null] *)
Definition klines_volume (klines : value) : option (option number) :=
  match klines with
  | VArr [] => Some None
  | VArr rows =>
      match reduce_volume rows (Num.of_Z 0) with
      | Some v => Some (Some v)
      | None => None
      end
  | _ => None
  end.

Definition mockPoints (now : Z) : list Point :=
  [ {| pt_t := VNum (Num.of_Z (now - 4 * 60 * 60 * 1000)); pt_price := Num.of_Z 86000 |};
    {| pt_t := VNum (Num.of_Z (now - 3 * 60 * 60 * 1000)); pt_price := Num.of_Z 86500 |};
    {| pt_t := VNum (Num.of_Z (now - 2 * 60 * 60 * 1000)); pt_price := Num.of_Z 86200 |};
    {| pt_t := VNum (Num.of_Z (now - 1 * 60 * 60 * 1000)); pt_price := Num.of_Z 87000 |};
    {| pt_t := VNum (Num.of_Z (now - 30 * 60 * 1000)); pt_price := Num.of_Z 88500 |};
    {| pt_t := VNum (Num.of_Z now); pt_price := Num.of_Z 88800 |} ].

(** [Array.from({ length: 12 }, (_, idx) => ({ t: now - (11 - idx) * 5 * 60 * 1000, price }))] *)
Definition fallbackPoints (now : Z) (price : number) : list Point :=
  List.map (fun idx : nat =>
              {| pt_t := VNum (Num.of_Z (now - (11 - Z.of_nat idx) * 5 * 60 * 1000));
                 pt_price := price |})
           (seq 0 12).

Definition binanceInterval_of (interval : string) : string :=
  if String.eqb interval "hourly" then "1h"
  else if String.eqb interval "daily" then "1d"
  else "1h".

Definition limit_of (binanceInterval : string) (days : value) : number :=
  if String.eqb binanceInterval "1h"
  then Num.min (Num.mul (ToNumber (js_or days (VNum (Num.of_Z 1)))) (Num.of_Z 24)) (Num.of_Z 1000)
  else Num.min (ToNumber (js_or days (VNum (Num.of_Z 1)))) (Num.of_Z 1000).

(** The last two responses of the catch block of [/history], reached
    when neither the cached payload nor the flat series was served. *)
Definition history_failure (error : JsError) : Response :=
  let status := error_status error in
  if status =? 401
  then status_json 401
         (BError "Unauthorized with upstream. Provide API_KEY if required by provider."
                 (Some (error_details error)))
  else status_json status (BError "History request failed" (Some (error_details error))).

(** [app.get('/history', ...)] *)
Definition history (req : Query) : Prog Response :=
  let symbol := symbol_of req in
  let days := days_of req in
  let interval := interval_of req in
  let ticker := symbolToId !! symbol in
  let cacheKey := history_cacheKey ticker days interval in
  let* now := Date_now in
  if mock_enabled cfg then
    Ret (json (BHistory {| hp_symbol := symbol; hp_days := days; hp_interval := interval;
                           hp_points := mockPoints now;
                           hp_volume24h := Some (Num.of_Z 2500000);
                           hp_source := "mock-history" |}
                        (Some true)
                        (Some "MOCK_HISTORY enabled; serving demo data.")))
  else
  match ticker with
  | None => Ret (status_json 400 (BError "Unsupported symbol" None))
  | Some ticker =>
  let url := HISTORY_API_BASE cfg in
  let* cached := historyCache_get cacheKey in
  let* isCacheFresh :=
    match cached with
    | Some c => let* now := Date_now in Ret (now - he_timestamp c <? HISTORY_CACHE_TTL_MS cfg)
    | None => Ret false
    end in
  match cached, isCacheFresh with
  | Some c, true => Ret (json (BHistory (he_payload c) (Some true) None))
  | _, _ =>
  let requestHistory (params : Params) := axios_get url params in
  let binanceInterval := binanceInterval_of interval in
  let limit := limit_of binanceInterval days in
  try_catch
    (let* response :=
       try_catch
         (requestHistory (KlineParams ticker binanceInterval limit))
         (fun err =>
            let status := error_status err in
            if status =? 429
            then requestHistory (KlineParams ticker "1d" (Num.of_Z 30))
            else Throw err) in
     let klines := js_or (rs_data response) (VArr []) in
     let* series := or_throw (klines_map klines) in
     match series with
     | [] => Ret (status_json 502 (BError "History not available" None))
     | _ :: _ =>
     let* volume24h := or_throw (klines_volume klines) in
     let payload :=
       {| hp_symbol := symbol; hp_days := days; hp_interval := interval;
          hp_points := series;
          hp_volume24h := volume24h;
          hp_source := url +:+ "?symbol=" +:+ ticker +:+ "&interval=" +:+ binanceInterval
                           +:+ "&limit=" +:+ ToString (VNum limit) |} in
     let* written := Date_now in
     historyCache_set cacheKey {| he_payload := payload; he_timestamp := written |} ;;
     Ret (json (BHistory payload None None))
     end)
    (fun error =>
       let status := error_status error in
       match cached with
       | Some c =>
           if (status =? 429) || (status =? 401) || (status =? 403)
           then Ret (json (BHistory (he_payload c) (Some true)
                            (Some (if status =? 429
                                   then "Upstream rate limit hit, serving cached history."
                                   else "Upstream rejected request, serving cached history. Set API_KEY if needed."))))
           else Ret (history_failure error)
       | None =>
           let* flat :=
             (if status =? 429
              then
                (* Fall back to a flat series using the latest spot price. *)
                let* spot := priceCache_get (ticker +:+ ":usd") in
                match spot with
                | Some sp =>
                    if ToBoolean (VNum (pp_price sp))
                    then
                      let* now := Date_now in
                      Ret (Some (json (BHistory
                             {| hp_symbol := symbol; hp_days := days; hp_interval := interval;
                                hp_points := fallbackPoints now (pp_price sp);
                                hp_volume24h := None;
                                hp_source := url +:+ " (fallback)" |}
                             (Some true)
                             (Some "Upstream rate limit hit, serving flat fallback from latest spot."))))
                    else Ret None
                | None => Ret None
                end
              else Ret None) in
           match flat with
           | Some response => Ret response
           | None =>
               Ret (history_failure error)
           end
       end)
  end
  end.

(** [app.get('/price', ...)] *)
Definition price (req : Query) : Prog Response :=
  let symbol := symbol_of req in
  let currency := currency_of req in
  let ticker := symbolToId !! symbol in
  let cacheKey := price_cacheKey ticker currency in
  match ticker with
  | None => Ret (status_json 400 (BError "Unsupported symbol" None))
  | Some ticker =>
  if negb (String.eqb currency "USD")
  then Ret (status_json 400 (BError "Only USD quotes are supported in this demo." None))
  else
  let* cached := priceCache_get cacheKey in
  let* isCacheFresh :=
    match cached with
    | Some c => let* now := Date_now in Ret (now - pp_timestamp c <? CACHE_TTL_MS cfg)
    | None => Ret false
    end in
  match cached, isCacheFresh with
  | Some c, true => Ret (json (BPrice c (Some true) None))
  | _, _ =>
  try_catch
    (let* response :=
       try_catch
         (axios_get (PRICE_API_BASE cfg) (TickerParams ticker))
         (fun err =>
            (* Binance may return validation errors; retry with avgPrice endpoint. *)
            axios_get "https://api.binance.com/api/v3/avgPrice" (TickerParams ticker)) in
     let data := rs_data response in
     let* price := or_throw (Number (js_or (js_or (opt_prop data "price")
                                                  (opt_prop data "priceAvg"))
                                           (opt_prop data "avgPrice"))) in
     if is_undefined (VNum price)
     then Ret (status_json 502 (BError "Price not available" None))
     else
     let* written := Date_now in
     let payload :=
       {| pp_symbol := symbol; pp_currency := toUpperCase currency; pp_price := price;
          pp_source := PRICE_API_BASE cfg; pp_timestamp := written |} in
     priceCache_set cacheKey payload ;;
     Ret (json (BPrice payload None None)))
    (fun error =>
       let status := error_status error in
       match cached with
       | Some c =>
           if status =? 429
           then
             (* Serve slightly stale data when upstream is rate-limiting. *)
             Ret (status_json 200 (BPrice c (Some true)
                                     (Some "Upstream rate limit hit, serving cached price.")))
           else Ret (status_json status (BError "Upstream request failed" (Some (error_details error))))
       | None => Ret (status_json status (BError "Upstream request failed" (Some (error_details error))))
       end)
  end
  end.

End Handlers.

(** ** Vocabulary of the properties *)

Section Vocabulary.
Context `{JsConv}.
Variable cfg : Config.

(** The upstream requests of [/price]: the ticker endpoint, then the
    avgPrice endpoint. *)
Definition price_primary (ticker : string) : HttpRequest :=
  axios_request (PRICE_API_BASE cfg) (TickerParams ticker).

Definition price_fallback (ticker : string) : HttpRequest :=
  axios_request "https://api.binance.com/api/v3/avgPrice" (TickerParams ticker).

(** The upstream requests of [/history]: the klines of the requested
    interval and length, then the degraded request. *)
Definition history_primary (req : Query) (ticker : string) : HttpRequest :=
  axios_request (HISTORY_API_BASE cfg)
    (KlineParams ticker (binanceInterval_of (interval_of req))
       (limit_of (binanceInterval_of (interval_of req)) (days_of req))).

Definition history_degraded (ticker : string) : HttpRequest :=
  axios_request (HISTORY_API_BASE cfg) (KlineParams ticker "1d" (Num.of_Z 30)).

Definition price_key (ticker : string) : string :=
  price_cacheKey (Some ticker) "USD".

Definition history_key (req : Query) (ticker : string) : string :=
  history_cacheKey (Some ticker) (days_of req) (interval_of req).

(** The field of index [i] of a kline row given as an array. *)
Definition field (row : list value) (i : nat) : value := nth i row VUndefined.


(** The price cache holds no fresh entry under [key] when [/price]
    reads it: the clock is read once, at the freshness check. *)
Definition price_stale (o : Oracle) (w : World) (key : string) : Prop :=
  forall c, priceCache w !! key = Some c ->
            CACHE_TTL_MS cfg <= clock o (ticks w) - pp_timestamp c.

(** The history cache holds no fresh entry under [key] when [/history]
    reads it: the clock is read on entry and again at the freshness
    check. *)
Definition history_stale (o : Oracle) (w : World) (key : string) : Prop :=
  forall c, historyCache w !! key = Some c ->
            HISTORY_CACHE_TTL_MS cfg <= clock o (S (ticks w)) - he_timestamp c.

(** The reading of the clock that stamps the entry which [/price]
    writes: the first of the run, or the second when there was an entry
    whose freshness had to be checked. *)
Definition price_write_time (o : Oracle) (w : World) (key : string) : Z :=
  clock o (match priceCache w !! key with
           | Some _ => S (ticks w)
           | None => ticks w
           end).

(** The same for [/history], which reads the clock once more, on entry. *)
Definition history_write_time (o : Oracle) (w : World) (key : string) : Z :=
  clock o (match historyCache w !! key with
           | Some _ => S (S (ticks w))
           | None => S (ticks w)
           end).

(** Upstream answers the price fetch of [/price] with [response]: the
    ticker endpoint does, or it fails and the avgPrice endpoint does. *)
Definition price_fetched (o : Oracle) (w : World) (ticker : string)
           (response : HttpResponse) : Prop :=
  upstream o (length (requests w)) (price_primary ticker) = inl response \/
  exists failure,
    upstream o (length (requests w)) (price_primary ticker) = inr failure /\
    upstream o (S (length (requests w))) (price_fallback ticker) = inl response.

(** Upstream answers the klines fetch of [/history] with [response]:
    the primary request succeeds, or it fails with status 429 and the
    degraded request succeeds. *)
Definition klines_fetched (o : Oracle) (w : World) (req : Query) (ticker : string)
           (response : HttpResponse) : Prop :=
  upstream o (length (requests w)) (history_primary req ticker) = inl response \/
  exists failure,
    upstream o (length (requests w)) (history_primary req ticker) = inr failure /\
    error_status (AxiosError failure) = 429 /\
    upstream o (S (length (requests w))) (history_degraded ticker) = inl response.

End Vocabulary.

(** ** The process as a whole *)

Section Reachability.
Context `{JsConv}.
Variable cfg : Config.

(** The states of the process: the world, and the handler runs in
    flight, each at the event it performs next.  The process starts
    with empty caches; a request may arrive at any moment, and the
    events of the runs in flight interleave in any order (which covers
    the interleavings at the awaits of the cooperative scheduler). *)
Inductive Reachable : World -> list (Prog Response) -> Prop :=
| reach_init : Reachable initial_world []
| reach_price req w pool :
    Reachable w pool -> Reachable w (price cfg req :: pool)
| reach_history req w pool :
    Reachable w pool -> Reachable w (history cfg req :: pool)
| reach_step w pool1 p pool2 p' w' :
    Reachable w (pool1 ++ p :: pool2) -> pstep p w p' w' ->
    Reachable w' (pool1 ++ p' :: pool2).

Definition reachable (w : World) : Prop := exists pool, Reachable w pool.

End Reachability.

(** How a finished run stays in the pool. *)
Definition finished {A : Type} (r : JsError + A) : Prog A :=
  match r with
  | inr a => Ret a
  | inl e => Throw e
  end.

(** ** Assume-guarantee conditions on programs *)

Section Safe.
Variable P : string -> PricePayload -> Prop.
Variable Q : string -> HistoryEntry -> Prop.

(** [safe R p]: provided every entry that [p] reads from the price
    cache satisfies [P] and every entry it reads from the history cache
    satisfies [Q], every entry it writes does so too, no exception
    escapes it, and every result it returns satisfies [R]. *)
Fixpoint safe {A : Type} (R : A -> Prop) (p : Prog A) : Prop :=
  match p with
  | Ret a => R a
  | Throw _ => False
  | DateNow k => forall z, safe R (k z)
  | AxiosGet _ k => forall r, safe R (k r)
  | PriceCacheGet key k => forall v, (forall x, v = Some x -> P key x) -> safe R (k v)
  | PriceCacheSet key v k => P key v /\ safe R k
  | HistoryCacheGet key k => forall v, (forall x, v = Some x -> Q key x) -> safe R (k v)
  | HistoryCacheSet key v k => Q key v /\ safe R k
  end.

Definition caches_ok (w : World) : Prop :=
  (forall key x, priceCache w !! key = Some x -> P key x) /\
  (forall key x, historyCache w !! key = Some x -> Q key x).

End Safe.

(** [quiet p]: [p] sends nothing upstream. *)
Fixpoint quiet {A : Type} (p : Prog A) : Prop :=
  match p with
  | Ret _ | Throw _ => True
  | DateNow k => forall z, quiet (k z)
  | AxiosGet _ _ => False
  | PriceCacheGet _ k => forall v, quiet (k v)
  | PriceCacheSet _ _ k => quiet k
  | HistoryCacheGet _ k => forall v, quiet (k v)
  | HistoryCacheSet _ _ k => quiet k
  end.

(** What holds of every entry of the price cache: its key is an upstream
    ticker followed by [":USD"]. *)
Definition price_entry_ok (key : string) (p : PricePayload) : Prop :=
  exists symbol ticker, symbolToId !! symbol = Some ticker /\ key = ticker +:+ ":USD".

(** What holds of every entry of the history cache: it was written with
    the mock-history flag off, and its series is not empty. *)
Definition history_entry_ok (cfg : Config) (key : string) (e : HistoryEntry) : Prop :=
  mock_enabled cfg = false /\ hp_points (he_payload e) <> [].

Definition flat_fallback_warning : string :=
  "Upstream rate limit hit, serving flat fallback from latest spot.".

(** What holds of every response of [/price]: it is never the 502
    "Price not available". *)
Definition price_response_ok (r : Response) : Prop :=
  forall details, body r <> BError "Price not available" details.

(** What holds of every response of [/history]: a served series is not
    empty, and it is never the flat series of the spot price. *)
Definition history_response_ok (r : Response) : Prop :=
  forall payload cached warning,
    body r = BHistory payload cached warning ->
    hp_points payload <> [] /\ warning <> Some flat_fallback_warning.

(** ** An interpretation of the string conversions for the examples

    Exact on what the examples below use: unsigned decimal integer
    literals are read as the integer they denote, and integral numbers
    are printed in decimal.  On other arguments it is not ECMAScript's
    and no example relies on it. *)

Module Sample.

Definition read_decimal (s : string) : number :=
  match NilEmpty.uint_of_string s with
  | Some u => Num.of_Z (Z.of_uint u)
  | None => Num.NaN
  end.

Definition print_integral (x : number) : string :=
  match x with
  | S754_zero _ => "0"
  | S754_nan => "NaN"
  | S754_infinity false => "Infinity"
  | S754_infinity true => "-Infinity"
  | S754_finite s m e =>
      (if s then "-" else "") +:+
      pretty (if (0 <=? e)%Z then (Z.pos m * 2 ^ e)%Z else (Z.pos m / 2 ^ (- e))%Z)
  end.

Definition conv : JsConv := {|
  NumberToString := print_integral;
  StringToNumber := read_decimal;
  StringToNumber_empty := eq_refl
|}.

(** A process with the default configuration. *)
Definition price (req : Query) : Prog Response := @price conv default_config req.
Definition history (req : Query) : Prog Response := @history conv default_config req.

(** The same with the mock-history flag set. *)
Definition mock_config : Config := {|
  PRICE_API_BASE := DEFAULT_PRICE_API_BASE;
  HISTORY_API_BASE := DEFAULT_HISTORY_API_BASE;
  CACHE_TTL_MS := 60000;
  HISTORY_CACHE_TTL_MS := 300000;
  MOCK_HISTORY := Some "true"
|}.

Definition query (symbol : string) : Query :=
  {| q_symbol := Some symbol; q_currency := None; q_days := None; q_interval := None |}.

Definition ok (data : value) : HttpResponse + option HttpResponse :=
  inl {| rs_status := 200; rs_data := data |}.

Definition failed (status : Z) : HttpResponse + option HttpResponse :=
  inr (Some {| rs_status := status; rs_data := VNull |}).

(** A run within the millisecond [now], every upstream request of
    which is answered by [reply]. *)
Definition oracle (now : Z) (reply : HttpRequest -> HttpResponse + option HttpResponse) : Oracle :=
  {| clock := fun _ => now; upstream := fun _ rq => reply rq |}.

(** An upstream that is out of order. *)
Definition down (status : Z) (rq : HttpRequest) : HttpResponse + option HttpResponse :=
  failed status.

(** An upstream that refuses every request with the body
    [{code: -1003, msg: "Too many requests."}]. *)
Definition error_body : value :=
  VObj [("code", VNum (Num.of_Z (-1003))); ("msg", VStr "Too many requests.")].

Definition refusing (status : Z) (rq : HttpRequest) : HttpResponse + option HttpResponse :=
  inr (Some {| rs_status := status; rs_data := error_body |}).

(** An upstream that does not answer in time. *)
Definition silent (rq : HttpRequest) : HttpResponse + option HttpResponse :=
  inr None.

(** An upstream that quotes 88000 and has two klines. *)
Definition klines : value :=
  VArr [ VArr [VNum (Num.of_Z 1700000000000); VStr "87000"; VStr "89000"; VStr "86000";
               VStr "88000"; VStr "12"; VNum (Num.of_Z 1700003599999); VStr "1000000"];
         VArr [VNum (Num.of_Z 1700003600000); VStr "88000"; VStr "90000"; VStr "87000";
               VStr "89000"; VStr "15"; VNum (Num.of_Z 1700007199999); VStr "1500000"] ].

Definition market (rq : HttpRequest) : HttpResponse + option HttpResponse :=
  match rq_params rq with
  | TickerParams symbol => ok (VObj [("symbol", VStr symbol); ("price", VStr "88000")])
  | KlineParams _ _ _ => ok klines
  end.

(** The process after it has served [/price?symbol=BTC] at time 1000,
    and then [/history?symbol=BTC] at time 2000. *)
Definition after_price : World :=
  snd (run (oracle 1000 market) (price (query "BTC")) initial_world).

Definition after_history : World :=
  snd (run (oracle 2000 market) (history (query "BTC")) after_price).

Definition btc_price : PricePayload :=
  {| pp_symbol := "BTC"; pp_currency := "USD"; pp_price := Num.of_Z 88000;
     pp_source := DEFAULT_PRICE_API_BASE; pp_timestamp := 1000 |}.

Definition btc_history : HistoryPayload :=
  {| hp_symbol := "BTC"; hp_days := VNum (Num.of_Z 1); hp_interval := "hourly";
     hp_points := [ {| pt_t := VNum (Num.of_Z 1700000000000); pt_price := Num.of_Z 88000 |};
                    {| pt_t := VNum (Num.of_Z 1700003600000); pt_price := Num.of_Z 89000 |} ];
     hp_volume24h := Some (Num.of_Z 2500000);
     hp_source := "https://api.binance.com/api/v3/klines?symbol=BTCUSDT&interval=1h&limit=24" |}.

End Sample.


(** * Further vocabulary *)

(** ** What a run does, whatever its surroundings *)

(** [wp p post w]: whatever the clock shows and whatever upstream
    answers, the run of [p] from [w] ends with a result and in a world
    that satisfy [post]. *)
Fixpoint wp {A : Type} (p : Prog A) (post : JsError + A -> World -> Prop) (w : World) : Prop :=
  match p with
  | Ret a => post (inr a) w
  | Throw e => post (inl e) w
  | DateNow k => forall z, wp (k z) post (tick w)
  | AxiosGet rq k => forall r, wp (k r) post (sent rq w)
  | PriceCacheGet key k => wp (k (priceCache w !! key)) post w
  | PriceCacheSet key v k => wp k post (set_price key v w)
  | HistoryCacheGet key k => wp (k (historyCache w !! key)) post w
  | HistoryCacheSet key v k => wp k post (set_history key v w)
  end.

(** ** Where cache entries come from *)

(** A string without a colon. *)
Fixpoint colon_free (s : string) : bool :=
  match s with
  | EmptyString => true
  | String c rest => negb (Ascii.eqb c ":") && colon_free rest
  end.

Section Provenance.
Context `{JsConv}.
Variable cfg : Config.

(** An entry of the price cache was written by [/price] for a symbol of
    the table: its key is the key of that symbol, its currency is USD
    and its source is the configured price endpoint. *)
Definition price_entry_of (key : string) (p : PricePayload) : Prop :=
  exists ticker,
    symbolToId !! pp_symbol p = Some ticker /\
    key = price_key ticker /\
    pp_currency p = "USD" /\
    pp_source p = PRICE_API_BASE cfg.

(** An entry of the history cache was written by [/history], with the
    mock-history flag off, for a symbol of the table: its key is built
    from that symbol and from the days and the interval it records, its
    series is not empty and its volume is not null. *)
Definition history_entry_of (key : string) (e : HistoryEntry) : Prop :=
  mock_enabled cfg = false /\
  exists ticker,
    symbolToId !! hp_symbol (he_payload e) = Some ticker /\
    key = history_cacheKey (Some ticker) (hp_days (he_payload e)) (hp_interval (he_payload e)) /\
    hp_points (he_payload e) <> [] /\
    hp_volume24h (he_payload e) <> None.

End Provenance.

(** ** A client that varies the interval *)

(** The text [x], [xx], [xxx], ... *)
Fixpoint letters (n : nat) : string :=
  match n with
  | O => "x"
  | S n => String "x" (letters n)
  end.

(** The request [/history?interval=x...x]. *)
Definition interval_query (n : nat) : Query :=
  {| q_symbol := None; q_currency := None; q_days := None; q_interval := Some (letters n) |}.

(** An upstream that answers every request with the same body, under a
    clock that stands still. *)
Definition steady (data : value) : Oracle :=
  {| clock := fun _ => 0; upstream := fun _ _ => inl {| rs_status := 200; rs_data := data |} |}.

(** The process after it has served the first [n] of these requests, one
    after the other, upstream answering each with one kline. *)
Fixpoint grown `{JsConv} (cfg : Config) (n : nat) : World :=
  match n with
  | O => initial_world
  | S n => snd (run (steady (VArr [VArr []])) (history cfg (interval_query n)) (grown cfg n))
  end.

(** ** What goes upstream *)

(** A request that the handlers may send: one of the three endpoints,
    for a ticker of the table, with the two headers [Accept:
    application/json] and [User-Agent: Z6X-Market-Data-Node/1.0] and no
    other, and the timeout of 5000 ms. *)
Definition allowed_request (cfg : Config) (rq : HttpRequest) : Prop :=
  rq_headers rq = [("Accept", "application/json");
                   ("User-Agent", "Z6X-Market-Data-Node/1.0")] /\
  rq_timeout rq = 5000 /\
  exists symbol ticker,
    symbolToId !! symbol = Some ticker /\
    (((rq_url rq = PRICE_API_BASE cfg \/
       rq_url rq = "https://api.binance.com/api/v3/avgPrice") /\
      rq_params rq = TickerParams ticker) \/
     (rq_url rq = HISTORY_API_BASE cfg /\
      exists interval limit,
        rq_params rq = KlineParams ticker interval limit /\
        (interval = "1h" \/ interval = "1d"))).

(** ** Requests spelled out *)


(** ** Failures of the klines fetch *)

Section Failures.
Context `{JsConv}.
Variable cfg : Config.

(** The klines fetch of [/history] fails with [failure]: the primary
    request fails with a status other than 429, or it fails with status
    429 and the degraded request fails. *)
Definition klines_failed (o : Oracle) (w : World) (req : Query) (ticker : string)
           (failure : option HttpResponse) : Prop :=
  (upstream o (length (requests w)) (history_primary cfg req ticker) = inr failure /\
   error_status (AxiosError failure) <> 429) \/
  exists first,
    upstream o (length (requests w)) (history_primary cfg req ticker) = inr first /\
    error_status (AxiosError first) = 429 /\
    upstream o (S (length (requests w))) (history_degraded cfg ticker) = inr failure.

End Failures.

(** An upstream that answers 429 to the request of index [n] of the
    process and [reply] to the others, at the time [now]. *)
Definition limited_once (now : Z) (n : nat) (reply : HttpResponse + option HttpResponse) : Oracle :=
  {| clock := fun _ => now;
     upstream := fun i _ => if Nat.eqb i n
                            then inr (Some {| rs_status := 429; rs_data := VNull |})
                            else reply |}.

(** * The client of [App.jsx]

    The pair selector and the two requests the page sends to the proxy.
    A pair is the object [{ symbol, currency }]; the handler of the
    selector builds it by destructuring, so that either field may be
    undefined ([None]). *)

Module App.

Record Pair : Type := {
  symbol : option string;
  currency : option string
}.

Definition PAIRS : list Pair :=
  [ {| symbol := Some "BTC"; currency := Some "USD" |};
    {| symbol := Some "ETH"; currency := Some "USD" |};
    {| symbol := Some "SOL"; currency := Some "USD" |};
    {| symbol := Some "ASTER"; currency := Some "USD" |} ].

(** [`${x}`] for a field that is a string or undefined. *)
Definition text (x : option string) : string :=
  match x with
  | Some s => s
  | None => "undefined"
  end.

(** The value of an option of the selector: [`${pair.symbol}-${pair.currency}`] *)
Definition option_value (pair : Pair) : string :=
  text (symbol pair) +:+ "-" +:+ text (currency pair).

(** [s.split(sep)] for a separator of one character. *)
Fixpoint split (sep : ascii) (s : string) : list string :=
  match s with
  | EmptyString => [EmptyString]
  | String c rest =>
      if Ascii.eqb c sep then EmptyString :: split sep rest
      else match split sep rest with
           | part :: parts => String c part :: parts
           | [] => [String c EmptyString]
           end
  end.

(** The handler of the selector:
    [const [symbol, currency] = e.target.value.split('-'); setSelectedPair({ symbol, currency })] *)
Definition onChange (target_value : string) : Pair :=
  let parts := split "-" target_value in
  {| symbol := nth_error parts 0; currency := nth_error parts 1 |}.

(** The query of [fetchPrice]: [params: { symbol, currency }]; axios
    leaves out a parameter that is undefined. *)
Definition fetchPrice_query (selectedPair : Pair) : Query :=
  {| q_symbol := symbol selectedPair; q_currency := currency selectedPair;
     q_days := None; q_interval := None |}.

(** The query of [fetchHistory]: [params: { symbol, days: 1, interval: 'hourly' }] *)
Definition fetchHistory_query (selectedPair : Pair) : Query :=
  {| q_symbol := symbol selectedPair; q_currency := None;
     q_days := Some "1"; q_interval := Some "hourly" |}.

(** A string without a dash. *)
Fixpoint dash_free (s : string) : bool :=
  match s with
  | EmptyString => true
  | String c rest => negb (Ascii.eqb c "-") && dash_free rest
  end.

End App.

(** The two answers 400 by which the handlers turn a request down. *)
Definition turned_down (r : Response) : Prop :=
  body r = BError "Unsupported symbol" None \/
  body r = BError "Only USD quotes are supported in this demo." None.
(** * Properties *)

(** ** The program monad and its runs *)

Lemma run_bind {A B : Type} (o : Oracle) (p : Prog A) (f : A -> Prog B) (w : World) :
  run o (bind p f) w =
  match run o p w with
  | (inr a, w') => run o (f a) w'
  | (inl e, w') => (inl e, w')
  end.
Proof.
  revert w. induction p as [a|e|k IH|rq k IH|key k IH|key v k IH|key k IH|key v k IH];
    intros w; simpl; auto.
Qed.

Lemma run_try_catch {A : Type} (o : Oracle) (p : Prog A) (h : JsError -> Prog A) (w : World) :
  run o (try_catch p h) w =
  match run o p w with
  | (inr a, w') => (inr a, w')
  | (inl e, w') => run o (h e) w'
  end.
Proof.
  revert w. induction p as [a|e|k IH|rq k IH|key k IH|key v k IH|key k IH|key v k IH];
    intros w; simpl; auto.
Qed.

(** A run only adds to the log of upstream requests. *)
Lemma run_requests_extend {A : Type} (o : Oracle) (p : Prog A) (w : World) :
  exists rest, requests (snd (run o p w)) = (requests w ++ rest)%list.
Proof.
  revert w.
  induction p as [a|e|k IH|rq k IH|key k IH|key v k IH|key k IH|key v k IH];
    intros w; simpl.
  - exists []. by rewrite app_nil_r.
  - exists []. by rewrite app_nil_r.
  - apply (IH _ (tick w)).
  - destruct (IH (upstream o (length (requests w)) rq) (sent rq w)) as [rest Hrest].
    exists (rq :: rest). rewrite Hrest. simpl. by rewrite <- app_assoc.
  - apply IH.
  - apply (IH (set_price key v w)).
  - apply IH.
  - apply (IH (set_history key v w)).
Qed.

Lemma run_quiet {A : Type} (o : Oracle) (p : Prog A) (w : World) :
  quiet p -> requests (snd (run o p w)) = requests w.
Proof.
  revert w.
  induction p as [a|e|k IH|rq k IH|key k IH|key v k IH|key k IH|key v k IH];
    intros w Hquiet; simpl in *; try done.
  - by rewrite IH.
  - by rewrite IH.
  - by rewrite IH.
  - by rewrite IH.
  - by rewrite IH.
Qed.

Section SafeLemmas.
Variable P : string -> PricePayload -> Prop.
Variable Q : string -> HistoryEntry -> Prop.

Lemma safe_bind {A B : Type} (R' : A -> Prop) (R : B -> Prop) (p : Prog A) (f : A -> Prog B) :
  safe P Q R' p -> (forall a, R' a -> safe P Q R (f a)) -> safe P Q R (bind p f).
Proof.
  intros Hp Hf.
  induction p as [a|e|k IH|rq k IH|key k IH|key v k IH|key k IH|key v k IH];
    simpl in *; try tauto; eauto.
Qed.

Lemma safe_weaken {A : Type} (R R' : A -> Prop) (p : Prog A) :
  (forall a, R a -> R' a) -> safe P Q R p -> safe P Q R' p.
Proof.
  intros HR.
  induction p as [a|e|k IH|rq k IH|key k IH|key v k IH|key k IH|key v k IH];
    simpl; eauto.
  - intros [? ?]; split; auto.
  - intros [? ?]; split; auto.
Qed.

Lemma caches_ok_set_price key v w :
  P key v -> caches_ok P Q w -> caches_ok P Q (set_price key v w).
Proof.
  intros Hv [Hp Hh]. split; simpl; auto.
  intros key' x. rewrite lookup_insert. case_decide; [|by auto].
  intros [= <-]. by subst.
Qed.

Lemma caches_ok_set_history key v w :
  Q key v -> caches_ok P Q w -> caches_ok P Q (set_history key v w).
Proof.
  intros Hv [Hp Hh]. split; simpl; auto.
  intros key' x. rewrite lookup_insert. case_decide; [|by auto].
  intros [= <-]. by subst.
Qed.

(** A step of a safe program from a world whose caches are in order
    leaves both so. *)
Lemma safe_pstep {A : Type} (R : A -> Prop) (p p' : Prog A) (w w' : World) :
  pstep p w p' w' -> safe P Q R p -> caches_ok P Q w ->
  safe P Q R p' /\ caches_ok P Q w'.
Proof.
  intros Hstep Hsafe Hw. destruct Hstep; simpl in Hsafe.
  - split; [apply Hsafe | exact Hw].
  - split; [apply Hsafe | exact Hw].
  - split; [|exact Hw]. apply Hsafe. intros x Hx. by apply (proj1 Hw key).
  - destruct Hsafe as [Hv Hk]. split; [exact Hk|]. by apply caches_ok_set_price.
  - split; [|exact Hw]. apply Hsafe. intros x Hx. by apply (proj2 Hw key).
  - destruct Hsafe as [Hv Hk]. split; [exact Hk|]. by apply caches_ok_set_history.
Qed.

(** So does a whole run, which returns, and returns as promised. *)
Lemma safe_run {A : Type} (R : A -> Prop) (o : Oracle) (p : Prog A) (w : World) :
  safe P Q R p -> caches_ok P Q w ->
  caches_ok P Q (snd (run o p w)) /\
  exists a, fst (run o p w) = inr a /\ R a.
Proof.
  revert w.
  induction p as [a|e|k IH|rq k IH|key k IH|key v k IH|key k IH|key v k IH];
    intros w Hsafe Hw; simpl in *.
  - split; [exact Hw|]. by exists a.
  - done.
  - apply IH; [apply Hsafe | exact Hw].
  - apply IH; [apply Hsafe | exact Hw].
  - apply IH; [|exact Hw]. apply Hsafe. intros x Hx. by apply (proj1 Hw key).
  - destruct Hsafe as [Hv Hk]. apply IH; [exact Hk|]. by apply caches_ok_set_price.
  - apply IH; [|exact Hw]. apply Hsafe. intros x Hx. by apply (proj2 Hw key).
  - destruct Hsafe as [Hv Hk]. apply IH; [exact Hk|]. by apply caches_ok_set_history.
Qed.

End SafeLemmas.

(** ** What the handlers read, write and return *)

Lemma symbolToId_range (symbol ticker : string) :
  symbolToId !! symbol = Some ticker ->
  ticker ∈ ["BTCUSDT"; "ETHUSDT"; "SOLUSDT"; "ASTRUSDT"].
Proof.
  unfold symbolToId. intros Hl.
  apply elem_of_list_to_map_2 in Hl.
  repeat (apply elem_of_cons in Hl as [[= _ ->]|Hl]; [repeat constructor|]).
  by apply elem_of_nil in Hl.
Qed.

(** The key under which [/history] looks for a spot price, a ticker
    followed by [":usd"], is the key of no entry of the price cache. *)
Lemma spot_key_never_written (symbol ticker : string) (p : PricePayload) :
  symbolToId !! symbol = Some ticker -> ~ price_entry_ok (ticker +:+ ":usd") p.
Proof.
  intros Hticker (symbol' & ticker' & Hticker' & Hkey).
  apply symbolToId_range in Hticker, Hticker'.
  repeat (apply elem_of_cons in Hticker as [->|Hticker]);
    [| | | |by apply elem_of_nil in Hticker];
  repeat (apply elem_of_cons in Hticker' as [->|Hticker']);
    try (by apply elem_of_nil in Hticker'); discriminate Hkey.
Qed.

#[local] Arguments error_status : simpl never.
#[local] Arguments error_details : simpl never.
#[local] Arguments symbol_of : simpl never.
#[local] Arguments currency_of : simpl never.
#[local] Arguments interval_of : simpl never.
#[local] Arguments days_of : simpl never.
#[local] Arguments price_cacheKey : simpl never.
#[local] Arguments history_cacheKey : simpl never.
#[local] Arguments binanceInterval_of : simpl never.
#[local] Arguments limit_of : simpl never.
#[local] Arguments axios_request : simpl never.
#[local] Arguments ToString : simpl never.
#[local] Arguments ToNumber : simpl never.
#[local] Arguments Number : simpl never.
#[local] Arguments converts : simpl never.
#[local] Arguments js_or : simpl never.
#[local] Arguments Num.of_Z : simpl never.

(** Walks through a handler, case by case, down to what it writes and
    what it returns. *)
Ltac safe_step :=
  first
    [ progress simpl
    | match goal with
      | |- forall _, _ => intro
      | |- _ /\ _ => split
      | |- True => exact I
      | |- safe _ _ _ (match ?x with _ => _ end) => destruct x eqn:?
      | |- safe _ _ _ (if ?x then _ else _) => destruct x eqn:?
      | |- safe _ _ _ (bind (match ?x with _ => _ end) _) => destruct x eqn:?
      | |- safe _ _ _ (bind (if ?x then _ else _) _) => destruct x eqn:?
      | |- safe _ _ _ (try_catch (match ?x with _ => _ end) _) => destruct x eqn:?
      | |- safe _ _ _ (try_catch (if ?x then _ else _) _) => destruct x eqn:?
      | |- safe _ _ _ (try_catch (bind (match ?x with _ => _ end) _) _) => destruct x eqn:?
      | |- safe _ _ _ (try_catch (bind (try_catch (match ?x with _ => _ end) _) _) _) => destruct x eqn:?
      | |- safe _ _ _ (try_catch (bind (try_catch (if ?x then _ else _) _) _) _) => destruct x eqn:?
      | |- safe _ _ _ (bind (or_throw ?x) _) => destruct x eqn:?
      | |- safe _ _ _ (try_catch (bind (or_throw ?x) _) _) => destruct x eqn:?
      end ].

Section HandlerSafety.
Context `{JsConv}.
Variable cfg : Config.

(** [/price] writes under keys that end in [":USD"] only, and never
    answers "Price not available". *)
Lemma price_safe_gen (P : string -> PricePayload -> Prop)
      (Q : string -> HistoryEntry -> Prop) (req : Query) :
  (forall symbol ticker v, symbolToId !! symbol = Some ticker -> P (ticker +:+ ":USD") v) ->
  safe P Q price_response_ok (price cfg req).
Proof.
  intros HP. unfold price.
  destruct (symbolToId !! symbol_of req) as [ticker|] eqn:Hticker; simpl; [|done].
  destruct (negb (String.eqb (currency_of req) "USD")) eqn:Hcur; simpl; [done|].
  apply negb_false_iff, String.eqb_eq in Hcur.
  repeat safe_step.
  all: try (intros details; discriminate).
  all: rewrite Hcur; by apply (HP (symbol_of req)).
Qed.

Lemma price_safe (req : Query) :
  safe price_entry_ok (history_entry_ok cfg) price_response_ok (price cfg req).
Proof.
  apply price_safe_gen. intros symbol ticker v Hticker. by exists symbol, ticker.
Qed.

Lemma error_response_ok (s : Z) (error : string) (details : option value) :
  history_response_ok (status_json s (BError error details)).
Proof. intros payload cached warning Hbody. discriminate Hbody. Qed.

Lemma history_failure_ok (e : JsError) : history_response_ok (history_failure e).
Proof.
  unfold history_failure. destruct (error_status e =? 401); apply error_response_ok.
Qed.

Lemma history_safe (req : Query) :
  safe price_entry_ok (history_entry_ok cfg) history_response_ok (history cfg req).
Proof.
  unfold history.
  repeat safe_step.
  all: try apply error_response_ok.
  all: try apply history_failure_ok.
  all: try (split; simpl; [assumption | discriminate]).
  all: try (intros payload cached warning [= <- <- <-]; split; simpl; discriminate).
  all: try match goal with
       | Hread : forall x, Some ?h = Some x -> history_entry_ok _ _ x |- _ =>
           destruct (Hread h eq_refl) as [_ Hpoints];
           intros payload cached warning [= <- <- <-]; split; [exact Hpoints|];
           try discriminate
       end.
  all: try (unfold flat_fallback_warning;
            match goal with |- context [if ?b then _ else _] => destruct b end;
            discriminate).
  exfalso.
  match goal with
  | Hticker : symbolToId !! _ = Some ?tk,
    Hread : forall x, Some ?p = Some x -> price_entry_ok _ x |- _ =>
      exact (spot_key_never_written _ tk p Hticker (Hread p eq_refl))
  end.
Qed.
End HandlerSafety.

(** ** Invariants of the process *)

Section Invariants.
Context `{JsConv}.
Variable cfg : Config.

Lemma Reachable_ok (w : World) (pool : list (Prog Response)) :
  Reachable cfg w pool ->
  caches_ok price_entry_ok (history_entry_ok cfg) w /\
  Forall (safe price_entry_ok (history_entry_ok cfg) (fun _ => True)) pool.
Proof.
  induction 1 as [|req w pool _ [IHw IHpool]|req w pool _ [IHw IHpool]
                  |w pool1 p pool2 p' w' _ [IHw IHpool] Hstep].
  - split; [|constructor]. split; intros key x; simpl; by rewrite lookup_empty.
  - split; [exact IHw|]. constructor; [|exact IHpool].
    eapply safe_weaken; [|apply price_safe]. done.
  - split; [exact IHw|]. constructor; [|exact IHpool].
    eapply safe_weaken; [|apply history_safe]. done.
  - apply Forall_app in IHpool as [Hpool1 Hpool2].
    apply Forall_cons in Hpool2 as [Hp Hpool2].
    destruct (safe_pstep _ _ _ _ _ _ _ Hstep Hp IHw) as [Hp' Hw'].
    split; [exact Hw'|]. apply Forall_app; split; [exact Hpool1|].
    by constructor.
Qed.

Lemma reachable_ok (w : World) :
  reachable cfg w -> caches_ok price_entry_ok (history_entry_ok cfg) w.
Proof. intros [pool Hreach]. by apply Reachable_ok in Hreach as [? _]. Qed.

(** A run to the end is a sequence of steps. *)
Lemma Reachable_run (o : Oracle) (p : Prog Response) (w : World)
      (pool1 pool2 : list (Prog Response)) :
  Reachable cfg w (pool1 ++ p :: pool2) ->
  Reachable cfg (snd (run o p w)) (pool1 ++ finished (fst (run o p w)) :: pool2).
Proof.
  revert w.
  induction p as [a|e|k IH|rq k IH|key k IH|key v k IH|key k IH|key v k IH];
    intros w Hreach; simpl; try exact Hreach.
  - apply IH. eapply reach_step; [exact Hreach | constructor].
  - apply IH. eapply reach_step; [exact Hreach | constructor].
  - apply IH. eapply reach_step; [exact Hreach | constructor].
  - apply IH. eapply reach_step; [exact Hreach | constructor].
  - apply IH. eapply reach_step; [exact Hreach | constructor].
  - apply IH. eapply reach_step; [exact Hreach | constructor].
Qed.

Lemma reachable_initial : reachable cfg initial_world.
Proof. exists []. constructor. Qed.

Lemma reachable_price (o : Oracle) (req : Query) (w : World) :
  reachable cfg w -> reachable cfg (snd (run o (price cfg req) w)).
Proof.
  intros [pool Hreach]. eexists.
  apply (Reachable_run o _ w [] pool). simpl. by constructor.
Qed.

Lemma reachable_history (o : Oracle) (req : Query) (w : World) :
  reachable cfg w -> reachable cfg (snd (run o (history cfg req) w)).
Proof.
  intros [pool Hreach]. eexists.
  apply (Reachable_run o _ w [] pool). simpl. by constructor.
Qed.

End Invariants.

(** ** Running the handlers *)

#[local] Arguments price_primary : simpl never.
#[local] Arguments price_fallback : simpl never.
#[local] Arguments history_primary : simpl never.
#[local] Arguments history_degraded : simpl never.

Lemma length_sent (rq : HttpRequest) (w : World) :
  length (requests (sent rq w)) = S (length (requests w)).
Proof. simpl. rewrite length_app. simpl. lia. Qed.

(** The status a catch block works with is the status of the upstream
    response, when there is one and its status is not 0. *)
Lemma error_status_response (r : HttpResponse) :
  rs_status r <> 0 -> error_status (AxiosError (Some r)) = rs_status r.
Proof. intros Hr. unfold error_status. by apply Z.eqb_neq in Hr as ->. Qed.

(** Runs [/history] up to its first upstream request: past the mock
    gate, the symbol check and the freshness check of the entry [c], if
    any. *)
Ltac history_prelude Hmock Hticker Hstale c Hcached :=
  unfold history_stale, history_key in *;
  unfold history; simpl; rewrite Hmock, Hticker; simpl;
  match goal with
  | |- context [historyCache ?w !! ?key] =>
      destruct (historyCache w !! key) as [c|] eqn:Hcached; simpl;
      [ specialize (Hstale c eq_refl); apply Z.ltb_ge in Hstale; rewrite Hstale; simpl | ]
  end;
  match goal with
  | |- context [axios_request (HISTORY_API_BASE ?cfg)
                  (KlineParams ?ticker (binanceInterval_of (interval_of ?req)) _)] =>
      fold (history_primary cfg req ticker)
  end.

(** Walks through a program that sends nothing upstream. *)
Ltac quiet_step :=
  first
    [ progress simpl
    | match goal with
      | |- forall _, _ => intro
      | |- True => exact I
      | |- quiet (match ?x with _ => _ end) => destruct x eqn:?
      | |- quiet (if ?x then _ else _) => destruct x eqn:?
      | |- quiet (bind (match ?x with _ => _ end) _) => destruct x eqn:?
      | |- quiet (bind (if ?x then _ else _) _) => destruct x eqn:?
      | |- quiet (try_catch (match ?x with _ => _ end) _) => destruct x eqn:?
      | |- quiet (try_catch (if ?x then _ else _) _) => destruct x eqn:?
      | |- quiet (try_catch (bind (match ?x with _ => _ end) _) _) => destruct x eqn:?
      | |- quiet (bind (or_throw ?x) _) => destruct x eqn:?
      | |- quiet (try_catch (bind (or_throw ?x) _) _) => destruct x eqn:?
      end ].

Lemma Sample_reachable : @reachable Sample.conv default_config Sample.after_history.
Proof.
  apply reachable_history, reachable_price, reachable_initial.
Qed.


(** ** Unsupported symbols *)

(** C3, as amended.  For a symbol that is not in the symbol table,
    [/price] is the program that only answers 400 "Unsupported symbol",
    under every configuration, and so is [/history], after its one
    reading of the clock, under every configuration in which the
    mock-history flag is not enabled: neither program reads a cache or
    calls upstream. *)
Theorem unsupported_symbol_short_circuit `{JsConv} (cfg : Config) (req : Query) :
  symbolToId !! symbol_of req = None ->
  price cfg req = Ret (status_json 400 (BError "Unsupported symbol" None)) /\
  (mock_enabled cfg = false ->
   history cfg req =
   DateNow (fun _ => Ret (status_json 400 (BError "Unsupported symbol" None)))).
Proof.
  intros Hsymbol. split.
  - unfold price. by rewrite Hsymbol.
  - intros Hmock. unfold history. simpl. by rewrite Hsymbol, Hmock.
Qed.

Lemma unsupported_symbol_short_circuit_witness :
  symbolToId !! symbol_of (Sample.query "DOGE") = None /\
  mock_enabled default_config = false /\
  Sample.price (Sample.query "DOGE") =
    Ret (status_json 400 (BError "Unsupported symbol" None)) /\
  Sample.history (Sample.query "DOGE") =
    DateNow (fun _ => Ret (status_json 400 (BError "Unsupported symbol" None))).
Proof.
  assert (Hsymbol : symbolToId !! symbol_of (Sample.query "DOGE") = None)
    by (vm_compute; reflexivity).
  assert (Hmock : mock_enabled default_config = false) by reflexivity.
  destruct (@unsupported_symbol_short_circuit Sample.conv default_config
              (Sample.query "DOGE") Hsymbol) as [Hprice Hhistory].
  split; [exact Hsymbol|]. split; [exact Hmock|].
  split; [exact Hprice | exact (Hhistory Hmock)].
Defined.

(** With the mock-history flag enabled, [/history] answers a request for
    a symbol that is not in the table with the demonstration series. *)
Lemma unsupported_symbol_mock_counterexample :
  symbolToId !! symbol_of (Sample.query "DOGE") = None /\
  exists r,
    fst (run (Sample.oracle 0 (Sample.down 500))
             (@history Sample.conv Sample.mock_config (Sample.query "DOGE"))
             initial_world) = inr r /\
    status r = 200 /\
    exists payload,
      body r = BHistory payload (Some true) (Some "MOCK_HISTORY enabled; serving demo data.") /\
      hp_source payload = "mock-history".
Proof.
  split; [vm_compute; reflexivity|].
  eexists. split; [vm_compute; reflexivity|].
  split; [reflexivity|]. eexists. split; reflexivity.
Qed.

(** ** Freshness of cache entries *)

(** C4.  An entry of the price cache, or an entry of the history cache of
    a process, written at time [T] and read at time [T + d]: when [d] is
    below the TTL of its cache the handler answers with the entry and
    [cached = true], sends nothing upstream and leaves both caches as
    they are; when [d] has reached the TTL the handler sends the primary
    upstream request. *)
Theorem cache_ttl_window `{JsConv} (cfg : Config) (o : Oracle) (req : Query)
        (w : World) (ticker : string) (T d : Z) :
  reachable cfg w ->
  symbolToId !! symbol_of req = Some ticker ->
  (forall c,
      currency_of req = "USD" ->
      priceCache w !! price_key ticker = Some c ->
      pp_timestamp c = T ->
      clock o (ticks w) = T + d ->
      (d < CACHE_TTL_MS cfg ->
       run o (price cfg req) w = (inr (json (BPrice c (Some true) None)), tick w)) /\
      (CACHE_TTL_MS cfg <= d ->
       exists rest,
         requests (snd (run o (price cfg req) w)) =
         (requests w ++ price_primary cfg ticker :: rest)%list)) /\
  (forall c,
      historyCache w !! history_key req ticker = Some c ->
      he_timestamp c = T ->
      clock o (S (ticks w)) = T + d ->
      (d < HISTORY_CACHE_TTL_MS cfg ->
       run o (history cfg req) w =
       (inr (json (BHistory (he_payload c) (Some true) None)), tick (tick w))) /\
      (HISTORY_CACHE_TTL_MS cfg <= d ->
       exists rest,
         requests (snd (run o (history cfg req) w)) =
         (requests w ++ history_primary cfg req ticker :: rest)%list)).
Proof.
  intros Hreach Hticker. unfold price_key, history_key, price_primary, history_primary. split.
  - intros c Hcur Hcached HT Hclock.
    unfold price. rewrite Hticker, Hcur. simpl. rewrite Hcached. simpl.
    rewrite Hclock, HT. replace (T + d - T) with d by lia.
    split; intros Hd.
    + apply Z.ltb_lt in Hd. by rewrite Hd.
    + apply Z.ltb_ge in Hd. rewrite Hd. simpl.
      match goal with
      | |- context [run o ?p ?w'] => destruct (run_requests_extend o p w') as [rest ->]
      end.
      exists rest. simpl. by rewrite <- app_assoc.
  - intros c Hcached HT Hclock.
    destruct (reachable_ok cfg w Hreach) as [_ Hhist].
    destruct (Hhist _ _ Hcached) as [Hmock _].
    unfold history. simpl. rewrite Hmock, Hticker. simpl. rewrite Hcached. simpl.
    rewrite Hclock, HT. replace (T + d - T) with d by lia.
    split; intros Hd.
    + apply Z.ltb_lt in Hd. by rewrite Hd.
    + apply Z.ltb_ge in Hd. rewrite Hd. simpl.
      match goal with
      | |- context [run o ?p ?w'] => destruct (run_requests_extend o p w') as [rest ->]
      end.
      exists rest. simpl. by rewrite <- app_assoc.
Qed.

Lemma cache_ttl_window_witness :
  @reachable Sample.conv default_config Sample.after_history /\
  symbolToId !! symbol_of (Sample.query "BTC") = Some "BTCUSDT" /\
  priceCache Sample.after_history !! price_key "BTCUSDT" = Some Sample.btc_price /\
  historyCache Sample.after_history !! @history_key Sample.conv (Sample.query "BTC") "BTCUSDT" =
    Some {| he_payload := Sample.btc_history; he_timestamp := 2000 |} /\
  (* read 59999 ms after the write of the price entry, and at 60000 ms *)
  run (Sample.oracle 60999 (Sample.down 500)) (Sample.price (Sample.query "BTC"))
      Sample.after_history =
    (inr (json (BPrice Sample.btc_price (Some true) None)), tick Sample.after_history) /\
  (exists rest,
      requests (snd (run (Sample.oracle 61000 (Sample.down 500))
                         (Sample.price (Sample.query "BTC")) Sample.after_history)) =
      (requests Sample.after_history ++ price_primary default_config "BTCUSDT" :: rest)%list) /\
  (* read 299999 ms after the write of the history entry, and at 300000 ms *)
  run (Sample.oracle 301999 (Sample.down 500)) (Sample.history (Sample.query "BTC"))
      Sample.after_history =
    (inr (json (BHistory Sample.btc_history (Some true) None)),
     tick (tick Sample.after_history)) /\
  (exists rest,
      requests (snd (run (Sample.oracle 302000 (Sample.down 500))
                         (Sample.history (Sample.query "BTC")) Sample.after_history)) =
      (requests Sample.after_history ++
       @history_primary Sample.conv default_config (Sample.query "BTC") "BTCUSDT" :: rest)%list).
Proof.
  assert (Hticker : symbolToId !! symbol_of (Sample.query "BTC") = Some "BTCUSDT")
    by (vm_compute; reflexivity).
  assert (Hprice : priceCache Sample.after_history !! price_key "BTCUSDT" = Some Sample.btc_price)
    by (vm_compute; reflexivity).
  assert (Hhistory : historyCache Sample.after_history
                       !! @history_key Sample.conv (Sample.query "BTC") "BTCUSDT" =
                     Some {| he_payload := Sample.btc_history; he_timestamp := 2000 |})
    by (vm_compute; reflexivity).
  assert (Hcur : currency_of (Sample.query "BTC") = "USD") by (vm_compute; reflexivity).
  pose proof (fun o T d =>
                @cache_ttl_window Sample.conv default_config o (Sample.query "BTC")
                  Sample.after_history "BTCUSDT" T d Sample_reachable Hticker) as Hwindow.
  split; [exact Sample_reachable|]. split; [exact Hticker|].
  split; [exact Hprice|]. split; [exact Hhistory|].
  split; [|split; [|split]].
  - refine (proj1 (proj1 (Hwindow (Sample.oracle 60999 (Sample.down 500)) 1000 59999)
                     Sample.btc_price Hcur Hprice eq_refl eq_refl) _).
    vm_compute. reflexivity.
  - refine (proj2 (proj1 (Hwindow (Sample.oracle 61000 (Sample.down 500)) 1000 60000)
                     Sample.btc_price Hcur Hprice eq_refl eq_refl) _).
    vm_compute. discriminate.
  - refine (proj1 (proj2 (Hwindow (Sample.oracle 301999 (Sample.down 500)) 2000 299999)
                     _ Hhistory eq_refl eq_refl) _).
    vm_compute. reflexivity.
  - refine (proj2 (proj2 (Hwindow (Sample.oracle 302000 (Sample.down 500)) 2000 300000)
                     _ Hhistory eq_refl eq_refl) _).
    vm_compute. discriminate.
Defined.

(** ** Failures of the price fetch *)

(** What [/price] answers when both endpoints fail, by the entry under
    the key of the request and the failure of the avgPrice endpoint. *)
Lemma price_failure_run `{JsConv} (cfg : Config) (o : Oracle) (req : Query)
      (w : World) (ticker : string) (primary fallback : option HttpResponse) :
  symbolToId !! symbol_of req = Some ticker ->
  currency_of req = "USD" ->
  price_stale cfg o w (price_key ticker) ->
  upstream o (length (requests w)) (price_primary cfg ticker) = inr primary ->
  upstream o (S (length (requests w))) (price_fallback ticker) = inr fallback ->
  fst (run o (price cfg req) w) =
  inr (match priceCache w !! price_key ticker with
       | Some c =>
           if error_status (AxiosError fallback) =? 429
           then status_json 200
                  (BPrice c (Some true) (Some "Upstream rate limit hit, serving cached price."))
           else status_json (error_status (AxiosError fallback))
                  (BError "Upstream request failed"
                     (Some (error_details (AxiosError fallback))))
       | None =>
           status_json (error_status (AxiosError fallback))
             (BError "Upstream request failed" (Some (error_details (AxiosError fallback))))
       end).
Proof.
  intros Hticker Hcur Hstale Hprimary Hfallback.
  unfold price_stale, price_key in *.
  unfold price. rewrite Hticker, Hcur. simpl.
  destruct (priceCache w !! price_cacheKey (Some ticker) "USD") as [c|] eqn:Hcached; simpl.
  - specialize (Hstale c eq_refl). apply Z.ltb_ge in Hstale. rewrite Hstale. simpl.
    fold (price_primary cfg ticker). rewrite Hprimary. simpl.
    rewrite length_app. simpl. rewrite Nat.add_1_r.
    fold (price_fallback ticker). rewrite Hfallback. simpl.
    by destruct (error_status (AxiosError fallback) =? 429).
  - fold (price_primary cfg ticker). rewrite Hprimary. simpl.
    rewrite length_app. simpl. rewrite Nat.add_1_r.
    fold (price_fallback ticker). by rewrite Hfallback.
Qed.

(** C6.  When the ticker endpoint and then the avgPrice endpoint fail:
    with status 429 and an entry in the cache under the key of the
    request, [/price] answers 200 with that entry, [cached = true] and
    the rate-limit warning; with any other status, and with any status
    when there is no entry, it answers with the status of the upstream
    response (500 when the failure carries no response, or the status 0)
    and with its body as the details (null when the body is falsy, or
    when there is no response). *)
Theorem price_upstream_failure `{JsConv} (cfg : Config) (o : Oracle) (req : Query)
        (w : World) (ticker : string) (primary fallback : option HttpResponse) :
  symbolToId !! symbol_of req = Some ticker ->
  currency_of req = "USD" ->
  price_stale cfg o w (price_key ticker) ->
  upstream o (length (requests w)) (price_primary cfg ticker) = inr primary ->
  upstream o (S (length (requests w))) (price_fallback ticker) = inr fallback ->
  let status :=
    match fallback with
    | Some r => if rs_status r =? 0 then 500 else rs_status r
    | None => 500
    end in
  let details :=
    match fallback with
    | Some r => if ToBoolean (rs_data r) then rs_data r else VNull
    | None => VNull
    end in
  (forall c,
      status = 429 ->
      priceCache w !! price_key ticker = Some c ->
      fst (run o (price cfg req) w) =
      inr (status_json 200
             (BPrice c (Some true) (Some "Upstream rate limit hit, serving cached price.")))) /\
  (status <> 429 ->
   fst (run o (price cfg req) w) =
   inr (status_json status (BError "Upstream request failed" (Some details)))) /\
  (priceCache w !! price_key ticker = None ->
   fst (run o (price cfg req) w) =
   inr (status_json status (BError "Upstream request failed" (Some details)))).
Proof.
  intros Hticker Hcur Hstale Hprimary Hfallback status details.
  pose proof (price_failure_run cfg o req w ticker primary fallback
                Hticker Hcur Hstale Hprimary Hfallback) as Hrun.
  assert (Hstatus : error_status (AxiosError fallback) = status) by (by destruct fallback).
  assert (Hdetails : error_details (AxiosError fallback) = details) by (by destruct fallback).
  rewrite Hstatus, Hdetails in Hrun.
  split; [|split].
  - intros c H429 Hcached. rewrite Hrun, Hcached, H429. reflexivity.
  - intros H429. rewrite Hrun. apply Z.eqb_neq in H429. rewrite H429.
    by destruct (priceCache w !! _).
  - intros Hnone. by rewrite Hrun, Hnone.
Qed.

Lemma price_upstream_failure_witness :
  symbolToId !! symbol_of (Sample.query "BTC") = Some "BTCUSDT" /\
  currency_of (Sample.query "BTC") = "USD" /\
  priceCache Sample.after_price !! price_key "BTCUSDT" = Some Sample.btc_price /\
  (* a minute after the write, upstream answers 429 twice *)
  fst (run (Sample.oracle 61000 (Sample.refusing 429)) (Sample.price (Sample.query "BTC"))
           Sample.after_price) =
    inr (status_json 200
           (BPrice Sample.btc_price (Some true)
              (Some "Upstream rate limit hit, serving cached price."))) /\
  (* a minute after the write, upstream answers 503 twice, with the body
     {code: -1003, msg: "Too many requests."} *)
  fst (run (Sample.oracle 61000 (Sample.refusing 503)) (Sample.price (Sample.query "BTC"))
           Sample.after_price) =
    inr (status_json 503
           (BError "Upstream request failed"
              (Some (VObj [("code", VNum (Num.of_Z (-1003)));
                           ("msg", VStr "Too many requests.")])))) /\
  (* upstream does not answer in time *)
  fst (run (Sample.oracle 61000 Sample.silent) (Sample.price (Sample.query "BTC"))
           Sample.after_price) =
    inr (status_json 500 (BError "Upstream request failed" (Some VNull))).
Proof.
  assert (Hticker : symbolToId !! symbol_of (Sample.query "BTC") = Some "BTCUSDT")
    by (vm_compute; reflexivity).
  assert (Hcur : currency_of (Sample.query "BTC") = "USD") by (vm_compute; reflexivity).
  assert (Hprice : priceCache Sample.after_price !! price_key "BTCUSDT" = Some Sample.btc_price)
    by (vm_compute; reflexivity).
  assert (Hstale : forall reply,
             price_stale default_config (Sample.oracle 61000 reply) Sample.after_price
               (price_key "BTCUSDT")).
  { intros reply c Hc. rewrite Hprice in Hc. injection Hc as <-. vm_compute. discriminate. }
  split; [exact Hticker|]. split; [exact Hcur|]. split; [exact Hprice|].
  split; [|split].
  - refine (proj1 (@price_upstream_failure Sample.conv default_config
                     (Sample.oracle 61000 (Sample.refusing 429)) (Sample.query "BTC")
                     Sample.after_price "BTCUSDT" _ _ Hticker Hcur (Hstale _) eq_refl eq_refl)
                  Sample.btc_price _ Hprice).
    reflexivity.
  - refine (proj1 (proj2 (@price_upstream_failure Sample.conv default_config
                            (Sample.oracle 61000 (Sample.refusing 503)) (Sample.query "BTC")
                            Sample.after_price "BTCUSDT" _ _ Hticker Hcur (Hstale _)
                            eq_refl eq_refl))
                  _).
    discriminate.
  - refine (proj1 (proj2 (@price_upstream_failure Sample.conv default_config
                            (Sample.oracle 61000 Sample.silent) (Sample.query "BTC")
                            Sample.after_price "BTCUSDT" _ _ Hticker Hcur (Hstale _)
                            eq_refl eq_refl))
                  _).
    discriminate.
Defined.

(** ** A price response without a price *)

(** C9.  [/price] always answers, and never with "Price not available":
    the number that [Number] returns is never [undefined].  In particular, when upstream
    answers the price fetch with a body that has none of the fields
    [price], [priceAvg] and [avgPrice], the handler answers 200 with a
    payload whose price is NaN, and stores that payload in the price
    cache. *)
Theorem price_not_available_unreachable `{JsConv} (cfg : Config) (o : Oracle)
        (req : Query) (w : World) :
  (exists r, fst (run o (price cfg req) w) = inr r /\
             forall details, body r <> BError "Price not available" details) /\
  (forall ticker response,
      symbolToId !! symbol_of req = Some ticker ->
      currency_of req = "USD" ->
      price_stale cfg o w (price_key ticker) ->
      price_fetched cfg o w ticker response ->
      opt_prop (rs_data response) "price" = VUndefined ->
      opt_prop (rs_data response) "priceAvg" = VUndefined ->
      opt_prop (rs_data response) "avgPrice" = VUndefined ->
      let payload :=
        {| pp_symbol := symbol_of req; pp_currency := "USD"; pp_price := Num.NaN;
           pp_source := PRICE_API_BASE cfg;
           pp_timestamp := price_write_time o w (price_key ticker) |} in
      fst (run o (price cfg req) w) = inr (json (BPrice payload None None)) /\
      priceCache (snd (run o (price cfg req) w)) !! price_key ticker = Some payload).
Proof.
  split.
  - refine (proj2 (safe_run (fun _ _ => True) (fun _ _ => True) price_response_ok
                     o (price cfg req) w _ _)).
    + by apply price_safe_gen.
    + by split.
  - intros ticker response Hticker Hcur Hstale Hfetched Hprice HpriceAvg HavgPrice.
    unfold price_stale, price_write_time, price_key in *.
    unfold price. rewrite Hticker, Hcur. simpl.
    assert (Hnumber : Number (js_or (js_or (opt_prop (rs_data response) "price")
                                           (opt_prop (rs_data response) "priceAvg"))
                                    (opt_prop (rs_data response) "avgPrice")) = Some Num.NaN).
    { by rewrite Hprice, HpriceAvg, HavgPrice. }
    destruct (priceCache w !! price_cacheKey (Some ticker) "USD") as [c|] eqn:Hcached; simpl.
    + specialize (Hstale c eq_refl). apply Z.ltb_ge in Hstale. rewrite Hstale. simpl.
      fold (price_primary cfg ticker).
      destruct Hfetched as [Hprimary|(failure & Hprimary & Hfallback)].
      * rewrite Hprimary. simpl. rewrite Hnumber.
        split; [reflexivity|]. apply lookup_insert_eq.
      * rewrite Hprimary. simpl. rewrite length_app. simpl. rewrite Nat.add_1_r.
        fold (price_fallback ticker). rewrite Hfallback. simpl. rewrite Hnumber.
        split; [reflexivity|]. apply lookup_insert_eq.
    + fold (price_primary cfg ticker).
      destruct Hfetched as [Hprimary|(failure & Hprimary & Hfallback)].
      * rewrite Hprimary. simpl. rewrite Hnumber.
        split; [reflexivity|]. apply lookup_insert_eq.
      * rewrite Hprimary. simpl. rewrite length_app. simpl. rewrite Nat.add_1_r.
        fold (price_fallback ticker). rewrite Hfallback. simpl. rewrite Hnumber.
        split; [reflexivity|]. apply lookup_insert_eq.
Qed.

Lemma price_not_available_unreachable_witness :
  symbolToId !! symbol_of (Sample.query "BTC") = Some "BTCUSDT" /\
  currency_of (Sample.query "BTC") = "USD" /\
  (* at time 1000 upstream answers the ticker request with an empty object *)
  let payload :=
    {| pp_symbol := "BTC"; pp_currency := "USD"; pp_price := Num.NaN;
       pp_source := DEFAULT_PRICE_API_BASE; pp_timestamp := 1000 |} in
  fst (run (Sample.oracle 1000 (fun _ => Sample.ok (VObj [])))
           (Sample.price (Sample.query "BTC")) initial_world) =
    inr (json (BPrice payload None None)) /\
  priceCache (snd (run (Sample.oracle 1000 (fun _ => Sample.ok (VObj [])))
                       (Sample.price (Sample.query "BTC")) initial_world))
    !! price_key "BTCUSDT" = Some payload /\
  exists r,
    fst (run (Sample.oracle 1000 (fun _ => Sample.ok (VObj [])))
             (Sample.price (Sample.query "BTC")) initial_world) = inr r /\
    forall details, body r <> BError "Price not available" details.
Proof.
  assert (Hticker : symbolToId !! symbol_of (Sample.query "BTC") = Some "BTCUSDT")
    by (vm_compute; reflexivity).
  assert (Hcur : currency_of (Sample.query "BTC") = "USD") by (vm_compute; reflexivity).
  split; [exact Hticker|]. split; [exact Hcur|].
  destruct (@price_not_available_unreachable Sample.conv default_config
              (Sample.oracle 1000 (fun _ => Sample.ok (VObj [])))
              (Sample.query "BTC") initial_world) as [Hnever Hnan].
  destruct (Hnan "BTCUSDT" {| rs_status := 200; rs_data := VObj [] |} Hticker Hcur)
    as (Hrun & Hcache).
  - intros c Hc. vm_compute in Hc. discriminate Hc.
  - left. reflexivity.
  - reflexivity.
  - reflexivity.
  - reflexivity.
  - split; [exact Hrun|]. split; [exact Hcache|]. exact Hnever.
Defined.

(** ** The klines fetch of [/history] *)

(** [req.query.days || 1] is truthy, so that [Number(days || 1)] is
    [Number(days)]. *)
Lemma days_truthy (req : Query) : js_or (days_of req) (VNum (Num.of_Z 1)) = days_of req.
Proof.
  unfold days_of. destruct (q_days req) as [d|]; unfold js_or; simpl.
  - destruct (String.eqb d "") eqn:Hd; simpl; [reflexivity|]. by rewrite Hd.
  - reflexivity.
Qed.

(** [days] is a string or the number 1: [`${days}`] and
    [Number(days || 1)] complete, and [Number] is [ToNumber] on it. *)
Lemma days_converts `{JsConv} (req : Query) :
  converts (days_of req) = true /\
  Number (js_or (days_of req) (VNum (Num.of_Z 1))) = Some (ToNumber (days_of req)).
Proof.
  assert (Hconverts : converts (days_of req) = true).
  { unfold days_of, js_or. destruct (q_days req) as [d|]; [|reflexivity].
    by destruct (ToBoolean (VStr d)). }
  split; [exact Hconverts|].
  rewrite days_truthy. unfold Number. by rewrite Hconverts.
Qed.

(** [Math.min(x, 1000)] is at most 1000, unless it is NaN. *)
Lemma min_capped (x : number) :
  Num.is_nan (Num.min x (Num.of_Z 1000)) = true \/
  SFleb (Num.min x (Num.of_Z 1000)) (Num.of_Z 1000) = true.
Proof.
  unfold Num.min, SFleb.
  destruct (SFcompare x (Num.of_Z 1000)) as [[| |]|] eqn:Hcmp.
  - right. destruct (Num.is_neg_zero x); [by rewrite Hcmp | reflexivity].
  - right. by rewrite Hcmp.
  - right. reflexivity.
  - left. reflexivity.
Qed.

(** On a whole number of days up to 2000, the limit is the integer
    [min(days * 24, 1000)], respectively [min(days, 1000)]. *)
Lemma limit_integral (n : Z) :
  0 <= n <= 2000 ->
  Num.min (Num.mul (Num.of_Z n) (Num.of_Z 24)) (Num.of_Z 1000) = Num.of_Z (Z.min (n * 24) 1000) /\
  Num.min (Num.of_Z n) (Num.of_Z 1000) = Num.of_Z (Z.min n 1000).
Proof.
  intros Hn.
  assert (Hall : Forall (fun n =>
                   Num.min (Num.mul (Num.of_Z n) (Num.of_Z 24)) (Num.of_Z 1000) =
                     Num.of_Z (Z.min (n * 24) 1000) /\
                   Num.min (Num.of_Z n) (Num.of_Z 1000) = Num.of_Z (Z.min n 1000))
                 (seqZ 0 2001)).
  { refine (bool_decide_unpack _ _). vm_compute. exact I. }
  rewrite Forall_forall in Hall. apply Hall. apply elem_of_seqZ. lia.
Qed.

(** The primary klines request, from the parameters of the query. *)
Lemma history_primary_params `{JsConv} (cfg : Config) (req : Query) (ticker : string) :
  let daily :=
    match q_interval req with
    | Some interval => String.eqb interval "daily"
    | None => false
    end in
  let days :=
    match q_days req with
    | Some d => if String.eqb d "" then Num.of_Z 1 else StringToNumber d
    | None => Num.of_Z 1
    end in
  history_primary cfg req ticker =
  {| rq_url := HISTORY_API_BASE cfg;
     rq_params :=
       KlineParams ticker (if daily then "1d" else "1h")
         (Num.min (if daily then days else Num.mul days (Num.of_Z 24)) (Num.of_Z 1000));
     rq_headers := buildHeaders;
     rq_timeout := 5000 |}.
Proof.
  intros daily days.
  assert (Hdays : ToNumber (days_of req) = days).
  { unfold days_of, days, js_or. destruct (q_days req) as [d|]; [|reflexivity].
    simpl. by destruct (String.eqb d ""). }
  unfold history_primary, axios_request, binanceInterval_of, limit_of.
  rewrite days_truthy, Hdays. unfold interval_of, or_default, daily.
  destruct (q_interval req) as [interval|]; [|reflexivity].
  destruct (String.eqb interval "") eqn:Hempty.
  - apply String.eqb_eq in Hempty as ->. reflexivity.
  - destruct (String.eqb interval "hourly") eqn:Hhourly.
    + apply String.eqb_eq in Hhourly as ->. reflexivity.
    + by destruct (String.eqb interval "daily").
Qed.

(** C7.  A [/history] request that goes upstream sends the klines
    request of the mapped interval ([interval=daily] to 1d, anything
    else, or nothing, to 1h) with limit [min(days * 24, 1000)] for 1h
    and [min(days, 1000)] for 1d, where [days] is the number that the
    parameter [days] reads as, and 1 when it is absent or empty: for a
    whole number [n] of days from 0 to 2000 the limit is the integer
    [min(n * 24, 1000)], respectively [min(n, 1000)].  When that request fails
    with status 429, the handler sends exactly one more request, the
    degraded one with interval 1d and limit 30; when it fails with
    another status, or succeeds, the handler sends nothing more. *)
Theorem history_requests `{JsConv} (cfg : Config) (o : Oracle) (req : Query)
        (w : World) (ticker : string) :
  mock_enabled cfg = false ->
  symbolToId !! symbol_of req = Some ticker ->
  history_stale cfg o w (history_key req ticker) ->
  let daily :=
    match q_interval req with
    | Some interval => String.eqb interval "daily"
    | None => false
    end in
  let days :=
    match q_days req with
    | Some d => if String.eqb d "" then Num.of_Z 1 else StringToNumber d
    | None => Num.of_Z 1
    end in
  let limit := Num.min (if daily then days else Num.mul days (Num.of_Z 24)) (Num.of_Z 1000) in
  let primary :=
    {| rq_url := HISTORY_API_BASE cfg;
       rq_params := KlineParams ticker (if daily then "1d" else "1h") limit;
       rq_headers := buildHeaders;
       rq_timeout := 5000 |} in
  let degraded :=
    {| rq_url := HISTORY_API_BASE cfg;
       rq_params := KlineParams ticker "1d" (Num.of_Z 30);
       rq_headers := buildHeaders;
       rq_timeout := 5000 |} in
  (* the limit *)
  (Num.is_nan limit = true \/ SFleb limit (Num.of_Z 1000) = true) /\
  (forall n, 0 <= n <= 2000 -> days = Num.of_Z n ->
             limit = Num.of_Z (Z.min (if daily then n else n * 24) 1000)) /\
  (* what is sent *)
  match upstream o (length (requests w)) primary with
  | inr failure =>
      let status :=
        match failure with
        | Some r => if rs_status r =? 0 then 500 else rs_status r
        | None => 500
        end in
      if status =? 429
      then requests (snd (run o (history cfg req) w)) = (requests w ++ [primary; degraded])%list
      else requests (snd (run o (history cfg req) w)) = (requests w ++ [primary])%list
  | inl _ =>
      requests (snd (run o (history cfg req) w)) = (requests w ++ [primary])%list
  end.
Proof.
  intros Hmock Hticker Hstale daily days limit primary degraded.
  assert (Hprimary : history_primary cfg req ticker = primary)
    by apply history_primary_params.
  assert (Hdegraded : history_degraded cfg ticker = degraded) by reflexivity.
  split; [|split].
  - apply min_capped.
  - intros n Hn Hdays. unfold limit. rewrite Hdays.
    destruct (limit_integral n Hn) as [Hhourly Hdaily]. by destruct daily.
  - rewrite <- Hprimary, <- Hdegraded. clear Hprimary Hdegraded.
    history_prelude Hmock Hticker Hstale c Hcached.
    + destruct (upstream o (length (requests w)) (history_primary cfg req ticker))
        as [response|failure]; simpl.
      * rewrite run_quiet; [reflexivity|]. repeat quiet_step.
      * change (match failure with
                | Some r => if rs_status r =? 0 then 500 else rs_status r
                | None => 500
                end) with (error_status (AxiosError failure)).
        destruct (error_status (AxiosError failure) =? 429) eqn:Hstatus; simpl.
        -- fold (history_degraded cfg ticker).
           rewrite run_quiet; [simpl; by rewrite <- app_assoc|].
           repeat quiet_step.
        -- rewrite run_quiet; [reflexivity|]. repeat quiet_step.
    + destruct (upstream o (length (requests w)) (history_primary cfg req ticker))
        as [response|failure]; simpl.
      * rewrite run_quiet; [reflexivity|]. repeat quiet_step.
      * change (match failure with
                | Some r => if rs_status r =? 0 then 500 else rs_status r
                | None => 500
                end) with (error_status (AxiosError failure)).
        destruct (error_status (AxiosError failure) =? 429) eqn:Hstatus; simpl.
        -- fold (history_degraded cfg ticker).
           rewrite run_quiet; [simpl; by rewrite <- app_assoc|].
           repeat quiet_step.
        -- rewrite run_quiet; [reflexivity|]. repeat quiet_step.
Qed.

Lemma history_requests_witness :
  let week := {| q_symbol := Some "BTC"; q_currency := None;
                 q_days := Some "7"; q_interval := Some "daily" |} in
  let quarter := {| q_symbol := Some "BTC"; q_currency := None;
                    q_days := Some "100"; q_interval := Some "hourly" |} in
  let klines_request (interval : string) (limit : Z) :=
    {| rq_url := "https://api.binance.com/api/v3/klines";
       rq_params := KlineParams "BTCUSDT" interval (Num.of_Z limit);
       rq_headers := [("Accept", "application/json");
                      ("User-Agent", "Z6X-Market-Data-Node/1.0")];
       rq_timeout := 5000 |} in
  mock_enabled default_config = false /\
  symbolToId !! symbol_of week = Some "BTCUSDT" /\
  symbolToId !! symbol_of quarter = Some "BTCUSDT" /\
  (* /history?symbol=BTC&days=7&interval=daily, upstream answers 429 *)
  requests (snd (run (Sample.oracle 1000 (Sample.refusing 429)) (Sample.history week)
                     initial_world)) =
    [klines_request "1d" 7; klines_request "1d" 30] /\
  (* /history?symbol=BTC&days=100&interval=hourly, upstream answers *)
  requests (snd (run (Sample.oracle 1000 Sample.market) (Sample.history quarter)
                     initial_world)) =
    [klines_request "1h" 1000].
Proof.
  intros week quarter klines_request.
  assert (Hmock : mock_enabled default_config = false) by reflexivity.
  assert (Hweek : symbolToId !! symbol_of week = Some "BTCUSDT")
    by (vm_compute; reflexivity).
  assert (Hquarter : symbolToId !! symbol_of quarter = Some "BTCUSDT")
    by (vm_compute; reflexivity).
  split; [exact Hmock|]. split; [exact Hweek|]. split; [exact Hquarter|]. split.
  - destruct (@history_requests Sample.conv default_config
                (Sample.oracle 1000 (Sample.refusing 429)) week
                initial_world "BTCUSDT" Hmock Hweek)
      as (_ & _ & Hsent).
    + intros c Hc. vm_compute in Hc. discriminate Hc.
    + vm_compute in Hsent |- *. exact Hsent.
  - destruct (@history_requests Sample.conv default_config
                (Sample.oracle 1000 Sample.market) quarter
                initial_world "BTCUSDT" Hmock Hquarter)
      as (_ & _ & Hsent).
    + intros c Hc. vm_compute in Hc. discriminate Hc.
    + vm_compute in Hsent |- *. exact Hsent.
Defined.

(** The series of a klines body is empty exactly when the body is falsy
    (replaced by [[]]) or the empty array. *)
Lemma klines_map_empty `{JsConv} (data : value) :
  klines_map (js_or data (VArr [])) = Some [] <-> ToBoolean data = false \/ data = VArr [].
Proof.
  unfold js_or. destruct (ToBoolean data) eqn:Htruthy.
  - split.
    + destruct data as [| | | | |rows|]; simpl; try discriminate.
      destruct rows as [|k rows]; [by right|]. simpl.
      destruct (kline_point k); [|discriminate]. by destruct (map_rows rows).
    + intros [Hfalse | ->]; [discriminate Hfalse | reflexivity].
  - split; [by left|reflexivity].
Qed.

(** C8.  When upstream answers the klines fetch, by the primary or by
    the degraded request, with a body whose series of points is empty,
    [/history] answers 502 "History not available" and leaves both
    caches as they were. *)
Theorem history_empty_series `{JsConv} (cfg : Config) (o : Oracle) (req : Query)
        (w : World) (ticker : string) (response : HttpResponse) :
  mock_enabled cfg = false ->
  symbolToId !! symbol_of req = Some ticker ->
  history_stale cfg o w (history_key req ticker) ->
  klines_fetched cfg o w req ticker response ->
  klines_map (js_or (rs_data response) (VArr [])) = Some [] ->
  fst (run o (history cfg req) w) = inr (status_json 502 (BError "History not available" None)) /\
  historyCache (snd (run o (history cfg req) w)) = historyCache w /\
  priceCache (snd (run o (history cfg req) w)) = priceCache w.
Proof.
  intros Hmock Hticker Hstale Hfetched Hempty.
  unfold klines_fetched in Hfetched.
  history_prelude Hmock Hticker Hstale c Hcached.
  - destruct Hfetched as [Hprimary|(failure & Hprimary & Hstatus & Hdegraded)].
    + rewrite Hprimary. simpl. by rewrite Hempty.
    + rewrite Hprimary. simpl. rewrite Hstatus. simpl.
      rewrite length_app. simpl. rewrite Nat.add_1_r.
      fold (history_degraded cfg ticker). rewrite Hdegraded. simpl. by rewrite Hempty.
  - destruct Hfetched as [Hprimary|(failure & Hprimary & Hstatus & Hdegraded)].
    + rewrite Hprimary. simpl. by rewrite Hempty.
    + rewrite Hprimary. simpl. rewrite Hstatus. simpl.
      rewrite length_app. simpl. rewrite Nat.add_1_r.
      fold (history_degraded cfg ticker). rewrite Hdegraded. simpl. by rewrite Hempty.
Qed.

Lemma history_empty_series_witness :
  mock_enabled default_config = false /\
  symbolToId !! symbol_of (Sample.query "BTC") = Some "BTCUSDT" /\
  @klines_map Sample.conv (js_or (VArr []) (VArr [])) = Some [] /\
  (* upstream answers the primary request with an empty array *)
  fst (run (Sample.oracle 1000 (fun _ => Sample.ok (VArr [])))
           (Sample.history (Sample.query "BTC")) initial_world) =
    inr (status_json 502 (BError "History not available" None)) /\
  historyCache (snd (run (Sample.oracle 1000 (fun _ => Sample.ok (VArr [])))
                         (Sample.history (Sample.query "BTC")) initial_world)) = ∅.
Proof.
  assert (Hmock : mock_enabled default_config = false) by reflexivity.
  assert (Hticker : symbolToId !! symbol_of (Sample.query "BTC") = Some "BTCUSDT")
    by (vm_compute; reflexivity).
  assert (Hempty : @klines_map Sample.conv (js_or (VArr []) (VArr [])) = Some [])
    by reflexivity.
  destruct (@history_empty_series Sample.conv default_config
              (Sample.oracle 1000 (fun _ => Sample.ok (VArr []))) (Sample.query "BTC")
              initial_world "BTCUSDT" {| rs_status := 200; rs_data := VArr [] |}
              Hmock Hticker)
    as (Hrun & Hhistory & _).
  - intros c Hc. vm_compute in Hc. discriminate Hc.
  - left. reflexivity.
  - exact Hempty.
  - split; [exact Hmock|]. split; [exact Hticker|]. split; [exact Hempty|].
    split; [exact Hrun | exact Hhistory].
Defined.

(** ** Failures of the klines fetch *)

(** C2, as amended.  In a process whose history cache holds an entry,
    not fresh, under the key of the request, when the primary klines
    request fails with a status other than 429: with status 401 or 403,
    [/history] answers 200 with the cached payload, [cached = true] and
    the warning that upstream rejected the request; with any other
    status (500 included, which also stands for a failure without a
    response, such as a timeout) it answers with that status, the error
    "History request failed" and, as details, the body of the upstream
    response (null when that body is falsy, or when there is no
    response). *)
Theorem history_stale_fallback `{JsConv} (cfg : Config) (o : Oracle) (req : Query)
        (w : World) (ticker : string) (c : HistoryEntry) (failure : option HttpResponse) :
  reachable cfg w ->
  symbolToId !! symbol_of req = Some ticker ->
  historyCache w !! history_key req ticker = Some c ->
  HISTORY_CACHE_TTL_MS cfg <= clock o (S (ticks w)) - he_timestamp c ->
  upstream o (length (requests w)) (history_primary cfg req ticker) = inr failure ->
  let status :=
    match failure with
    | Some r => if rs_status r =? 0 then 500 else rs_status r
    | None => 500
    end in
  let details :=
    match failure with
    | Some r => if ToBoolean (rs_data r) then rs_data r else VNull
    | None => VNull
    end in
  status <> 429 ->
  (status = 401 \/ status = 403 ->
   fst (run o (history cfg req) w) =
   inr (json (BHistory (he_payload c) (Some true)
                (Some "Upstream rejected request, serving cached history. Set API_KEY if needed.")))) /\
  (status <> 401 ->
   status <> 403 ->
   fst (run o (history cfg req) w) =
   inr (status_json status (BError "History request failed" (Some details)))).
Proof.
  intros Hreach Hticker Hentry Hold Hprimary status details H429.
  assert (Hstatus : error_status (AxiosError failure) = status) by (by destruct failure).
  assert (Hdetails : error_details (AxiosError failure) = details) by (by destruct failure).
  destruct (reachable_ok cfg w Hreach) as [_ Hhist].
  destruct (Hhist _ _ Hentry) as [Hmock _].
  assert (Hstale : history_stale cfg o w (history_key req ticker)).
  { intros c' Hc'. rewrite Hentry in Hc'. by injection Hc' as <-. }
  unfold history_key in Hentry.
  apply Z.eqb_neq in H429.
  split.
  - intros Hrejected.
    history_prelude Hmock Hticker Hstale c' Hcached; [|discriminate Hentry].
    injection Hentry as ->.
    rewrite Hprimary. simpl. rewrite Hstatus, H429. simpl. rewrite Hstatus, H429. simpl.
    destruct Hrejected as [->| ->]; reflexivity.
  - intros H401 H403. apply Z.eqb_neq in H401, H403.
    history_prelude Hmock Hticker Hstale c' Hcached; [|discriminate Hentry].
    rewrite Hprimary. simpl. rewrite Hstatus, H429. simpl.
    rewrite Hstatus, H429, H401, H403. simpl.
    unfold history_failure. by rewrite Hstatus, Hdetails, H401.
Qed.

Lemma history_stale_fallback_witness :
  @reachable Sample.conv default_config Sample.after_history /\
  symbolToId !! symbol_of (Sample.query "BTC") = Some "BTCUSDT" /\
  historyCache Sample.after_history !! @history_key Sample.conv (Sample.query "BTC") "BTCUSDT" =
    Some {| he_payload := Sample.btc_history; he_timestamp := 2000 |} /\
  (* five minutes after the write, upstream answers 403 *)
  fst (run (Sample.oracle 302000 (Sample.refusing 403)) (Sample.history (Sample.query "BTC"))
           Sample.after_history) =
    inr (json (BHistory Sample.btc_history (Some true)
                 (Some "Upstream rejected request, serving cached history. Set API_KEY if needed."))) /\
  (* five minutes after the write, upstream answers 503 with the body
     {code: -1003, msg: "Too many requests."} *)
  fst (run (Sample.oracle 302000 (Sample.refusing 503)) (Sample.history (Sample.query "BTC"))
           Sample.after_history) =
    inr (status_json 503
           (BError "History request failed"
              (Some (VObj [("code", VNum (Num.of_Z (-1003)));
                           ("msg", VStr "Too many requests.")])))) /\
  (* five minutes after the write, upstream does not answer in time *)
  fst (run (Sample.oracle 302000 Sample.silent) (Sample.history (Sample.query "BTC"))
           Sample.after_history) =
    inr (status_json 500 (BError "History request failed" (Some VNull))).
Proof.
  assert (Hticker : symbolToId !! symbol_of (Sample.query "BTC") = Some "BTCUSDT")
    by (vm_compute; reflexivity).
  assert (Hentry : historyCache Sample.after_history
                     !! @history_key Sample.conv (Sample.query "BTC") "BTCUSDT" =
                   Some {| he_payload := Sample.btc_history; he_timestamp := 2000 |})
    by (vm_compute; reflexivity).
  pose proof (fun reply failure Hreply =>
                @history_stale_fallback Sample.conv default_config
                  (Sample.oracle 302000 reply) (Sample.query "BTC")
                  Sample.after_history "BTCUSDT" _ failure
                  Sample_reachable Hticker Hentry
                  ltac:(vm_compute; discriminate) Hreply) as Hfallback.
  split; [exact Sample_reachable|]. split; [exact Hticker|]. split; [exact Hentry|].
  split; [|split].
  - refine (proj1 (Hfallback (Sample.refusing 403) _ eq_refl _) _); [discriminate|].
    by right.
  - refine (proj2 (Hfallback (Sample.refusing 503) _ eq_refl _) _ _); discriminate.
  - refine (proj2 (Hfallback Sample.silent _ eq_refl _) _ _); discriminate.
Defined.

(** A cached entry does not keep a 500 from the caller. *)
Lemma history_stale_fallback_counterexample :
  historyCache Sample.after_history !! @history_key Sample.conv (Sample.query "BTC") "BTCUSDT" =
    Some {| he_payload := Sample.btc_history; he_timestamp := 2000 |} /\
  (* five minutes after the write, upstream answers 500 *)
  upstream (Sample.oracle 302000 (Sample.down 500))
           (length (requests Sample.after_history))
           (@history_primary Sample.conv default_config (Sample.query "BTC") "BTCUSDT") =
    inr (Some {| rs_status := 500; rs_data := VNull |}) /\
  fst (run (Sample.oracle 302000 (Sample.down 500)) (Sample.history (Sample.query "BTC"))
           Sample.after_history) =
    inr (status_json 500 (BError "History request failed" (Some VNull))).
Proof.
  repeat split; vm_compute; reflexivity.
Qed.

(** ** The transformation of klines *)

#[local] Arguments field : simpl never.
#[local] Arguments klines_map : simpl never.
#[local] Arguments klines_volume : simpl never.

Section Klines.
Context `{JsConv}.





End Klines.





(** ** The series held by the history cache *)

(** C10.  In every state of the process, every entry of the history
    cache holds a series that is not empty; hence [/history], which
    always answers, never answers with an empty series: every response
    that carries a series, the responses served from a stale entry among
    them, carries at least one point. *)
Theorem history_cache_nonempty `{JsConv} (cfg : Config) (w : World) :
  reachable cfg w ->
  (forall key e, historyCache w !! key = Some e -> hp_points (he_payload e) <> []) /\
  (forall o req,
      exists r,
        fst (run o (history cfg req) w) = inr r /\
        forall payload cached warning,
          body r = BHistory payload cached warning -> hp_points payload <> []).
Proof.
  intros Hreach. pose proof (reachable_ok cfg w Hreach) as Hw. split.
  - intros key e Hentry. by destruct (proj2 Hw key e Hentry).
  - intros o req.
    destruct (safe_run _ _ _ o (history cfg req) w (history_safe cfg req) Hw)
      as (_ & r & Hrun & Hresp).
    exists r. split; [exact Hrun|].
    intros payload cached warning Hbody. by destruct (Hresp payload cached warning Hbody).
Qed.

Lemma history_cache_nonempty_witness :
  @reachable Sample.conv default_config Sample.after_history /\
  (forall key e, historyCache Sample.after_history !! key = Some e ->
                 hp_points (he_payload e) <> []) /\
  (* five minutes after the write, upstream answers 429 twice *)
  exists r,
    fst (run (Sample.oracle 302000 (Sample.down 429)) (Sample.history (Sample.query "BTC"))
             Sample.after_history) = inr r /\
    forall payload cached warning,
      body r = BHistory payload cached warning -> hp_points payload <> [].
Proof.
  destruct (@history_cache_nonempty Sample.conv default_config Sample.after_history
              Sample_reachable) as [Hcache Hserved].
  split; [exact Sample_reachable|]. split; [exact Hcache|].
  exact (Hserved (Sample.oracle 302000 (Sample.down 429)) (Sample.query "BTC")).
Defined.

(** ** The flat series of the spot price *)

(** In no state of the process does [/history] serve the flat series:
    the spot price is looked up under a key that ends in [":usd"], and
    [/price] stores it under a key that ends in [":USD"]. *)
Lemma flat_fallback_unreachable `{JsConv} (cfg : Config) (w : World) :
  reachable cfg w ->
  forall o req,
    exists r,
      fst (run o (history cfg req) w) = inr r /\
      forall payload cached warning,
        body r = BHistory payload cached warning ->
        warning <> Some flat_fallback_warning.
Proof.
  intros Hreach o req.
  pose proof (reachable_ok cfg w Hreach) as Hw.
  destruct (safe_run _ _ _ o (history cfg req) w (history_safe cfg req) Hw)
    as (_ & r & Hrun & Hresp).
  exists r. split; [exact Hrun|].
  intros payload cached warning Hbody. by destruct (Hresp payload cached warning Hbody).
Qed.

Lemma fallbackPoints_shape (now : Z) (spot : number) :
  length (fallbackPoints now spot) = 12%nat /\
  forall i, (i < 12)%nat ->
    nth_error (fallbackPoints now spot) i =
    Some {| pt_t := VNum (Num.of_Z (now - (11 - Z.of_nat i) * (5 * 60 * 1000)));
            pt_price := spot |}.
Proof.
  split; [reflexivity|]. intros i Hi.
  do 12 (destruct i as [|i]; [reflexivity|]). lia.
Qed.

(** What the catch block of [/history] does with a spot price, were one
    stored under the key it reads: on a 429 from both klines requests
    and without a history entry, it serves 12 points at that price, 5
    minutes apart, the last at the time of the call. *)
Lemma flat_fallback_series `{JsConv} (cfg : Config) (o : Oracle) (req : Query)
      (w : World) (ticker : string) (sp : PricePayload) (primary degraded : option HttpResponse) :
  mock_enabled cfg = false ->
  symbolToId !! symbol_of req = Some ticker ->
  historyCache w !! history_key req ticker = None ->
  priceCache w !! (ticker +:+ ":usd") = Some sp ->
  ToBoolean (VNum (pp_price sp)) = true ->
  upstream o (length (requests w)) (history_primary cfg req ticker) = inr primary ->
  error_status (AxiosError primary) = 429 ->
  upstream o (S (length (requests w))) (history_degraded cfg ticker) = inr degraded ->
  error_status (AxiosError degraded) = 429 ->
  fst (run o (history cfg req) w) =
  inr (json (BHistory
               {| hp_symbol := symbol_of req; hp_days := days_of req;
                  hp_interval := interval_of req;
                  hp_points := fallbackPoints (clock o (S (ticks w))) (pp_price sp);
                  hp_volume24h := None;
                  hp_source := HISTORY_API_BASE cfg +:+ " (fallback)" |}
               (Some true) (Some flat_fallback_warning))).
Proof.
  intros Hmock Hticker Hentry Hspot Htruthy Hprimary Hstatus1 Hdegraded Hstatus2.
  unfold history_key in Hentry.
  unfold history. simpl. rewrite Hmock, Hticker. simpl. rewrite Hentry. simpl.
  fold (history_primary cfg req ticker). rewrite Hprimary. simpl. rewrite Hstatus1. simpl.
  rewrite length_app. simpl. rewrite Nat.add_1_r.
  fold (history_degraded cfg ticker). rewrite Hdegraded. simpl. rewrite Hstatus2. simpl.
  rewrite Hspot. simpl. simpl in Htruthy. rewrite Htruthy. reflexivity.
Qed.

(** C1, at the input on which the code departs from it.  The process
    has served [/price?symbol=BTC] at time 1000, so that its price cache
    holds a spot price of 88000 for BTCUSDT, fresh at time 5000, and its
    history cache is empty.  At time 5000 upstream answers both klines
    requests of [/history?symbol=BTC] with 429: the handler answers 429
    "History request failed" and not the flat series. *)
Theorem flat_fallback_missed :
  priceCache Sample.after_price !! price_key "BTCUSDT" = Some Sample.btc_price /\
  pp_price Sample.btc_price = Num.of_Z 88000 /\
  5000 - pp_timestamp Sample.btc_price < CACHE_TTL_MS default_config /\
  historyCache Sample.after_price = ∅ /\
  priceCache Sample.after_price !! "BTCUSDT:usd" = None /\
  run (Sample.oracle 5000 (Sample.down 429))
      (Sample.history (Sample.query "BTC")) Sample.after_price =
  (inr (status_json 429 (BError "History request failed" (Some VNull))),
   sent (@history_degraded default_config "BTCUSDT")
     (sent (@history_primary Sample.conv default_config (Sample.query "BTC") "BTCUSDT")
        (tick Sample.after_price))).
Proof.
  repeat split; vm_compute; reflexivity.
Qed.

(** * Further properties of the handlers *)

(** ** Runs under every clock and every upstream *)

Lemma wp_run {A : Type} (o : Oracle) (p : Prog A) (post : JsError + A -> World -> Prop)
      (w : World) :
  wp p post w -> post (fst (run o p w)) (snd (run o p w)).
Proof.
  revert w.
  induction p as [a|e|k IH|rq k IH|key k IH|key v k IH|key k IH|key v k IH];
    intros w Hwp; simpl in *; auto.
Qed.

(** The scrutinee on which a program waits. *)
Ltac blocker p :=
  lazymatch p with
  | bind ?q _ => blocker q
  | try_catch ?q _ => blocker q
  | or_throw ?x => x
  | match ?x with _ => _ end => x
  | if ?x then _ else _ => x
  end.

(** Walks through a run, case by case, down to its results. *)
Ltac wp_step :=
  first
    [ progress simpl
    | match goal with
      | |- forall _, _ => intro
      | |- wp ?p _ _ => let x := blocker p in destruct x eqn:?
      end ].

(** ** What the handlers do to the caches *)

(** Closes a run that wrote nothing. *)
Ltac unchanged :=
  right; split; [intros ? Hfresh; discriminate Hfresh | reflexivity].

(** X1.  A [/price] request never touches the history cache, whatever
    it ends in.  It writes the price cache exactly when it ends in the
    answer 200 with a payload that carries neither [cached] nor
    [warning]: then the price cache has that payload under the key of
    the request, and is otherwise as it was; whenever the request ends
    in anything else, the price cache is as it was. *)
Theorem price_effect `{JsConv} (cfg : Config) (o : Oracle) (req : Query) (w : World) :
  historyCache (snd (run o (price cfg req) w)) = historyCache w /\
  ((exists ticker payload,
       symbolToId !! symbol_of req = Some ticker /\
       currency_of req = "USD" /\
       fst (run o (price cfg req) w) = inr (json (BPrice payload None None)) /\
       priceCache (snd (run o (price cfg req) w)) =
       <[price_key ticker := payload]> (priceCache w)) \/
   ((forall payload, fst (run o (price cfg req) w) <> inr (json (BPrice payload None None))) /\
    priceCache (snd (run o (price cfg req) w)) = priceCache w)).
Proof.
  apply (wp_run o (price cfg req)
           (fun res w' =>
              historyCache w' = historyCache w /\
              ((exists ticker payload,
                   symbolToId !! symbol_of req = Some ticker /\
                   currency_of req = "USD" /\
                   res = inr (json (BPrice payload None None)) /\
                   priceCache w' = <[price_key ticker := payload]> (priceCache w)) \/
               ((forall payload, res <> inr (json (BPrice payload None None))) /\
                priceCache w' = priceCache w)))).
  unfold price, price_key.
  destruct (symbolToId !! symbol_of req) as [ticker|] eqn:Hticker; simpl;
    [|split; [reflexivity|unchanged]].
  destruct (negb (String.eqb (currency_of req) "USD")) eqn:Hcur; simpl;
    [split; [reflexivity|unchanged]|].
  apply negb_false_iff, String.eqb_eq in Hcur. rewrite Hcur.
  repeat wp_step.
  all: split; [reflexivity|].
  all: first [ unchanged | left; by eexists _, _ ].
Qed.

(** X2.  A [/history] request never touches the price cache, whatever
    it ends in.  It writes the history cache exactly when it ends in the
    answer 200 with a payload that carries neither [cached] nor
    [warning]: then the history cache has that payload, with the time of
    the write, under the key of the request, and is otherwise as it was;
    whenever the request ends in anything else, the history cache is as
    it was. *)
Theorem history_effect `{JsConv} (cfg : Config) (o : Oracle) (req : Query) (w : World) :
  priceCache (snd (run o (history cfg req) w)) = priceCache w /\
  ((exists ticker payload written,
       symbolToId !! symbol_of req = Some ticker /\
       mock_enabled cfg = false /\
       fst (run o (history cfg req) w) = inr (json (BHistory payload None None)) /\
       historyCache (snd (run o (history cfg req) w)) =
       <[history_key req ticker := {| he_payload := payload; he_timestamp := written |}]>
         (historyCache w)) \/
   ((forall payload,
        fst (run o (history cfg req) w) <> inr (json (BHistory payload None None))) /\
    historyCache (snd (run o (history cfg req) w)) = historyCache w)).
Proof.
  apply (wp_run o (history cfg req)
           (fun res w' =>
              priceCache w' = priceCache w /\
              ((exists ticker payload written,
                   symbolToId !! symbol_of req = Some ticker /\
                   mock_enabled cfg = false /\
                   res = inr (json (BHistory payload None None)) /\
                   historyCache w' =
                   <[history_key req ticker := {| he_payload := payload;
                                                  he_timestamp := written |}]>
                     (historyCache w)) \/
               ((forall payload, res <> inr (json (BHistory payload None None))) /\
                historyCache w' = historyCache w)))).
  unfold history, history_key. simpl. intros now.
  destruct (mock_enabled cfg) eqn:Hmock; simpl; [split; [reflexivity|unchanged]|].
  destruct (symbolToId !! symbol_of req) as [ticker|] eqn:Hticker; simpl;
    [|split; [reflexivity|unchanged]].
  repeat wp_step.
  all: split; [reflexivity|].
  all: first [ unchanged
             | right; split; [|reflexivity]; intros ? Hfresh; unfold history_failure in Hfresh;
               destruct (_ =? 401) in Hfresh; discriminate Hfresh
             | left; by eexists _, _, _ ].
Qed.

(** ** Where cache entries come from *)

Lemma symbolToId_inj (symbol symbol' ticker : string) :
  symbolToId !! symbol = Some ticker ->
  symbolToId !! symbol' = Some ticker ->
  symbol = symbol'.
Proof.
  unfold symbolToId. intros Hl Hl'.
  apply elem_of_list_to_map_2 in Hl, Hl'.
  repeat (apply elem_of_cons in Hl as [[= -> ->]|Hl];
          [repeat (apply elem_of_cons in Hl' as [Heq|Hl']; [by simplify_eq|]);
           by apply elem_of_nil in Hl'|]).
  by apply elem_of_nil in Hl.
Qed.

(** The volume computed for a series that is not empty is a number, not
    null. *)
Lemma klines_volume_some `{JsConv} (klines : value) (p : Point) (ps : list Point)
      (volume : option number) :
  klines_map klines = Some (p :: ps) ->
  klines_volume klines = Some volume ->
  exists v, volume = Some v.
Proof.
  unfold klines_map, klines_volume.
  destruct klines as [| | | | |rows|]; try discriminate.
  destruct rows as [|k rows]; [discriminate|].
  intros _ Hvolume.
  destruct (reduce_volume (k :: rows) (Num.of_Z 0)) as [v|]; [|discriminate].
  injection Hvolume as <-. by exists v.
Qed.

Section ProvenanceLemmas.
Context `{JsConv}.
Variable cfg : Config.

Lemma price_provenance (req : Query) :
  safe (price_entry_of cfg) (history_entry_of cfg) (fun _ => True) (price cfg req).
Proof.
  unfold price.
  destruct (symbolToId !! symbol_of req) as [ticker|] eqn:Hticker; simpl; [|done].
  destruct (negb (String.eqb (currency_of req) "USD")) eqn:Hcur; simpl; [done|].
  apply negb_false_iff, String.eqb_eq in Hcur. rewrite Hcur.
  repeat safe_step.
  all: by exists ticker.
Qed.

Lemma history_provenance (req : Query) :
  safe (price_entry_of cfg) (history_entry_of cfg) (fun _ => True) (history cfg req).
Proof.
  unfold history.
  repeat safe_step.
  all: split; [assumption|]; eexists; split; [eassumption|];
    split; [reflexivity|]; split; [discriminate|].
  all: match goal with
       | Hmap : klines_map _ = Some (_ :: _), Hvol : klines_volume _ = Some _ |- _ =>
           destruct (klines_volume_some _ _ _ _ Hmap Hvol) as [volume ->]; discriminate
       end.
Qed.

(** Whatever the handlers keep of what they read, they keep of what
    they write: it holds in every state of the process. *)
Lemma Reachable_provenance (w : World) (pool : list (Prog Response)) :
  Reachable cfg w pool ->
  caches_ok (price_entry_of cfg) (history_entry_of cfg) w /\
  Forall (safe (price_entry_of cfg) (history_entry_of cfg) (fun _ => True)) pool.
Proof.
  induction 1 as [|req w pool _ [IHw IHpool]|req w pool _ [IHw IHpool]
                  |w pool1 p pool2 p' w' _ [IHw IHpool] Hstep].
  - split; [|constructor]. split; intros key x; simpl; by rewrite lookup_empty.
  - split; [exact IHw|]. constructor; [apply price_provenance | exact IHpool].
  - split; [exact IHw|]. constructor; [apply history_provenance | exact IHpool].
  - apply Forall_app in IHpool as [Hpool1 Hpool2].
    apply Forall_cons in Hpool2 as [Hp Hpool2].
    destruct (safe_pstep _ _ _ _ _ _ _ Hstep Hp IHw) as [Hp' Hw'].
    split; [exact Hw'|]. apply Forall_app; split; [exact Hpool1|].
    by constructor.
Qed.

Lemma reachable_provenance (w : World) :
  reachable cfg w -> caches_ok (price_entry_of cfg) (history_entry_of cfg) w.
Proof. intros [pool Hreach]. by apply Reachable_provenance in Hreach as [? _]. Qed.

End ProvenanceLemmas.

Lemma price_key_inj (symbol symbol' ticker ticker' : string) :
  symbolToId !! symbol = Some ticker ->
  symbolToId !! symbol' = Some ticker' ->
  price_key ticker = price_key ticker' ->
  ticker = ticker'.
Proof.
  intros Hticker Hticker' Hkey.
  apply symbolToId_range in Hticker, Hticker'.
  repeat (apply elem_of_cons in Hticker as [->|Hticker]);
    try (by apply elem_of_nil in Hticker);
    repeat (apply elem_of_cons in Hticker' as [->|Hticker']);
    try (by apply elem_of_nil in Hticker'); try reflexivity; discriminate Hkey.
Qed.

(** X3.  In every state of the process, the entry of the price cache
    under the key of a request was written for the symbol of that
    request: a price served from the cache is a price of the symbol
    asked for, in USD, from the configured price endpoint. *)
Theorem cached_price_matches_request `{JsConv} (cfg : Config) (w : World) (req : Query)
        (ticker : string) (c : PricePayload) :
  reachable cfg w ->
  symbolToId !! symbol_of req = Some ticker ->
  priceCache w !! price_key ticker = Some c ->
  pp_symbol c = symbol_of req /\
  pp_currency c = "USD" /\
  pp_source c = PRICE_API_BASE cfg.
Proof.
  intros Hreach Hticker Hentry.
  destruct (reachable_provenance cfg w Hreach) as [Hprice _].
  destruct (Hprice _ _ Hentry) as (ticker' & Hticker' & Hkey & Hcur & Hsource).
  split; [|by split].
  assert (ticker = ticker') as <- by (eapply price_key_inj; eauto).
  eapply symbolToId_inj; eauto.
Qed.

(** X4.  In every state of the process the price cache holds at most
    four entries, one per symbol of the table. *)
Theorem price_cache_bounded `{JsConv} (cfg : Config) (w : World) :
  reachable cfg w ->
  (size (priceCache w) <= 4)%nat /\
  forall key, is_Some (priceCache w !! key) ->
              key ∈ ["BTCUSDT:USD"; "ETHUSDT:USD"; "SOLUSDT:USD"; "ASTRUSDT:USD"].
Proof.
  intros Hreach.
  assert (Hkeys : forall key, is_Some (priceCache w !! key) ->
            key ∈ ["BTCUSDT:USD"; "ETHUSDT:USD"; "SOLUSDT:USD"; "ASTRUSDT:USD"]).
  { intros key [c Hentry].
    destruct (reachable_ok cfg w Hreach) as [Hprice _].
    destruct (Hprice _ _ Hentry) as (symbol & ticker & Hticker & ->).
    apply symbolToId_range in Hticker.
    repeat (apply elem_of_cons in Hticker as [->|Hticker]; [repeat constructor|]).
    by apply elem_of_nil in Hticker. }
  split; [|exact Hkeys].
  rewrite <- size_dom.
  transitivity (size (list_to_set (C := gset string)
                        ["BTCUSDT:USD"; "ETHUSDT:USD"; "SOLUSDT:USD"; "ASTRUSDT:USD"])).
  - apply subseteq_size. intros key Hkey.
    apply elem_of_dom in Hkey. apply elem_of_list_to_set. by apply Hkeys.
  - rewrite size_list_to_set; [reflexivity|].
    refine (bool_decide_unpack _ _). vm_compute. exact I.
Qed.

Lemma cached_price_matches_request_witness :
  @reachable Sample.conv default_config Sample.after_history /\
  symbolToId !! symbol_of (Sample.query "btc") = Some "BTCUSDT" /\
  priceCache Sample.after_history !! price_key "BTCUSDT" = Some Sample.btc_price /\
  pp_symbol Sample.btc_price = symbol_of (Sample.query "btc") /\
  pp_currency Sample.btc_price = "USD" /\
  pp_source Sample.btc_price = PRICE_API_BASE default_config.
Proof.
  assert (Hticker : symbolToId !! symbol_of (Sample.query "btc") = Some "BTCUSDT")
    by (vm_compute; reflexivity).
  assert (Hentry : priceCache Sample.after_history !! price_key "BTCUSDT" =
                   Some Sample.btc_price)
    by (vm_compute; reflexivity).
  split; [exact Sample_reachable|]. split; [exact Hticker|]. split; [exact Hentry|].
  exact (@cached_price_matches_request Sample.conv default_config Sample.after_history
           (Sample.query "btc") "BTCUSDT" _ Sample_reachable Hticker Hentry).
Defined.

Lemma price_cache_bounded_witness :
  @reachable Sample.conv default_config Sample.after_history /\
  (size (priceCache Sample.after_history) <= 4)%nat /\
  forall key, is_Some (priceCache Sample.after_history !! key) ->
              key ∈ ["BTCUSDT:USD"; "ETHUSDT:USD"; "SOLUSDT:USD"; "ASTRUSDT:USD"].
Proof.
  split; [exact Sample_reachable|].
  exact (@price_cache_bounded Sample.conv default_config Sample.after_history
           Sample_reachable).
Defined.

(** ** The keys of the history cache *)

Section StringLemmas.
#[local] Arguments String.append : simpl nomatch.

Lemma append_assoc (a b c : string) : (a +:+ b) +:+ c = a +:+ (b +:+ c).
Proof. induction a as [|x a IH]; simpl; [reflexivity|]. by rewrite IH. Qed.

Lemma length_append (a b : string) :
  String.length (a +:+ b) = (String.length a + String.length b)%nat.
Proof. induction a as [|x a IH]; simpl; [reflexivity|]. by rewrite IH. Qed.

Lemma colon_free_append (a b : string) : colon_free (a +:+ ":" +:+ b) = false.
Proof.
  induction a as [|x a IH]; simpl in *; [reflexivity|].
  rewrite IH. apply andb_false_r.
Qed.

(** A text without a colon, a colon and another text without a colon
    can be taken apart in one way only. *)
Lemma split_colon (D D' I I' : string) :
  colon_free D = true ->
  colon_free I = true ->
  D +:+ ":" +:+ I = D' +:+ ":" +:+ I' ->
  D = D' /\ I = I'.
Proof.
  revert D'. induction D as [|c d IH]; intros [|c' d'] HD HI Heq; simpl in *.
  - by injection Heq as ->.
  - injection Heq as <- ->. pose proof (colon_free_append d' I') as Hfree.
    simpl in Hfree. by rewrite Hfree in HI.
  - injection Heq as -> _. discriminate HD.
  - injection Heq as -> Heq. apply andb_true_iff in HD as [_ HD].
    destruct (IH d' HD HI Heq) as [-> ->]. done.
Qed.

End StringLemmas.

(** X5.  In every state of the process, the entry of the history cache
    under the key of a request whose days and interval have no colon was
    written for the symbol, the days and the interval of that request;
    and every entry holds a series that is not empty and a volume that
    is not null. *)
Theorem cached_history_matches_request `{JsConv} (cfg : Config) (w : World) (req : Query)
        (ticker : string) (c : HistoryEntry) :
  reachable cfg w ->
  symbolToId !! symbol_of req = Some ticker ->
  colon_free (ToString (days_of req)) = true ->
  colon_free (interval_of req) = true ->
  historyCache w !! history_key req ticker = Some c ->
  hp_symbol (he_payload c) = symbol_of req /\
  ToString (hp_days (he_payload c)) = ToString (days_of req) /\
  hp_interval (he_payload c) = interval_of req /\
  hp_points (he_payload c) <> [] /\
  hp_volume24h (he_payload c) <> None.
Proof.
  intros Hreach Hticker Hdays Hinterval Hentry.
  destruct (reachable_provenance cfg w Hreach) as [_ Hhistory].
  destruct (Hhistory _ _ Hentry) as (_ & ticker' & Hticker' & Hkey & Hpoints & Hvolume).
  unfold history_key, history_cacheKey in Hkey.
  assert (Hsame : ticker = ticker' /\
                  ToString (days_of req) +:+ ":" +:+ interval_of req =
                  ToString (hp_days (he_payload c)) +:+ ":" +:+ hp_interval (he_payload c)).
  { pose proof (symbolToId_range _ _ Hticker) as Hr.
    pose proof (symbolToId_range _ _ Hticker') as Hr'.
    clear Hticker Hticker' Hentry.
    repeat (apply elem_of_cons in Hr as [->|Hr]);
      try (by apply elem_of_nil in Hr);
      repeat (apply elem_of_cons in Hr' as [->|Hr']);
      try (by apply elem_of_nil in Hr'); try discriminate Hkey;
      (split; [reflexivity|]); simpl in Hkey;
      by do 2 apply (inj (String.app _)) in Hkey. }
  destruct Hsame as [<- Hsame].
  destruct (split_colon _ _ _ _ Hdays Hinterval Hsame) as [Hd Hi].
  split; [eapply symbolToId_inj; eauto|]. by repeat split.
Qed.

Lemma cached_history_matches_request_witness :
  @reachable Sample.conv default_config Sample.after_history /\
  symbolToId !! symbol_of (Sample.query "BTC") = Some "BTCUSDT" /\
  historyCache Sample.after_history !! @history_key Sample.conv (Sample.query "BTC") "BTCUSDT" =
    Some {| he_payload := Sample.btc_history; he_timestamp := 2000 |} /\
  hp_symbol Sample.btc_history = "BTC" /\
  @ToString Sample.conv (hp_days Sample.btc_history) = "1" /\
  hp_interval Sample.btc_history = "hourly" /\
  hp_points Sample.btc_history <> [] /\
  hp_volume24h Sample.btc_history <> None.
Proof.
  assert (Hticker : symbolToId !! symbol_of (Sample.query "BTC") = Some "BTCUSDT")
    by (vm_compute; reflexivity).
  assert (Hentry : historyCache Sample.after_history
                     !! @history_key Sample.conv (Sample.query "BTC") "BTCUSDT" =
                   Some {| he_payload := Sample.btc_history; he_timestamp := 2000 |})
    by (vm_compute; reflexivity).
  split; [exact Sample_reachable|]. split; [exact Hticker|]. split; [exact Hentry|].
  exact (@cached_history_matches_request Sample.conv default_config Sample.after_history
           (Sample.query "BTC") "BTCUSDT" _ Sample_reachable Hticker eq_refl eq_refl Hentry).
Defined.

(** X6.  The key of the history cache does not tell the days from the
    interval: a request for the days [d:i] and the interval [j] and a
    request for the days [d] and the interval [i:j] have the same key,
    though they differ in both. *)
Theorem history_key_collision `{JsConv} (symbol currency : option string)
        (ticker d i j : string) :
  d <> "" ->
  j <> "" ->
  let req1 := {| q_symbol := symbol; q_currency := currency;
                 q_days := Some (d +:+ ":" +:+ i); q_interval := Some j |} in
  let req2 := {| q_symbol := symbol; q_currency := currency;
                 q_days := Some d; q_interval := Some (i +:+ ":" +:+ j) |} in
  history_key req1 ticker = history_key req2 ticker /\
  days_of req1 <> days_of req2 /\
  interval_of req1 <> interval_of req2.
Proof.
  intros Hd Hj req1 req2.
  assert (Hdays1 : days_of req1 = VStr (d +:+ ":" +:+ i)).
  { unfold days_of, js_or. simpl. by destruct d. }
  assert (Hdays2 : days_of req2 = VStr d).
  { unfold days_of, js_or. simpl. by destruct d. }
  assert (Hint1 : interval_of req1 = j).
  { unfold interval_of, or_default. simpl. by destruct j. }
  assert (Hint2 : interval_of req2 = i +:+ ":" +:+ j).
  { unfold interval_of, or_default. simpl. by destruct i. }
  split; [|split].
  - unfold history_key, history_cacheKey. rewrite Hdays1, Hdays2, Hint1, Hint2.
    unfold ToString. by rewrite !append_assoc.
  - rewrite Hdays1, Hdays2. intros [= Heq]. apply (f_equal String.length) in Heq.
    rewrite !length_append in Heq. simpl in Heq. lia.
  - rewrite Hint1, Hint2. intros Heq. apply (f_equal String.length) in Heq.
    rewrite !length_append in Heq. simpl in Heq. lia.
Qed.

Lemma history_key_collision_witness :
  let req1 := {| q_symbol := Some "BTC"; q_currency := None;
                 q_days := Some "1:hourly"; q_interval := Some "x" |} in
  let req2 := {| q_symbol := Some "BTC"; q_currency := None;
                 q_days := Some "1"; q_interval := Some "hourly:x" |} in
  "1" <> "" /\ "x" <> "" /\
  @history_key Sample.conv req1 "BTCUSDT" = "BTCUSDT:usd:1:hourly:x" /\
  @history_key Sample.conv req2 "BTCUSDT" = "BTCUSDT:usd:1:hourly:x" /\
  days_of req1 <> days_of req2 /\
  interval_of req1 <> interval_of req2.
Proof.
  assert (H1 : "1" <> "") by discriminate.
  assert (Hx : "x" <> "") by discriminate.
  destruct (@history_key_collision Sample.conv (Some "BTC") None "BTCUSDT" "1" "hourly" "x"
              H1 Hx) as (Hkey & Hdays & Hinterval).
  split; [exact H1|]. split; [exact Hx|].
  split; [reflexivity|]. split; [reflexivity|]. split; [exact Hdays | exact Hinterval].
Defined.

(** ** The growth of the history cache *)

(** No run removes an entry of the history cache. *)
Lemma run_keeps_history {A : Type} (o : Oracle) (p : Prog A) (w : World) (key : string) :
  is_Some (historyCache w !! key) ->
  is_Some (historyCache (snd (run o p w)) !! key).
Proof.
  revert w.
  induction p as [a|e|k IH|rq k IH|key' k IH|key' v k IH|key' k IH|key' v k IH];
    intros w Hentry; simpl; try done.
  - by apply IH.
  - by apply IH.
  - by apply IH.
  - by apply IH.
  - by apply IH.
  - apply IH. simpl. rewrite lookup_insert_is_Some.
    destruct (decide (key' = key)); [by left | by right].
Qed.

(** After [/history] has been answered a series by upstream, or has
    found a fresh entry, the cache has an entry under the key of the
    request. *)
Lemma history_leaves_entry `{JsConv} (cfg : Config) (o : Oracle) (req : Query) (w : World)
      (ticker : string) (response : HttpResponse) (p : Point) (ps : list Point)
      (volume : option number) :
  mock_enabled cfg = false ->
  symbolToId !! symbol_of req = Some ticker ->
  (forall n rq, upstream o n rq = inl response) ->
  klines_map (js_or (rs_data response) (VArr [])) = Some (p :: ps) ->
  klines_volume (js_or (rs_data response) (VArr [])) = Some volume ->
  is_Some (historyCache (snd (run o (history cfg req) w)) !! history_key req ticker).
Proof.
  intros Hmock Hticker Hup Hmap Hvolume.
  unfold history_key, history. simpl. rewrite Hmock, Hticker. simpl.
  destruct (historyCache w !! history_cacheKey (Some ticker) (days_of req) (interval_of req))
    as [c|] eqn:Hcached; simpl.
  - destruct (_ <? _); simpl; [by rewrite Hcached|].
    rewrite Hup. simpl. rewrite Hmap. simpl. rewrite Hvolume. simpl.
    rewrite lookup_insert_eq. by eexists.
  - rewrite Hup. simpl. rewrite Hmap. simpl. rewrite Hvolume. simpl.
    rewrite lookup_insert_eq. by eexists.
Qed.

Lemma letters_inj (n m : nat) : letters n = letters m -> n = m.
Proof.
  revert m. induction n as [|n IH]; intros [|m] Heq; simpl in Heq; try reflexivity.
  - destruct m; discriminate Heq.
  - destruct n; discriminate Heq.
  - injection Heq as Heq. f_equal. by apply IH.
Qed.

Lemma interval_key_inj `{JsConv} (ticker : string) :
  Inj (=) (=) (fun n => history_key (interval_query n) ticker).
Proof.
  intros n m Heq. unfold history_key, history_cacheKey in Heq.
  do 4 apply (inj (String.app _)) in Heq.
  unfold interval_of, or_default in Heq. simpl in Heq.
  apply letters_inj. by destruct n, m.
Qed.

Section Growth.
Context `{JsConv}.
Variable cfg : Config.
Hypothesis Hmock : mock_enabled cfg = false.

Lemma grown_reachable (n : nat) : reachable cfg (grown cfg n).
Proof.
  induction n as [|n IH]; cbn [grown]; [apply reachable_initial|].
  by apply reachable_history.
Qed.

Lemma grown_entries (n k : nat) :
  (k < n)%nat ->
  is_Some (historyCache (grown cfg n) !! history_key (interval_query k) "BTCUSDT").
Proof.
  induction n as [|n IH]; intros Hk; [lia|]. cbn [grown].
  destruct (decide (k = n)) as [->|Hne].
  - eapply history_leaves_entry;
      [exact Hmock|by vm_compute|reflexivity|reflexivity|reflexivity].
  - apply run_keeps_history. apply IH. lia.
Qed.

End Growth.

(** X7.  With the mock-history flag off the history cache grows without
    bound: whatever the number [n], the process reaches a state in which
    the cache holds [n] entries or more, by serving requests that differ
    in their interval only. *)
Theorem history_cache_unbounded `{JsConv} (cfg : Config) (n : nat) :
  mock_enabled cfg = false ->
  exists w, reachable cfg w /\ (n <= size (historyCache w))%nat.
Proof.
  intros Hmock. exists (grown cfg n). split; [apply grown_reachable|].
  rewrite <- size_dom.
  transitivity (size (list_to_set (C := gset string)
                        ((fun k => history_key (interval_query k) "BTCUSDT") <$> seq 0 n))).
  - rewrite size_list_to_set.
    + by rewrite length_fmap, length_seq.
    + apply NoDup_fmap_2; [apply interval_key_inj | apply NoDup_seq].
  - apply subseteq_size. intros key Hkey.
    apply elem_of_list_to_set, list_elem_of_fmap in Hkey as (k & -> & Hk).
    apply elem_of_dom. apply grown_entries; [exact Hmock|].
    apply elem_of_seq in Hk. lia.
Qed.

Lemma history_cache_unbounded_witness :
  mock_enabled default_config = false /\
  exists w, @reachable Sample.conv default_config w /\ (5 <= size (historyCache w))%nat.
Proof.
  split; [reflexivity|].
  exact (@history_cache_unbounded Sample.conv default_config 5 eq_refl).
Defined.

(** ** The price handler, path by path *)

(** A fresh entry is served as it is. *)
Lemma price_fresh_hit `{JsConv} (cfg : Config) (o : Oracle) (req : Query) (w : World)
      (ticker : string) (c : PricePayload) :
  symbolToId !! symbol_of req = Some ticker ->
  currency_of req = "USD" ->
  priceCache w !! price_key ticker = Some c ->
  clock o (ticks w) - pp_timestamp c < CACHE_TTL_MS cfg ->
  run o (price cfg req) w = (inr (json (BPrice c (Some true) None)), tick w).
Proof.
  intros Hticker Hcur Hcached Hfresh. unfold price_key in Hcached.
  unfold price. rewrite Hticker, Hcur. simpl. rewrite Hcached. simpl.
  apply Z.ltb_lt in Hfresh. by rewrite Hfresh.
Qed.

(** What [/price] answers and stores when upstream answers with a body
    whose price converts to a number. *)
Lemma price_success_run `{JsConv} (cfg : Config) (o : Oracle) (req : Query) (w : World)
      (ticker : string) (response : HttpResponse) :
  symbolToId !! symbol_of req = Some ticker ->
  currency_of req = "USD" ->
  price_stale cfg o w (price_key ticker) ->
  price_fetched cfg o w ticker response ->
  converts (js_or (js_or (opt_prop (rs_data response) "price")
                         (opt_prop (rs_data response) "priceAvg"))
                  (opt_prop (rs_data response) "avgPrice")) = true ->
  let payload :=
    {| pp_symbol := symbol_of req; pp_currency := "USD";
       pp_price := ToNumber (js_or (js_or (opt_prop (rs_data response) "price")
                                          (opt_prop (rs_data response) "priceAvg"))
                                   (opt_prop (rs_data response) "avgPrice"));
       pp_source := PRICE_API_BASE cfg;
       pp_timestamp := price_write_time o w (price_key ticker) |} in
  fst (run o (price cfg req) w) = inr (json (BPrice payload None None)) /\
  priceCache (snd (run o (price cfg req) w)) = <[price_key ticker := payload]> (priceCache w).
Proof.
  intros Hticker Hcur Hstale Hfetched Hconverts.
  unfold price_stale, price_write_time, price_key, price_fetched in *.
  unfold price. rewrite Hticker, Hcur. simpl.
  destruct (priceCache w !! price_cacheKey (Some ticker) "USD") as [c|] eqn:Hcached; simpl.
  - specialize (Hstale c eq_refl). apply Z.ltb_ge in Hstale. rewrite Hstale. simpl.
    fold (price_primary cfg ticker).
    destruct Hfetched as [Hprimary|(failure & Hprimary & Hfallback)].
    + rewrite Hprimary. simpl. unfold Number. rewrite Hconverts. simpl. by split.
    + rewrite Hprimary. simpl. rewrite length_app. simpl. rewrite Nat.add_1_r.
      fold (price_fallback ticker). rewrite Hfallback. simpl.
      unfold Number. rewrite Hconverts. simpl. by split.
  - fold (price_primary cfg ticker).
    destruct Hfetched as [Hprimary|(failure & Hprimary & Hfallback)].
    + rewrite Hprimary. simpl. unfold Number. rewrite Hconverts. simpl. by split.
    + rewrite Hprimary. simpl. rewrite length_app. simpl. rewrite Nat.add_1_r.
      fold (price_fallback ticker). rewrite Hfallback. simpl.
      unfold Number. rewrite Hconverts. simpl. by split.
Qed.

(** What [/price] answers when upstream answers with a body whose price
    does not convert to a number. *)
Lemma price_unconverted_run `{JsConv} (cfg : Config) (o : Oracle) (req : Query) (w : World)
      (ticker : string) (response : HttpResponse) :
  symbolToId !! symbol_of req = Some ticker ->
  currency_of req = "USD" ->
  price_stale cfg o w (price_key ticker) ->
  price_fetched cfg o w ticker response ->
  converts (js_or (js_or (opt_prop (rs_data response) "price")
                         (opt_prop (rs_data response) "priceAvg"))
                  (opt_prop (rs_data response) "avgPrice")) = false ->
  fst (run o (price cfg req) w) =
    inr (status_json 500 (BError "Upstream request failed" (Some VNull))) /\
  priceCache (snd (run o (price cfg req) w)) = priceCache w.
Proof.
  intros Hticker Hcur Hstale Hfetched Hconverts.
  unfold price_stale, price_key, price_fetched in *.
  unfold price. rewrite Hticker, Hcur. simpl.
  destruct (priceCache w !! price_cacheKey (Some ticker) "USD") as [c|] eqn:Hcached; simpl.
  - specialize (Hstale c eq_refl). apply Z.ltb_ge in Hstale. rewrite Hstale. simpl.
    fold (price_primary cfg ticker).
    destruct Hfetched as [Hprimary|(failure & Hprimary & Hfallback)].
    + rewrite Hprimary. simpl. unfold Number. rewrite Hconverts. simpl. by split.
    + rewrite Hprimary. simpl. rewrite length_app. simpl. rewrite Nat.add_1_r.
      fold (price_fallback ticker). rewrite Hfallback. simpl.
      unfold Number. rewrite Hconverts. simpl. by split.
  - fold (price_primary cfg ticker).
    destruct Hfetched as [Hprimary|(failure & Hprimary & Hfallback)].
    + rewrite Hprimary. simpl. unfold Number. rewrite Hconverts. simpl. by split.
    + rewrite Hprimary. simpl. rewrite length_app. simpl. rewrite Nat.add_1_r.
      fold (price_fallback ticker). rewrite Hfallback. simpl.
      unfold Number. rewrite Hconverts. simpl. by split.
Qed.

(** X8.  When upstream answers the price fetch, by the ticker endpoint
    or, after its failure, by the avgPrice endpoint: the handler takes
    the first truthy field among [price], [priceAvg] and [avgPrice] of
    the body, or [avgPrice] if none is.  If that field converts to a
    number (every JSON value does but an object, or an array that holds
    one, with a property of its own named [toString]), [/price] answers
    200 with a payload for the symbol of the request, in USD, with that
    number as its price, stamped with the time of the write, which it
    stores under the key of the request; the source is the configured
    price endpoint, whichever endpoint answered.  If it does not,
    [/price] answers 500 "Upstream request failed" with null details and
    leaves the price cache as it was. *)
Theorem price_success `{JsConv} (cfg : Config) (o : Oracle) (req : Query) (w : World)
        (ticker : string) (response : HttpResponse) :
  symbolToId !! symbol_of req = Some ticker ->
  currency_of req = "USD" ->
  price_stale cfg o w (price_key ticker) ->
  price_fetched cfg o w ticker response ->
  let field_price := opt_prop (rs_data response) "price" in
  let field_priceAvg := opt_prop (rs_data response) "priceAvg" in
  let field_avgPrice := opt_prop (rs_data response) "avgPrice" in
  let field :=
    if ToBoolean field_price then field_price
    else if ToBoolean field_priceAvg then field_priceAvg
    else field_avgPrice in
  (converts field = true ->
   let payload :=
     {| pp_symbol := symbol_of req; pp_currency := "USD"; pp_price := ToNumber field;
        pp_source := PRICE_API_BASE cfg;
        pp_timestamp := price_write_time o w (price_key ticker) |} in
   fst (run o (price cfg req) w) = inr (json (BPrice payload None None)) /\
   priceCache (snd (run o (price cfg req) w)) =
   <[price_key ticker := payload]> (priceCache w)) /\
  (converts field = false ->
   fst (run o (price cfg req) w) =
     inr (status_json 500 (BError "Upstream request failed" (Some VNull))) /\
   priceCache (snd (run o (price cfg req) w)) = priceCache w).
Proof.
  intros Hticker Hcur Hstale Hfetched field_price field_priceAvg field_avgPrice field.
  assert (Hfield : js_or (js_or field_price field_priceAvg) field_avgPrice = field).
  { unfold field, js_or. destruct (ToBoolean field_price) eqn:Hprice.
    - by rewrite Hprice.
    - by destruct (ToBoolean field_priceAvg). }
  split; intros Hconverts; rewrite <- Hfield in *.
  - exact (price_success_run cfg o req w ticker response Hticker Hcur Hstale Hfetched
             Hconverts).
  - exact (price_unconverted_run cfg o req w ticker response Hticker Hcur Hstale Hfetched
             Hconverts).
Qed.

Lemma price_success_witness :
  symbolToId !! symbol_of (Sample.query "eth") = Some "ETHUSDT" /\
  currency_of (Sample.query "eth") = "USD" /\
  (* at time 1000 the ticker endpoint fails and the avgPrice endpoint
     answers {mins: 5, price: "3000"} *)
  (let o := {| clock := fun _ => 1000;
               upstream := fun n _ =>
                 match n with
                 | O => Sample.failed 400
                 | _ => Sample.ok (VObj [("mins", VNum (Num.of_Z 5)); ("price", VStr "3000")])
                 end |} in
   let payload := {| pp_symbol := "ETH"; pp_currency := "USD"; pp_price := Num.of_Z 3000;
                     pp_source := DEFAULT_PRICE_API_BASE; pp_timestamp := 1000 |} in
   fst (run o (Sample.price (Sample.query "eth")) initial_world) =
     inr (json (BPrice payload None None)) /\
   priceCache (snd (run o (Sample.price (Sample.query "eth")) initial_world)) =
     {["ETHUSDT:USD" := payload]}) /\
  (* at time 1000 the ticker endpoint answers {price: {toString: 1}} *)
  (let o := Sample.oracle 1000
              (fun _ => Sample.ok (VObj [("price", VObj [("toString", VNum (Num.of_Z 1))])])) in
   fst (run o (Sample.price (Sample.query "eth")) initial_world) =
     inr (status_json 500 (BError "Upstream request failed" (Some VNull))) /\
   priceCache (snd (run o (Sample.price (Sample.query "eth")) initial_world)) = ∅).
Proof.
  assert (Hticker : symbolToId !! symbol_of (Sample.query "eth") = Some "ETHUSDT")
    by (vm_compute; reflexivity).
  assert (Hcur : currency_of (Sample.query "eth") = "USD") by (vm_compute; reflexivity).
  split; [exact Hticker|]. split; [exact Hcur|]. split.
  - intros o payload.
    destruct (@price_success Sample.conv default_config o (Sample.query "eth") initial_world
                "ETHUSDT"
                {| rs_status := 200;
                   rs_data := VObj [("mins", VNum (Num.of_Z 5)); ("price", VStr "3000")] |}
                Hticker Hcur)
      as [Hconverted _].
    + intros c Hc. vm_compute in Hc. discriminate Hc.
    + right. eexists. split; reflexivity.
    + destruct (Hconverted eq_refl) as [Hrun Hcache]. unfold Sample.price. split.
      * rewrite Hrun. vm_compute. reflexivity.
      * rewrite Hcache. vm_compute. reflexivity.
  - intros o.
    destruct (@price_success Sample.conv default_config o (Sample.query "eth") initial_world
                "ETHUSDT"
                {| rs_status := 200;
                   rs_data := VObj [("price", VObj [("toString", VNum (Num.of_Z 1))])] |}
                Hticker Hcur)
      as [_ Hunconverted].
    + intros c Hc. vm_compute in Hc. discriminate Hc.
    + left. reflexivity.
    + exact (Hunconverted eq_refl).
Defined.

(** X9.  A [/price] request that goes upstream sends the ticker request
    and, if that one fails, with whatever status or with none, the
    avgPrice request, and nothing more. *)
Theorem price_requests `{JsConv} (cfg : Config) (o : Oracle) (req : Query) (w : World)
        (ticker : string) :
  symbolToId !! symbol_of req = Some ticker ->
  currency_of req = "USD" ->
  price_stale cfg o w (price_key ticker) ->
  match upstream o (length (requests w)) (price_primary cfg ticker) with
  | inl _ =>
      requests (snd (run o (price cfg req) w)) =
      (requests w ++ [price_primary cfg ticker])%list
  | inr _ =>
      requests (snd (run o (price cfg req) w)) =
      (requests w ++ [price_primary cfg ticker; price_fallback ticker])%list
  end.
Proof.
  intros Hticker Hcur Hstale. unfold price_stale, price_key in *.
  unfold price. rewrite Hticker, Hcur. simpl.
  destruct (priceCache w !! price_cacheKey (Some ticker) "USD") as [c|] eqn:Hcached; simpl;
    [specialize (Hstale c eq_refl); apply Z.ltb_ge in Hstale; rewrite Hstale; simpl|];
    fold (price_primary cfg ticker);
    (destruct (upstream o (length (requests w)) (price_primary cfg ticker))
      as [response|failure]; simpl;
     [rewrite run_quiet; [reflexivity|repeat quiet_step]|]);
    fold (price_fallback ticker);
    rewrite run_quiet; simpl; try (by rewrite <- app_assoc); repeat quiet_step.
Qed.

Lemma price_requests_witness :
  symbolToId !! symbol_of (Sample.query "BTC") = Some "BTCUSDT" /\
  currency_of (Sample.query "BTC") = "USD" /\
  (* the ticker endpoint times out *)
  requests (snd (run (Sample.oracle 1000 (fun _ => inr None))
                     (Sample.price (Sample.query "BTC")) initial_world)) =
    [price_primary default_config "BTCUSDT"; price_fallback "BTCUSDT"].
Proof.
  assert (Hticker : symbolToId !! symbol_of (Sample.query "BTC") = Some "BTCUSDT")
    by (vm_compute; reflexivity).
  assert (Hcur : currency_of (Sample.query "BTC") = "USD") by (vm_compute; reflexivity).
  split; [exact Hticker|]. split; [exact Hcur|].
  refine (@price_requests Sample.conv default_config
            (Sample.oracle 1000 (fun _ => inr None)) (Sample.query "BTC") initial_world
            "BTCUSDT" Hticker Hcur _).
  intros c Hc. vm_compute in Hc. discriminate Hc.
Defined.

(** X10.  What [/price] has answered from upstream, it answers again
    from the cache, with [cached = true] and without going upstream, to
    every request for the same symbol, in whatever letter case, that it
    serves in a state of the process in which the entry under the key is
    still the one it wrote then (no later write has replaced it) and
    reads the clock before the TTL has passed since that write. *)
Theorem price_round_trip `{JsConv} (cfg : Config) (o o' : Oracle) (req req' : Query)
        (w w' : World) (ticker : string) (response : HttpResponse) :
  symbolToId !! symbol_of req = Some ticker ->
  currency_of req = "USD" ->
  price_stale cfg o w (price_key ticker) ->
  price_fetched cfg o w ticker response ->
  converts (js_or (js_or (opt_prop (rs_data response) "price")
                         (opt_prop (rs_data response) "priceAvg"))
                  (opt_prop (rs_data response) "avgPrice")) = true ->
  symbol_of req' = symbol_of req ->
  currency_of req' = "USD" ->
  priceCache w' !! price_key ticker =
    priceCache (snd (run o (price cfg req) w)) !! price_key ticker ->
  clock o' (ticks w') - price_write_time o w (price_key ticker) < CACHE_TTL_MS cfg ->
  exists payload,
    fst (run o (price cfg req) w) = inr (json (BPrice payload None None)) /\
    run o' (price cfg req') w' = (inr (json (BPrice payload (Some true) None)), tick w').
Proof.
  intros Hticker Hcur Hstale Hfetched Hconverts Hsymbol Hcur' Hkept Hfresh.
  destruct (price_success_run cfg o req w ticker response Hticker Hcur Hstale Hfetched
              Hconverts)
    as [Hrun Hcache].
  eexists. split; [exact Hrun|].
  apply (price_fresh_hit cfg o' req' _ ticker).
  - by rewrite Hsymbol.
  - exact Hcur'.
  - rewrite Hkept, Hcache. apply lookup_insert_eq.
  - exact Hfresh.
Qed.

Lemma price_round_trip_witness :
  symbolToId !! symbol_of (Sample.query "BTC") = Some "BTCUSDT" /\
  symbol_of (Sample.query "btc") = symbol_of (Sample.query "BTC") /\
  (* served from upstream at time 1000; a [/history] request is served
     at time 2000; asked again in lower case at time 60999, with
     upstream down *)
  fst (run (Sample.oracle 1000 Sample.market) (Sample.price (Sample.query "BTC"))
           initial_world) = inr (json (BPrice Sample.btc_price None None)) /\
  run (Sample.oracle 60999 (Sample.down 500)) (Sample.price (Sample.query "btc"))
      Sample.after_history =
    (inr (json (BPrice Sample.btc_price (Some true) None)), tick Sample.after_history).
Proof.
  assert (Hticker : symbolToId !! symbol_of (Sample.query "BTC") = Some "BTCUSDT")
    by (vm_compute; reflexivity).
  assert (Hsymbol : symbol_of (Sample.query "btc") = symbol_of (Sample.query "BTC"))
    by (vm_compute; reflexivity).
  split; [exact Hticker|]. split; [exact Hsymbol|].
  destruct (@price_round_trip Sample.conv default_config
              (Sample.oracle 1000 Sample.market) (Sample.oracle 60999 (Sample.down 500))
              (Sample.query "BTC") (Sample.query "btc") initial_world Sample.after_history
              "BTCUSDT"
              {| rs_status := 200;
                 rs_data := VObj [("symbol", VStr "BTCUSDT"); ("price", VStr "88000")] |}
              Hticker eq_refl)
    as (payload & Hrun & Hagain).
  - intros c Hc. vm_compute in Hc. discriminate Hc.
  - left. reflexivity.
  - reflexivity.
  - exact Hsymbol.
  - reflexivity.
  - vm_compute. reflexivity.
  - vm_compute. reflexivity.
  - assert (Hfirst : fst (run (Sample.oracle 1000 Sample.market)
                              (Sample.price (Sample.query "BTC")) initial_world) =
                     inr (json (BPrice Sample.btc_price None None)))
      by (vm_compute; reflexivity).
    split; [exact Hfirst|].
    unfold Sample.price in Hfirst. rewrite Hfirst in Hrun. injection Hrun as <-.
    exact Hagain.
Defined.

(** X11.  Without an entry under the key of the request, when the ticker
    endpoint and then the avgPrice endpoint fail, [/price] answers with
    the status and the details of the failure of the avgPrice endpoint,
    429 included, and leaves both caches as they were. *)
Theorem price_failure_without_entry `{JsConv} (cfg : Config) (o : Oracle) (req : Query)
        (w : World) (ticker : string) (primary fallback : option HttpResponse) :
  symbolToId !! symbol_of req = Some ticker ->
  currency_of req = "USD" ->
  priceCache w !! price_key ticker = None ->
  upstream o (length (requests w)) (price_primary cfg ticker) = inr primary ->
  upstream o (S (length (requests w))) (price_fallback ticker) = inr fallback ->
  fst (run o (price cfg req) w) =
    inr (status_json (error_status (AxiosError fallback))
           (BError "Upstream request failed" (Some (error_details (AxiosError fallback))))) /\
  priceCache (snd (run o (price cfg req) w)) = priceCache w /\
  historyCache (snd (run o (price cfg req) w)) = historyCache w.
Proof.
  intros Hticker Hcur Hcached Hprimary Hfallback. unfold price_key in Hcached.
  unfold price. rewrite Hticker, Hcur. simpl. rewrite Hcached. simpl.
  fold (price_primary cfg ticker). rewrite Hprimary. simpl.
  rewrite length_app. simpl. rewrite Nat.add_1_r.
  fold (price_fallback ticker). rewrite Hfallback. simpl. done.
Qed.

Lemma price_failure_without_entry_witness :
  symbolToId !! symbol_of (Sample.query "SOL") = Some "SOLUSDT" /\
  currency_of (Sample.query "SOL") = "USD" /\
  priceCache Sample.after_price !! price_key "SOLUSDT" = None /\
  (* upstream answers 429 twice *)
  fst (run (Sample.oracle 5000 (Sample.down 429)) (Sample.price (Sample.query "SOL"))
           Sample.after_price) =
    inr (status_json 429 (BError "Upstream request failed" (Some VNull))) /\
  priceCache (snd (run (Sample.oracle 5000 (Sample.down 429))
                       (Sample.price (Sample.query "SOL")) Sample.after_price)) =
    priceCache Sample.after_price.
Proof.
  assert (Hticker : symbolToId !! symbol_of (Sample.query "SOL") = Some "SOLUSDT")
    by (vm_compute; reflexivity).
  assert (Hcur : currency_of (Sample.query "SOL") = "USD") by (vm_compute; reflexivity).
  assert (Hnone : priceCache Sample.after_price !! price_key "SOLUSDT" = None)
    by (vm_compute; reflexivity).
  split; [exact Hticker|]. split; [exact Hcur|]. split; [exact Hnone|].
  destruct (@price_failure_without_entry Sample.conv default_config
              (Sample.oracle 5000 (Sample.down 429)) (Sample.query "SOL")
              Sample.after_price "SOLUSDT" _ _ Hticker Hcur Hnone eq_refl eq_refl)
    as (Hrun & Hprice & _).
  split; [exact Hrun | exact Hprice].
Defined.

(** X12.  For a symbol of the table and a currency that is not USD, in
    whatever letter case, [/price] is the program that only answers 400
    "Only USD quotes are supported in this demo.": it reads no cache and
    sends nothing upstream. *)
Theorem unsupported_currency `{JsConv} (cfg : Config) (req : Query) (ticker : string) :
  symbolToId !! symbol_of req = Some ticker ->
  currency_of req <> "USD" ->
  price cfg req =
  Ret (status_json 400 (BError "Only USD quotes are supported in this demo." None)).
Proof.
  intros Hticker Hcur. unfold price. rewrite Hticker.
  apply String.eqb_neq in Hcur. by rewrite Hcur.
Qed.

Lemma unsupported_currency_witness :
  let req := {| q_symbol := Some "btc"; q_currency := Some "eur";
                q_days := None; q_interval := None |} in
  symbolToId !! symbol_of req = Some "BTCUSDT" /\
  currency_of req <> "USD" /\
  Sample.price req =
  Ret (status_json 400 (BError "Only USD quotes are supported in this demo." None)).
Proof.
  intros req.
  assert (Hticker : symbolToId !! symbol_of req = Some "BTCUSDT")
    by (vm_compute; reflexivity).
  assert (Hcur : currency_of req <> "USD") by (vm_compute; discriminate).
  split; [exact Hticker|]. split; [exact Hcur|].
  exact (@unsupported_currency Sample.conv default_config req "BTCUSDT" Hticker Hcur).
Defined.

(** X13.  When the body by which upstream answers the price fetch has
    none of the fields [price], [priceAvg] and [avgPrice] (an error
    object, null, an empty body), [/price] still answers 200, with a
    price that is NaN, and stores that payload under the key of the
    request. *)
Theorem price_without_field `{JsConv} (cfg : Config) (o : Oracle) (req : Query) (w : World)
        (ticker : string) (response : HttpResponse) :
  symbolToId !! symbol_of req = Some ticker ->
  currency_of req = "USD" ->
  price_stale cfg o w (price_key ticker) ->
  price_fetched cfg o w ticker response ->
  opt_prop (rs_data response) "price" = VUndefined ->
  opt_prop (rs_data response) "priceAvg" = VUndefined ->
  opt_prop (rs_data response) "avgPrice" = VUndefined ->
  exists payload,
    pp_price payload = Num.NaN /\
    fst (run o (price cfg req) w) = inr (json (BPrice payload None None)) /\
    priceCache (snd (run o (price cfg req) w)) !! price_key ticker = Some payload.
Proof.
  intros Hticker Hcur Hstale Hfetched Hprice Havg Havg'.
  destruct (price_success_run cfg o req w ticker response Hticker Hcur Hstale Hfetched)
    as [Hrun Hcache].
  { by rewrite Hprice, Havg, Havg'. }
  eexists. split; [|split; [exact Hrun|]].
  - simpl. by rewrite Hprice, Havg, Havg'.
  - rewrite Hcache. apply lookup_insert_eq.
Qed.

Lemma price_without_field_witness :
  symbolToId !! symbol_of (Sample.query "BTC") = Some "BTCUSDT" /\
  currency_of (Sample.query "BTC") = "USD" /\
  (* upstream answers 200 with the object {msg: "maintenance"} *)
  let o := Sample.oracle 1000 (fun _ => Sample.ok (VObj [("msg", VStr "maintenance")])) in
  exists payload,
    pp_price payload = Num.NaN /\
    fst (run o (Sample.price (Sample.query "BTC")) initial_world) =
      inr (json (BPrice payload None None)) /\
    priceCache (snd (run o (Sample.price (Sample.query "BTC")) initial_world))
      !! "BTCUSDT:USD" = Some payload.
Proof.
  assert (Hticker : symbolToId !! symbol_of (Sample.query "BTC") = Some "BTCUSDT")
    by (vm_compute; reflexivity).
  assert (Hcur : currency_of (Sample.query "BTC") = "USD") by (vm_compute; reflexivity).
  split; [exact Hticker|]. split; [exact Hcur|]. intros o.
  refine (@price_without_field Sample.conv default_config o (Sample.query "BTC")
            initial_world "BTCUSDT"
            {| rs_status := 200; rs_data := VObj [("msg", VStr "maintenance")] |}
            Hticker Hcur _ _ eq_refl eq_refl eq_refl).
  - intros c Hc. vm_compute in Hc. discriminate Hc.
  - left. reflexivity.
Defined.

(** ** Letter case and defaults of the parameters *)





(** ** What goes upstream *)

Lemma binanceInterval_cases (interval : string) :
  binanceInterval_of interval = "1h" \/ binanceInterval_of interval = "1d".
Proof.
  unfold binanceInterval_of.
  destruct (String.eqb interval "hourly"); [by left|].
  destruct (String.eqb interval "daily"); [by right | by left].
Qed.

(** Closes a run of [/price] or [/history] on the requests it sent. *)
Ltac traffic_done :=
  first
    [ exists []; split; [by rewrite app_nil_r|]; split; [simpl; lia | constructor]
    | eexists [_]; split; [reflexivity|]; split; [simpl; lia|]
    | eexists [_; _]; split; [by rewrite <- app_assoc|]; split; [simpl; lia|] ].

(** X15.  Whatever the clock shows and whatever upstream answers, a
    request to [/price] or to [/history] makes the server send at most
    two requests upstream, each with exactly the two headers [Accept:
    application/json] and [User-Agent: Z6X-Market-Data-Node/1.0] (no
    key of any kind), the timeout of 5000 ms, and
    the ticker of a symbol of the table: to the configured price
    endpoint or to the avgPrice endpoint, or to the configured klines
    endpoint for the interval 1h or 1d. *)
Theorem upstream_traffic `{JsConv} (cfg : Config) (o : Oracle) (req : Query) (w : World) :
  (exists sent,
      requests (snd (run o (price cfg req) w)) = (requests w ++ sent)%list /\
      (length sent <= 2)%nat /\ Forall (allowed_request cfg) sent) /\
  (exists sent,
      requests (snd (run o (history cfg req) w)) = (requests w ++ sent)%list /\
      (length sent <= 2)%nat /\ Forall (allowed_request cfg) sent).
Proof.
  assert (Hallowed_price : forall ticker,
             symbolToId !! symbol_of req = Some ticker ->
             allowed_request cfg (price_primary cfg ticker) /\
             allowed_request cfg (price_fallback ticker)).
  { intros ticker Hticker.
    split; (split; [reflexivity|]; split; [reflexivity|]);
      exists (symbol_of req), ticker; (split; [exact Hticker|]); left; split;
      first [ reflexivity | by left | by right ]. }
  assert (Hallowed_history : forall ticker,
             symbolToId !! symbol_of req = Some ticker ->
             allowed_request cfg (history_primary cfg req ticker) /\
             allowed_request cfg (history_degraded cfg ticker)).
  { intros ticker Hticker.
    split; (split; [reflexivity|]; split; [reflexivity|]);
      exists (symbol_of req), ticker; (split; [exact Hticker|]); right;
      (split; [reflexivity|]); eexists _, _; (split; [reflexivity|]).
    - apply binanceInterval_cases.
    - by right. }
  split.
  - apply (wp_run o (price cfg req)
             (fun _ w' => exists sent,
                  requests w' = (requests w ++ sent)%list /\
                  (length sent <= 2)%nat /\ Forall (allowed_request cfg) sent)).
    unfold price.
    destruct (symbolToId !! symbol_of req) as [ticker|] eqn:Hticker; simpl;
      [|traffic_done].
    destruct (Hallowed_price ticker eq_refl) as [Hprimary Hfallback].
    destruct (negb (String.eqb (currency_of req) "USD")) eqn:Hcur; simpl; [traffic_done|].
    fold (price_primary cfg ticker). fold (price_fallback ticker).
    repeat wp_step.
    all: traffic_done.
    all: repeat (apply List.Forall_cons; [assumption|]); apply List.Forall_nil.
  - apply (wp_run o (history cfg req)
             (fun _ w' => exists sent,
                  requests w' = (requests w ++ sent)%list /\
                  (length sent <= 2)%nat /\ Forall (allowed_request cfg) sent)).
    unfold history. simpl. intros now.
    destruct (mock_enabled cfg) eqn:Hmock; simpl; [traffic_done|].
    destruct (symbolToId !! symbol_of req) as [ticker|] eqn:Hticker; simpl;
      [|traffic_done].
    destruct (Hallowed_history ticker eq_refl) as [Hprimary Hdegraded].
    fold (history_primary cfg req ticker). fold (history_degraded cfg ticker).
    repeat wp_step.
    all: traffic_done.
    all: repeat (apply List.Forall_cons; [assumption|]); apply List.Forall_nil.
Qed.

(** ** The history handler, path by path *)

(** A fresh entry is served as it is. *)
Lemma history_fresh_hit `{JsConv} (cfg : Config) (o : Oracle) (req : Query) (w : World)
      (ticker : string) (c : HistoryEntry) :
  mock_enabled cfg = false ->
  symbolToId !! symbol_of req = Some ticker ->
  historyCache w !! history_key req ticker = Some c ->
  clock o (S (ticks w)) - he_timestamp c < HISTORY_CACHE_TTL_MS cfg ->
  run o (history cfg req) w =
  (inr (json (BHistory (he_payload c) (Some true) None)), tick (tick w)).
Proof.
  intros Hmock Hticker Hcached Hfresh. unfold history_key in Hcached.
  unfold history. simpl. rewrite Hmock, Hticker. simpl. rewrite Hcached. simpl.
  apply Z.ltb_lt in Hfresh. by rewrite Hfresh.
Qed.

(** What [/history] answers and stores when upstream answers a series. *)
Lemma history_success_run `{JsConv} (cfg : Config) (o : Oracle) (req : Query) (w : World)
      (ticker : string) (response : HttpResponse) (p : Point) (ps : list Point)
      (volume : option number) :
  mock_enabled cfg = false ->
  symbolToId !! symbol_of req = Some ticker ->
  history_stale cfg o w (history_key req ticker) ->
  klines_fetched cfg o w req ticker response ->
  klines_map (js_or (rs_data response) (VArr [])) = Some (p :: ps) ->
  klines_volume (js_or (rs_data response) (VArr [])) = Some volume ->
  let payload :=
    {| hp_symbol := symbol_of req; hp_days := days_of req; hp_interval := interval_of req;
       hp_points := p :: ps;
       hp_volume24h := volume;
       hp_source := HISTORY_API_BASE cfg +:+ "?symbol=" +:+ ticker
                      +:+ "&interval=" +:+ binanceInterval_of (interval_of req)
                      +:+ "&limit="
                      +:+ ToString (VNum (limit_of (binanceInterval_of (interval_of req))
                                                   (days_of req))) |} in
  fst (run o (history cfg req) w) = inr (json (BHistory payload None None)) /\
  historyCache (snd (run o (history cfg req) w)) =
  <[history_key req ticker :=
      {| he_payload := payload;
         he_timestamp := history_write_time o w (history_key req ticker) |}]> (historyCache w) /\
  priceCache (snd (run o (history cfg req) w)) = priceCache w.
Proof.
  intros Hmock Hticker Hstale Hfetched Hseries Hvolume.
  unfold klines_fetched, history_write_time in *.
  history_prelude Hmock Hticker Hstale c Hcached.
  - destruct Hfetched as [Hprimary|(failure & Hprimary & Hstatus & Hdegraded)].
    + rewrite Hprimary. simpl. rewrite Hseries. simpl. rewrite Hvolume. simpl. done.
    + rewrite Hprimary. simpl. rewrite Hstatus. simpl.
      rewrite length_app. simpl. rewrite Nat.add_1_r.
      fold (history_degraded cfg ticker). rewrite Hdegraded. simpl.
      rewrite Hseries. simpl. rewrite Hvolume. simpl. done.
  - destruct Hfetched as [Hprimary|(failure & Hprimary & Hstatus & Hdegraded)].
    + rewrite Hprimary. simpl. rewrite Hseries. simpl. rewrite Hvolume. simpl. done.
    + rewrite Hprimary. simpl. rewrite Hstatus. simpl.
      rewrite length_app. simpl. rewrite Nat.add_1_r.
      fold (history_degraded cfg ticker). rewrite Hdegraded. simpl.
      rewrite Hseries. simpl. rewrite Hvolume. simpl. done.
Qed.

(** X16.  When upstream answers the klines fetch, by the primary or by
    the degraded request, with a body from which [klines.map] makes a
    series that is not empty and [klines.reduce] a volume (no row is
    null, and the close and the quote volume of every row convert to a
    number), [/history] answers 200 with that series and that volume,
    which is not null, stores the payload under the key of the request,
    stamped with the time of the write, and leaves every other entry of
    both caches as it was.  The [source] of the payload names the
    interval and the limit of the primary request, also when it was the
    degraded request (interval 1d, limit 30) that answered. *)
Theorem history_success `{JsConv} (cfg : Config) (o : Oracle) (req : Query) (w : World)
        (ticker : string) (response : HttpResponse) (p : Point) (ps : list Point)
        (volume : option number) :
  mock_enabled cfg = false ->
  symbolToId !! symbol_of req = Some ticker ->
  history_stale cfg o w (history_key req ticker) ->
  klines_fetched cfg o w req ticker response ->
  klines_map (js_or (rs_data response) (VArr [])) = Some (p :: ps) ->
  klines_volume (js_or (rs_data response) (VArr [])) = Some volume ->
  volume <> None /\
  let payload :=
    {| hp_symbol := symbol_of req; hp_days := days_of req; hp_interval := interval_of req;
       hp_points := p :: ps;
       hp_volume24h := volume;
       hp_source := HISTORY_API_BASE cfg +:+ "?symbol=" +:+ ticker
                      +:+ "&interval=" +:+ binanceInterval_of (interval_of req)
                      +:+ "&limit="
                      +:+ ToString (VNum (limit_of (binanceInterval_of (interval_of req))
                                                   (days_of req))) |} in
  fst (run o (history cfg req) w) = inr (json (BHistory payload None None)) /\
  historyCache (snd (run o (history cfg req) w)) =
  <[history_key req ticker :=
      {| he_payload := payload;
         he_timestamp := history_write_time o w (history_key req ticker) |}]>
    (historyCache w) /\
  priceCache (snd (run o (history cfg req) w)) = priceCache w.
Proof.
  intros Hmock Hticker Hstale Hfetched Hseries Hvolume. split.
  - by destruct (klines_volume_some _ _ _ _ Hseries Hvolume) as [v ->].
  - exact (history_success_run cfg o req w ticker response p ps volume
             Hmock Hticker Hstale Hfetched Hseries Hvolume).
Qed.

Lemma history_success_witness :
  mock_enabled default_config = false /\
  symbolToId !! symbol_of (Sample.query "BTC") = Some "BTCUSDT" /\
  (* at time 2000 the primary request is answered 429 and the degraded
     request two klines: the source says interval=1h and limit=24 *)
  fst (run (limited_once 2000 0 (Sample.ok Sample.klines)) (Sample.history (Sample.query "BTC"))
           initial_world) = inr (json (BHistory Sample.btc_history None None)) /\
  requests (snd (run (limited_once 2000 0 (Sample.ok Sample.klines))
                     (Sample.history (Sample.query "BTC")) initial_world)) =
    [@history_primary Sample.conv default_config (Sample.query "BTC") "BTCUSDT";
     history_degraded default_config "BTCUSDT"] /\
  hp_source Sample.btc_history =
    "https://api.binance.com/api/v3/klines?symbol=BTCUSDT&interval=1h&limit=24" /\
  rq_params (history_degraded default_config "BTCUSDT") =
    KlineParams "BTCUSDT" "1d" (Num.of_Z 30).
Proof.
  assert (Hmock : mock_enabled default_config = false) by reflexivity.
  assert (Hticker : symbolToId !! symbol_of (Sample.query "BTC") = Some "BTCUSDT")
    by (vm_compute; reflexivity).
  split; [exact Hmock|]. split; [exact Hticker|].
  destruct (@history_success Sample.conv default_config
              (limited_once 2000 0 (Sample.ok Sample.klines)) (Sample.query "BTC")
              initial_world "BTCUSDT" {| rs_status := 200; rs_data := Sample.klines |}
              {| pt_t := VNum (Num.of_Z 1700000000000); pt_price := Num.of_Z 88000 |}
              [ {| pt_t := VNum (Num.of_Z 1700003600000); pt_price := Num.of_Z 89000 |} ]
              (Some (Num.of_Z 2500000))
              Hmock Hticker)
    as (_ & Hrun & _).
  - intros c Hc. vm_compute in Hc. discriminate Hc.
  - right. eexists. split; [reflexivity|]. split; reflexivity.
  - vm_compute. reflexivity.
  - vm_compute. reflexivity.
  - split; [|split; [vm_compute; reflexivity|split; reflexivity]].
    unfold Sample.history. rewrite Hrun. vm_compute. reflexivity.
Defined.

(** X17.  What [/history] has answered from upstream, it answers again
    from the cache, with [cached = true] and without going upstream, to
    every request for the same symbol, days and interval that it serves
    in a state of the process in which the entry under the key is still
    the one it wrote then (no later write has replaced it) and reads the
    clock before the TTL has passed since that write. *)
Theorem history_round_trip `{JsConv} (cfg : Config) (o o' : Oracle) (req req' : Query)
        (w w' : World) (ticker : string) (response : HttpResponse)
        (p : Point) (ps : list Point) (volume : option number) :
  mock_enabled cfg = false ->
  symbolToId !! symbol_of req = Some ticker ->
  history_stale cfg o w (history_key req ticker) ->
  klines_fetched cfg o w req ticker response ->
  klines_map (js_or (rs_data response) (VArr [])) = Some (p :: ps) ->
  klines_volume (js_or (rs_data response) (VArr [])) = Some volume ->
  symbol_of req' = symbol_of req ->
  days_of req' = days_of req ->
  interval_of req' = interval_of req ->
  historyCache w' !! history_key req ticker =
    historyCache (snd (run o (history cfg req) w)) !! history_key req ticker ->
  clock o' (S (ticks w')) - history_write_time o w (history_key req ticker)
    < HISTORY_CACHE_TTL_MS cfg ->
  exists payload,
    fst (run o (history cfg req) w) = inr (json (BHistory payload None None)) /\
    run o' (history cfg req') w' =
    (inr (json (BHistory payload (Some true) None)), tick (tick w')).
Proof.
  intros Hmock Hticker Hstale Hfetched Hseries Hvolume Hsymbol Hdays Hinterval Hkept Hfresh.
  destruct (history_success_run cfg o req w ticker response p ps volume
              Hmock Hticker Hstale Hfetched Hseries Hvolume)
    as (Hrun & Hcache & _).
  eexists. split; [exact Hrun|].
  apply (history_fresh_hit cfg o' req' _ ticker
           {| he_timestamp := history_write_time o w (history_key req ticker) |}).
  - exact Hmock.
  - by rewrite Hsymbol.
  - unfold history_key in *. rewrite Hdays, Hinterval, Hkept, Hcache. apply lookup_insert_eq.
  - exact Hfresh.
Qed.

Lemma history_round_trip_witness :
  mock_enabled default_config = false /\
  symbolToId !! symbol_of (Sample.query "BTC") = Some "BTCUSDT" /\
  (* served from upstream at time 2000; a [/price] request for ETH is
     served at time 3000; asked again in lower case at time 301999, with
     upstream down *)
  fst (run (Sample.oracle 2000 Sample.market) (Sample.history (Sample.query "BTC"))
           Sample.after_price) = inr (json (BHistory Sample.btc_history None None)) /\
  let later := snd (run (Sample.oracle 3000 Sample.market) (Sample.price (Sample.query "ETH"))
                        Sample.after_history) in
  run (Sample.oracle 301999 (Sample.down 500)) (Sample.history (Sample.query "btc")) later =
    (inr (json (BHistory Sample.btc_history (Some true) None)), tick (tick later)).
Proof.
  assert (Hmock : mock_enabled default_config = false) by reflexivity.
  assert (Hticker : symbolToId !! symbol_of (Sample.query "BTC") = Some "BTCUSDT")
    by (vm_compute; reflexivity).
  split; [exact Hmock|]. split; [exact Hticker|].
  destruct (@history_round_trip Sample.conv default_config
              (Sample.oracle 2000 Sample.market) (Sample.oracle 301999 (Sample.down 500))
              (Sample.query "BTC") (Sample.query "btc") Sample.after_price
              (snd (run (Sample.oracle 3000 Sample.market) (Sample.price (Sample.query "ETH"))
                        Sample.after_history))
              "BTCUSDT"
              {| rs_status := 200; rs_data := Sample.klines |}
              {| pt_t := VNum (Num.of_Z 1700000000000); pt_price := Num.of_Z 88000 |}
              [ {| pt_t := VNum (Num.of_Z 1700003600000); pt_price := Num.of_Z 89000 |} ]
              (Some (Num.of_Z 2500000))
              Hmock Hticker)
    as (payload & Hrun & Hagain).
  - intros c Hc. vm_compute in Hc. discriminate Hc.
  - left. reflexivity.
  - vm_compute. reflexivity.
  - vm_compute. reflexivity.
  - vm_compute. reflexivity.
  - reflexivity.
  - reflexivity.
  - vm_compute. reflexivity.
  - vm_compute. reflexivity.
  - assert (Hfirst : fst (run (Sample.oracle 2000 Sample.market)
                              (Sample.history (Sample.query "BTC")) Sample.after_price) =
                     inr (json (BHistory Sample.btc_history None None)))
      by (vm_compute; reflexivity).
    split; [exact Hfirst|]. intros later.
    unfold Sample.history in Hfirst. rewrite Hfirst in Hrun. injection Hrun as <-.
    exact Hagain.
Defined.

(** X18.  With an entry, no longer fresh, under the key of the request,
    when the primary klines request is answered 429 and the degraded
    request fails too, the status of the second failure decides: on 429
    [/history] answers 200 with the cached payload and the warning of
    the rate limit, on 401 or 403 with the cached payload and the
    warning of the rejection, and on any other status (a timeout counts
    as 500) it answers that status and "History request failed", the
    cached payload notwithstanding.  Both caches stay as they were. *)
Theorem history_rate_limited_stale `{JsConv} (cfg : Config) (o : Oracle) (req : Query)
        (w : World) (ticker : string) (c : HistoryEntry)
        (first second : option HttpResponse) :
  mock_enabled cfg = false ->
  symbolToId !! symbol_of req = Some ticker ->
  historyCache w !! history_key req ticker = Some c ->
  HISTORY_CACHE_TTL_MS cfg <= clock o (S (ticks w)) - he_timestamp c ->
  upstream o (length (requests w)) (history_primary cfg req ticker) = inr first ->
  error_status (AxiosError first) = 429 ->
  upstream o (S (length (requests w))) (history_degraded cfg ticker) = inr second ->
  let status := error_status (AxiosError second) in
  fst (run o (history cfg req) w) =
    inr (if status =? 429
         then json (BHistory (he_payload c) (Some true)
                      (Some "Upstream rate limit hit, serving cached history."))
         else if (status =? 401) || (status =? 403)
         then json (BHistory (he_payload c) (Some true)
                      (Some "Upstream rejected request, serving cached history. Set API_KEY if needed."))
         else status_json status
                (BError "History request failed" (Some (error_details (AxiosError second))))) /\
  priceCache (snd (run o (history cfg req) w)) = priceCache w /\
  historyCache (snd (run o (history cfg req) w)) = historyCache w.
Proof.
  intros Hmock Hticker Hentry Hold Hprimary H429 Hdegraded status.
  assert (Hstale : history_stale cfg o w (history_key req ticker)).
  { intros c' Hc'. rewrite Hentry in Hc'. by injection Hc' as <-. }
  unfold history_key in Hentry.
  history_prelude Hmock Hticker Hstale c' Hcached; [|discriminate Hentry].
  injection Hentry as ->.
  rewrite Hprimary. simpl. rewrite H429. simpl.
  rewrite length_app. simpl. rewrite Nat.add_1_r.
  fold (history_degraded cfg ticker). rewrite Hdegraded. simpl.
  fold status.
  destruct (status =? 429) eqn:Hs429; simpl; [done|].
  destruct (status =? 401) eqn:Hs401; simpl; [done|].
  destruct (status =? 403) eqn:Hs403; simpl; [done|].
  unfold history_failure. fold status. by rewrite Hs401.
Qed.

Lemma history_rate_limited_stale_witness :
  mock_enabled default_config = false /\
  symbolToId !! symbol_of (Sample.query "BTC") = Some "BTCUSDT" /\
  historyCache Sample.after_history !! @history_key Sample.conv (Sample.query "BTC") "BTCUSDT" =
    Some {| he_payload := Sample.btc_history; he_timestamp := 2000 |} /\
  (* five minutes after the write, upstream answers 429 and then 503 *)
  fst (run (limited_once 302000 2 (Sample.failed 503)) (Sample.history (Sample.query "BTC"))
           Sample.after_history) =
    inr (status_json 503 (BError "History request failed" (Some VNull))) /\
  (* and here 429 twice *)
  fst (run (limited_once 302000 2 (Sample.failed 429)) (Sample.history (Sample.query "BTC"))
           Sample.after_history) =
    inr (json (BHistory Sample.btc_history (Some true)
                 (Some "Upstream rate limit hit, serving cached history."))).
Proof.
  assert (Hmock : mock_enabled default_config = false) by reflexivity.
  assert (Hticker : symbolToId !! symbol_of (Sample.query "BTC") = Some "BTCUSDT")
    by (vm_compute; reflexivity).
  assert (Hentry : historyCache Sample.after_history
                     !! @history_key Sample.conv (Sample.query "BTC") "BTCUSDT" =
                   Some {| he_payload := Sample.btc_history; he_timestamp := 2000 |})
    by (vm_compute; reflexivity).
  split; [exact Hmock|]. split; [exact Hticker|]. split; [exact Hentry|]. split.
  - refine (proj1 (@history_rate_limited_stale Sample.conv default_config
                     (limited_once 302000 2 (Sample.failed 503)) (Sample.query "BTC")
                     Sample.after_history "BTCUSDT" _ _ _ Hmock Hticker Hentry _
                     eq_refl eq_refl eq_refl)).
    vm_compute. discriminate.
  - refine (proj1 (@history_rate_limited_stale Sample.conv default_config
                     (limited_once 302000 2 (Sample.failed 429)) (Sample.query "BTC")
                     Sample.after_history "BTCUSDT" _ _ _ Hmock Hticker Hentry _
                     eq_refl eq_refl eq_refl)).
    vm_compute. discriminate.
Defined.

(** X19.  In a process whose history cache has no entry under the key
    of the request, when the klines fetch fails, [/history] answers with
    the status of the upstream response (500 when the failure carries no
    response, or the status 0): on 401 with the error "Unauthorized with
    upstream. Provide API_KEY if required by provider.", on every other
    status, 429 included, with "History request failed"; in both cases
    with the body of the upstream response as the details (null when
    that body is falsy, or when there is no response), and both caches
    stay as they were. *)
Theorem history_failure_without_entry `{JsConv} (cfg : Config) (o : Oracle) (req : Query)
        (w : World) (ticker : string) (failure : option HttpResponse) :
  reachable cfg w ->
  mock_enabled cfg = false ->
  symbolToId !! symbol_of req = Some ticker ->
  historyCache w !! history_key req ticker = None ->
  klines_failed cfg o w req ticker failure ->
  let status :=
    match failure with
    | Some r => if rs_status r =? 0 then 500 else rs_status r
    | None => 500
    end in
  let details :=
    match failure with
    | Some r => if ToBoolean (rs_data r) then rs_data r else VNull
    | None => VNull
    end in
  fst (run o (history cfg req) w) =
    inr (if status =? 401
         then status_json 401
                (BError "Unauthorized with upstream. Provide API_KEY if required by provider."
                        (Some details))
         else status_json status (BError "History request failed" (Some details))) /\
  priceCache (snd (run o (history cfg req) w)) = priceCache w /\
  historyCache (snd (run o (history cfg req) w)) = historyCache w.
Proof.
  intros Hreach Hmock Hticker Hnone Hfailed status details.
  assert (Hstatus : error_status (AxiosError failure) = status) by (by destruct failure).
  assert (Hdetails : error_details (AxiosError failure) = details) by (by destruct failure).
  destruct (reachable_ok cfg w Hreach) as [Hprice _].
  assert (Hspot : priceCache w !! (ticker +:+ ":usd") = None).
  { destruct (priceCache w !! (ticker +:+ ":usd")) as [sp|] eqn:Hsp; [|done].
    destruct (spot_key_never_written _ ticker sp Hticker (Hprice _ _ Hsp)). }
  assert (Hstale : history_stale cfg o w (history_key req ticker)).
  { intros c Hc. rewrite Hnone in Hc. discriminate Hc. }
  unfold history_key in Hnone. unfold klines_failed in Hfailed.
  history_prelude Hmock Hticker Hstale c Hcached; [discriminate Hnone|].
  destruct Hfailed as [[Hprimary Hnot429]|(first & Hprimary & H429 & Hdegraded)].
  - rewrite Hprimary. simpl. rewrite Hstatus in *. apply Z.eqb_neq in Hnot429.
    rewrite Hnot429. simpl. rewrite Hstatus, Hnot429. simpl.
    unfold history_failure. rewrite Hstatus, Hdetails.
    by destruct (status =? 401).
  - rewrite Hprimary. simpl. rewrite H429. simpl.
    rewrite length_app. simpl. rewrite Nat.add_1_r.
    fold (history_degraded cfg ticker). rewrite Hdegraded. simpl. rewrite Hstatus.
    destruct (status =? 429) eqn:Hs429; simpl.
    + rewrite Hspot. simpl. unfold history_failure. rewrite Hstatus, Hdetails.
      by destruct (status =? 401).
    + unfold history_failure. rewrite Hstatus, Hdetails. by destruct (status =? 401).
Qed.

Lemma history_failure_without_entry_witness :
  @reachable Sample.conv default_config Sample.after_price /\
  mock_enabled default_config = false /\
  symbolToId !! symbol_of (Sample.query "BTC") = Some "BTCUSDT" /\
  historyCache Sample.after_price !! @history_key Sample.conv (Sample.query "BTC") "BTCUSDT" =
    None /\
  (* upstream answers 401 with the body {code: -1003, msg: "Too many requests."} *)
  fst (run (Sample.oracle 2000 (Sample.refusing 401)) (Sample.history (Sample.query "BTC"))
           Sample.after_price) =
    inr (status_json 401
           (BError "Unauthorized with upstream. Provide API_KEY if required by provider."
                   (Some (VObj [("code", VNum (Num.of_Z (-1003)));
                                ("msg", VStr "Too many requests.")])))) /\
  (* upstream answers 429 twice, with that body *)
  fst (run (Sample.oracle 2000 (Sample.refusing 429)) (Sample.history (Sample.query "BTC"))
           Sample.after_price) =
    inr (status_json 429
           (BError "History request failed"
                   (Some (VObj [("code", VNum (Num.of_Z (-1003)));
                                ("msg", VStr "Too many requests.")])))).
Proof.
  assert (Hreach : @reachable Sample.conv default_config Sample.after_price)
    by apply reachable_price, reachable_initial.
  assert (Hmock : mock_enabled default_config = false) by reflexivity.
  assert (Hticker : symbolToId !! symbol_of (Sample.query "BTC") = Some "BTCUSDT")
    by (vm_compute; reflexivity).
  assert (Hnone : historyCache Sample.after_price
                    !! @history_key Sample.conv (Sample.query "BTC") "BTCUSDT" = None)
    by (vm_compute; reflexivity).
  split; [exact Hreach|]. split; [exact Hmock|]. split; [exact Hticker|].
  split; [exact Hnone|]. split.
  - refine (proj1 (@history_failure_without_entry Sample.conv default_config
                     (Sample.oracle 2000 (Sample.refusing 401)) (Sample.query "BTC")
                     Sample.after_price "BTCUSDT"
                     (Some {| rs_status := 401; rs_data := Sample.error_body |})
                     Hreach Hmock Hticker Hnone _)).
    left. split; [reflexivity|]. vm_compute. discriminate.
  - refine (proj1 (@history_failure_without_entry Sample.conv default_config
                     (Sample.oracle 2000 (Sample.refusing 429)) (Sample.query "BTC")
                     Sample.after_price "BTCUSDT"
                     (Some {| rs_status := 429; rs_data := Sample.error_body |})
                     Hreach Hmock Hticker Hnone _)).
    right. eexists. split; [reflexivity|]. split; reflexivity.
Defined.

(** X20.  When upstream answers the klines fetch with a body that is
    truthy and from which [klines.map] makes no series (an object, a
    string, a number, or an array with a null row), [/history] answers
    500 "History request failed" with null details, whether or not the
    cache has an entry, no longer fresh, under the key of the request,
    and both caches stay as they were. *)
Theorem history_ill_shaped `{JsConv} (cfg : Config) (o : Oracle) (req : Query)
        (w : World) (ticker : string) (response : HttpResponse) :
  mock_enabled cfg = false ->
  symbolToId !! symbol_of req = Some ticker ->
  history_stale cfg o w (history_key req ticker) ->
  klines_fetched cfg o w req ticker response ->
  klines_map (js_or (rs_data response) (VArr [])) = None ->
  fst (run o (history cfg req) w) =
    inr (status_json 500 (BError "History request failed" (Some VNull))) /\
  priceCache (snd (run o (history cfg req) w)) = priceCache w /\
  historyCache (snd (run o (history cfg req) w)) = historyCache w.
Proof.
  intros Hmock Hticker Hstale Hfetched Hseries.
  unfold klines_fetched in Hfetched.
  history_prelude Hmock Hticker Hstale c Hcached.
  - destruct Hfetched as [Hprimary|(failure & Hprimary & Hstatus & Hdegraded)].
    + rewrite Hprimary. simpl. by rewrite Hseries.
    + rewrite Hprimary. simpl. rewrite Hstatus. simpl.
      rewrite length_app. simpl. rewrite Nat.add_1_r.
      fold (history_degraded cfg ticker). rewrite Hdegraded. simpl.
      by rewrite Hseries.
  - destruct Hfetched as [Hprimary|(failure & Hprimary & Hstatus & Hdegraded)].
    + rewrite Hprimary. simpl. by rewrite Hseries.
    + rewrite Hprimary. simpl. rewrite Hstatus. simpl.
      rewrite length_app. simpl. rewrite Nat.add_1_r.
      fold (history_degraded cfg ticker). rewrite Hdegraded. simpl.
      by rewrite Hseries.
Qed.

Lemma history_ill_shaped_witness :
  mock_enabled default_config = false /\
  symbolToId !! symbol_of (Sample.query "BTC") = Some "BTCUSDT" /\
  (* five minutes after the write of the entry, upstream answers 200
     with the object {msg: "Invalid symbol."} *)
  fst (run (Sample.oracle 302000 (fun _ => Sample.ok (VObj [("msg", VStr "Invalid symbol.")])))
           (Sample.history (Sample.query "BTC")) Sample.after_history) =
    inr (status_json 500 (BError "History request failed" (Some VNull))).
Proof.
  assert (Hmock : mock_enabled default_config = false) by reflexivity.
  assert (Hticker : symbolToId !! symbol_of (Sample.query "BTC") = Some "BTCUSDT")
    by (vm_compute; reflexivity).
  split; [exact Hmock|]. split; [exact Hticker|].
  refine (proj1 (@history_ill_shaped Sample.conv default_config
                   (Sample.oracle 302000
                      (fun _ => Sample.ok (VObj [("msg", VStr "Invalid symbol.")])))
                   (Sample.query "BTC") Sample.after_history "BTCUSDT"
                   {| rs_status := 200; rs_data := VObj [("msg", VStr "Invalid symbol.")] |}
                   Hmock Hticker _ _ eq_refl)).
  - intros c Hc. vm_compute in Hc. injection Hc as <-. vm_compute. discriminate.
  - left. reflexivity.
Defined.

(** ** Days that are not positive *)

Lemma limit_unfloored (n : Z) :
  -2000 <= n <= 0 ->
  Num.min (Num.mul (Num.of_Z n) (Num.of_Z 24)) (Num.of_Z 1000) = Num.of_Z (n * 24) /\
  Num.min (Num.of_Z n) (Num.of_Z 1000) = Num.of_Z n.
Proof.
  intros Hn.
  assert (Hall : Forall (fun n =>
                   Num.min (Num.mul (Num.of_Z n) (Num.of_Z 24)) (Num.of_Z 1000) =
                     Num.of_Z (n * 24) /\
                   Num.min (Num.of_Z n) (Num.of_Z 1000) = Num.of_Z n)
                 (seqZ (-2000) 2001)).
  { refine (bool_decide_unpack _ _). vm_compute. exact I. }
  rewrite Forall_forall in Hall. apply Hall. apply elem_of_seqZ. lia.
Qed.

(** X21.  The limit of the klines request is capped at 1000 and has no
    floor: for [days] that reads as a whole number [n] from -2000 to 0,
    [/history] asks upstream for [n * 24] rows on the interval 1h and
    for [n] rows on the interval 1d, that is for no row or for a negative
    number of rows. *)
Theorem limit_without_floor `{JsConv} (cfg : Config) (req : Query) (ticker d : string) (n : Z) :
  q_days req = Some d ->
  d <> "" ->
  StringToNumber d = Num.of_Z n ->
  -2000 <= n <= 0 ->
  rq_params (history_primary cfg req ticker) =
  KlineParams ticker
    (if String.eqb (interval_of req) "daily" then "1d" else "1h")
    (Num.of_Z (if String.eqb (interval_of req) "daily" then n else n * 24)).
Proof.
  intros Hdays Hd Hread Hn.
  assert (Hnumber : ToNumber (js_or (days_of req) (VNum (Num.of_Z 1))) = Num.of_Z n).
  { rewrite days_truthy. unfold days_of. rewrite Hdays. unfold js_or. simpl.
    apply String.eqb_neq in Hd. rewrite Hd. simpl. exact Hread. }
  destruct (limit_unfloored n Hn) as [Hhourly Hdaily].
  unfold history_primary, axios_request. simpl. f_equal.
  - unfold binanceInterval_of.
    destruct (String.eqb (interval_of req) "hourly") eqn:Hh.
    + apply String.eqb_eq in Hh. by rewrite Hh.
    + by destruct (String.eqb (interval_of req) "daily").
  - unfold binanceInterval_of, limit_of.
    destruct (String.eqb (interval_of req) "hourly") eqn:Hh.
    + apply String.eqb_eq in Hh. rewrite Hh. simpl. by rewrite Hnumber.
    + destruct (String.eqb (interval_of req) "daily"); simpl; by rewrite Hnumber.
Qed.

Lemma limit_without_floor_witness :
  let req := {| q_symbol := None; q_currency := None; q_days := Some "0"; q_interval := None |} in
  rq_params (@history_primary Sample.conv default_config req "BTCUSDT") =
  KlineParams "BTCUSDT" "1h" (Num.of_Z 0).
Proof.
  intros req.
  refine (@limit_without_floor Sample.conv default_config req "BTCUSDT" "0" 0
            eq_refl _ eq_refl _).
  - discriminate.
  - lia.
Defined.

(** ** The pair selector of the page *)

Section Selector.
#[local] Arguments String.append : simpl nomatch.

Lemma split_dash_free (s : string) :
  App.dash_free s = true -> App.split "-" s = [s].
Proof.
  induction s as [|c s IH]; simpl; [done|].
  intros [Hc Hs]%andb_prop. apply negb_true_iff in Hc. rewrite Hc, (IH Hs). done.
Qed.

Lemma split_dash (s c : string) :
  App.dash_free s = true -> App.dash_free c = true ->
  App.split "-" (s +:+ "-" +:+ c) = [s; c].
Proof.
  intros Hs Hc. change ("-" +:+ c) with (String "-" c).
  induction s as [|a s IH]; simpl.
  - by rewrite split_dash_free.
  - simpl in Hs. apply andb_prop in Hs as [Ha Hs]. apply negb_true_iff in Ha.
    rewrite Ha, (IH Hs). done.
Qed.

End Selector.

(** X22.  Choosing an option of the selector selects the pair of that
    option, for every pair whose symbol and currency have no dash: the
    value [symbol-currency] of the option splits back into the two. *)
Theorem selector_round_trip (s c : string) :
  App.dash_free s = true ->
  App.dash_free c = true ->
  App.onChange (App.option_value {| App.symbol := Some s; App.currency := Some c |}) =
  {| App.symbol := Some s; App.currency := Some c |}.
Proof.
  intros Hs Hc. unfold App.onChange, App.option_value. simpl App.text.
  by rewrite (split_dash s c Hs Hc).
Qed.

Lemma selector_round_trip_witness :
  App.onChange (App.option_value {| App.symbol := Some "ASTER"; App.currency := Some "USD" |}) =
  {| App.symbol := Some "ASTER"; App.currency := Some "USD" |}.
Proof. exact (selector_round_trip "ASTER" "USD" eq_refl eq_refl). Defined.

(** A request for a symbol of the table, in USD, is not turned down. *)
Lemma price_not_turned_down `{JsConv} (cfg : Config) (o : Oracle) (req : Query) (w : World)
      (ticker : string) :
  symbolToId !! symbol_of req = Some ticker ->
  currency_of req = "USD" ->
  exists r, fst (run o (price cfg req) w) = inr r /\ ~ turned_down r.
Proof.
  intros Hticker Hcur.
  apply (wp_run o (price cfg req)
           (fun res _ => exists r, res = inr r /\ ~ turned_down r)).
  unfold price. rewrite Hticker, Hcur. simpl.
  repeat wp_step.
  all: eexists; split; [reflexivity|]; intros [Hbody|Hbody]; discriminate Hbody.
Qed.

Lemma history_not_turned_down `{JsConv} (cfg : Config) (o : Oracle) (req : Query) (w : World)
      (ticker : string) :
  symbolToId !! symbol_of req = Some ticker ->
  exists r, fst (run o (history cfg req) w) = inr r /\ ~ turned_down r.
Proof.
  intros Hticker.
  apply (wp_run o (history cfg req)
           (fun res _ => exists r, res = inr r /\ ~ turned_down r)).
  unfold history. rewrite Hticker. simpl. intros now.
  destruct (mock_enabled cfg); simpl;
    [eexists; split; [reflexivity|]; intros [Hbody|Hbody]; discriminate Hbody|].
  repeat wp_step.
  all: eexists; split; [reflexivity|].
  all: unfold history_failure; repeat match goal with |- context [if ?b then _ else _] => destruct b end.
  all: intros [Hbody|Hbody]; discriminate Hbody.
Qed.

(** X23.  Every pair that the selector of the page offers is one that
    the proxy serves: choosing it selects that pair, and neither the
    [/price] request nor the [/history] request that the page then sends
    is turned down as an unsupported symbol or currency, whatever the
    configuration and the state of the proxy. *)
Theorem offered_pairs_served `{JsConv} (cfg : Config) (o : Oracle) (w : World) :
  Forall (fun pair =>
            App.onChange (App.option_value pair) = pair /\
            (exists r, fst (run o (price cfg (App.fetchPrice_query pair)) w) = inr r /\
                       ~ turned_down r) /\
            (exists r, fst (run o (history cfg (App.fetchHistory_query pair)) w) = inr r /\
                       ~ turned_down r))
         App.PAIRS.
Proof.
  unfold App.PAIRS.
  repeat (apply List.Forall_cons;
          [split; [reflexivity|]; split;
           [eapply price_not_turned_down; vm_compute; reflexivity
           |eapply history_not_turned_down; vm_compute; reflexivity]|]).
  apply List.Forall_nil.
Qed.
